(** * Reverb inventory processor: identifier extraction and update policies

    A shallow embedding of the decision logic of the Reverb batch scripts
    (Multi Store Inventory Updater, Multi Store Price and Inventory Updater,
    Price Variance Updater, Reverb Data Scraper, Reverb Updater) and the
    properties their specification states about it.

    Conventions of the embedding:
    - a Python [str] is a list of characters; a character is a code point
      below U+0100, carried by the 8-bit type [ascii].  The Unicode classes
      used by the scripts ([str.isalpha], [str.isdigit], [str.isspace], the
      [\d] of [re]) are the ones CPython implements, restricted to that
      range;
    - a Python [float] is an IEEE-754 binary64 number: [spec_float] with
      precision 53 and maximal exponent 1024, with the operations of
      [SpecFloat];
    - the remote listings API is an environment: each row comes with the
      answers the API gave while the row was processed. *)

From Stdlib Require Import Bool Arith ZArith NArith List Ascii String Lia.
From Stdlib Require Import SpecFloat DecimalString.
Import ListNotations.

Set Implicit Arguments.

(* ================================================================== *)
(** * Python values and primitives *)
(* ================================================================== *)

Module Py.

(** ** Strings *)

Definition str : Type := list ascii.

(** [lit "abc"] is the Python literal ['abc']. *)
Definition lit (s : string) : str := list_ascii_of_string s.

Definition code (c : ascii) : N := N_of_ascii c.

Definition in_range (lo hi : N) (c : ascii) : bool :=
  (lo <=? code c)%N && (code c <=? hi)%N.

Definition one_of (l : list N) (c : ascii) : bool :=
  existsb (N.eqb (code c)) l.

(** [c.isspace()]: U+0009..U+000D, U+001C..U+0020, U+0085, U+00A0. *)
Definition isspace (c : ascii) : bool :=
  in_range 9 13 c || in_range 28 32 c || one_of [133; 160]%N c.

(** [c.isalpha()]: general category L*.  Below U+0100 these are the ASCII
    letters, U+00AA, U+00B5, U+00BA, U+00C0..U+00D6, U+00D8..U+00F6 and
    U+00F8..U+00FF. *)
Definition isalpha (c : ascii) : bool :=
  in_range 65 90 c || in_range 97 122 c || one_of [170; 181; 186]%N c
  || in_range 192 214 c || in_range 216 246 c || in_range 248 255 c.

(** [c.isdigit()]: the decimal digits and the superscripts U+00B2, U+00B3,
    U+00B9. *)
Definition isdigit (c : ascii) : bool :=
  in_range 48 57 c || one_of [178; 179; 185]%N c.

(** [s.isdigit()]: every character is a digit and there is at least one. *)
Definition str_isdigit (s : str) : bool :=
  match s with
  | [] => false
  | _ :: _ => forallb isdigit s
  end.

(** [any(c.isalpha() for c in s)] *)
Definition any_isalpha (s : str) : bool := existsb isalpha s.

Fixpoint lstrip (s : str) : str :=
  match s with
  | c :: s' => if isspace c then lstrip s' else s
  | [] => []
  end.

Definition rstrip (s : str) : str := rev (lstrip (rev s)).

(** [s.strip()] *)
Definition strip (s : str) : str := rstrip (lstrip s).

Definition str_eqb (a b : str) : bool :=
  if list_eq_dec ascii_dec a b then true else false.

Fixpoint startswith (k s : str) : bool :=
  match k, s with
  | [], _ => true
  | kc :: k', c :: s' => Ascii.eqb kc c && startswith k' s'
  | _ :: _, [] => false
  end.

(** [k in s] for two strings: [k] occurs in [s] as a substring. *)
Fixpoint contains (k s : str) : bool :=
  startswith k s ||
  match s with
  | [] => false
  | _ :: s' => contains k s'
  end.

(** [len(s)] *)
Definition len (s : str) : nat := List.length s.

(** [str(n)] for a length. *)
Definition str_of_nat (n : nat) : str :=
  lit (NilEmpty.string_of_uint (Nat.to_uint n)).

(** ** Floats *)

Definition float : Type := spec_float.

Definition prec : Z := 53.
Definition emax : Z := 1024.

Definition float_of_Z (z : Z) : float := binary_normalize prec emax z 0 false.

Definition fsub (x y : float) : float := SFsub prec emax x y.
Definition fabs (x : float) : float := SFabs x.

(** The comparison operators of Python on floats: every comparison with a
    NaN is false. *)
Definition flt (x y : float) : bool :=
  match SFcompare x y with Some Lt => true | _ => false end.
Definition fgt (x y : float) : bool :=
  match SFcompare x y with Some Gt => true | _ => false end.
Definition fle (x y : float) : bool :=
  match SFcompare x y with Some (Lt | Eq) => true | _ => false end.
Definition fge (x y : float) : bool :=
  match SFcompare x y with Some (Gt | Eq) => true | _ => false end.
Definition feq (x y : float) : bool :=
  match SFcompare x y with Some Eq => true | _ => false end.

Definition is_nan (x : float) : bool :=
  match x with S754_nan => true | _ => false end.

(** Exceptions the modelled fragments can raise. *)
Inductive exn : Type := OverflowError | ValueError.

Inductive result (A : Type) : Type :=
| Ok (a : A)
| Raise (e : exn).
Arguments Ok {A} a.
Arguments Raise {A} e.

(** The integer with the sign [s] and the magnitude [m]. *)
Definition signed (s : bool) (m : Z) : Z := if s then (- m)%Z else m.

(** [int(x)] on a float truncates toward zero; it raises on an infinity and
    on a NaN. *)
Definition int_of_float (x : float) : result Z :=
  match x with
  | S754_zero _ => Ok 0%Z
  | S754_finite s m e =>
      Ok (match e with
          | Z0 => signed s (Zpos m)
          | Zpos p => signed s (Zpos m * 2 ^ Zpos p)%Z
          | Zneg p => signed s (Zpos m / 2 ^ Zpos p)%Z
          end)
  | S754_infinity _ => Raise OverflowError
  | S754_nan => Raise ValueError
  end.

(** ** Dynamically typed values, as far as the scripts inspect them *)

Inductive value : Type :=
| PyNone
| PyFloat (x : float)
| PyInt (z : Z)
| PyStr (s : str).

(** [pd.isna(v)] on a scalar *)
Definition isna (v : value) : bool :=
  match v with
  | PyNone => true
  | PyFloat x => is_nan x
  | _ => false
  end.

(** [isinstance(v, str)] *)
Definition isinstance_str (v : value) : bool :=
  match v with PyStr _ => true | _ => false end.

(** [a or b] on two results of [re.match] (a match object is truthy). *)
Definition or_else {A : Type} (a b : option A) : option A :=
  match a with Some _ => a | None => b end.

End Py.

(* ================================================================== *)
(** * The fragment of [re] used by the scraper *)
(* ================================================================== *)

Module Re.
Import Py.

(** An item of a bracketed set: a range [a-z] or a single character. *)
Inductive set_item : Type :=
| Range (lo hi : ascii)
| Single (c : ascii).

(** What matches exactly one character. *)
Inductive atom : Type :=
| Chr (c : ascii)                (* a literal character *)
| Cls (items : list set_item)    (* [...] *)
| Dig.                           (* \d *)

Inductive regex : Type :=
| Bol                            (* ^ *)
| Eol                            (* $ *)
| One (a : atom)
| Plus (a : atom)                (* a+, greedy *)
| Count (a : atom) (n : nat)     (* a{n} *)
| Group (r : regex)              (* ( r ), the capturing group 1 *)
| Cat (r1 r2 : regex).

Declare Scope re_scope.
Delimit Scope re_scope with re.
Bind Scope re_scope with regex.
Infix ";;" := Cat (at level 61, right associativity) : re_scope.

Definition item_matches (i : set_item) (c : ascii) : bool :=
  match i with
  | Range lo hi => in_range (code lo) (code hi) c
  | Single c' => Ascii.eqb c' c
  end.

(** [\d] on a [str] pattern is the general category Nd; below U+0100 its
    members are the ten ASCII digits. *)
Definition atom_matches (a : atom) (c : ascii) : bool :=
  match a with
  | Chr c' => Ascii.eqb c' c
  | Cls items => existsb (fun i => item_matches i c) items
  | Dig => in_range 48 57 c
  end.

Section Matcher.
Variable A : Type.

(** The backtracking matcher in continuation-passing style.  A continuation
    receives the position reached and the input left; [None] makes the
    matcher backtrack. *)
Definition cont : Type := nat -> str -> option A.

(** Zero or more [a], longest first. *)
Fixpoint star (a : atom) (pos : nat) (s : str) (k : cont) : option A :=
  match s with
  | c :: s' =>
      if atom_matches a c then
        match star a (S pos) s' k with
        | Some r => Some r
        | None => k pos s
        end
      else k pos s
  | [] => k pos s
  end.

Fixpoint count (a : atom) (n : nat) (pos : nat) (s : str) (k : cont)
  : option A :=
  match n with
  | O => k pos s
  | S n' =>
      match s with
      | c :: s' => if atom_matches a c then count a n' (S pos) s' k else None
      | [] => None
      end
  end.

(** [g] is the text captured by group 1 so far. *)
Fixpoint rmatch (r : regex) (pos : nat) (s : str) (g : option str)
  (k : nat -> str -> option str -> option A) : option A :=
  match r with
  | Bol => if Nat.eqb pos 0 then k pos s g else None
  | Eol =>
      (* the end of the string, or just before a final newline *)
      match s with
      | [] => k pos s g
      | [c] => if Ascii.eqb c "010"%char then k pos s g else None
      | _ => None
      end
  | One a =>
      match s with
      | c :: s' => if atom_matches a c then k (S pos) s' g else None
      | [] => None
      end
  | Plus a =>
      match s with
      | c :: s' =>
          if atom_matches a c
          then star a (S pos) s' (fun p' s'' => k p' s'' g)
          else None
      | [] => None
      end
  | Count a n => count a n pos s (fun p' s'' => k p' s'' g)
  | Group r' =>
      rmatch r' pos s g (fun p' s' _ => k p' s' (Some (firstn (p' - pos) s)))
  | Cat r1 r2 =>
      rmatch r1 pos s g (fun p' s' g' => rmatch r2 p' s' g' k)
  end.

End Matcher.

(** A match object, reduced to what the scraper reads of it: group 1. *)
Record Match : Type := MkMatch { groups : option str }.

(** [m.group(1)]; both patterns of the scraper make the group mandatory. *)
Definition group1 (m : Match) : str :=
  match groups m with Some g => g | None => [] end.

(** [re.match(r, s)]: a match anchored at the start of [s]. *)
Definition re_match (r : regex) (s : str) : option Match :=
  rmatch r 0 s None (fun _ _ g => Some (MkMatch g)).

End Re.

(* ================================================================== *)
(** * Reverb Data Scraper *)
(* ================================================================== *)

Module DataScraper.
Import Py Re.
Local Open Scope re_scope.
Local Open Scope char_scope.
Local Open Scope list_scope.

(** [[A-Za-z]], [[A-Za-z0-9]] and [[Nn]] *)
Definition letters : atom := Cls [Range "A" "Z"; Range "a" "z"].
Definition alnums : atom := Cls [Range "A" "Z"; Range "a" "z"; Range "0" "9"].
Definition Nn : atom := Cls [Single "N"; Single "n"].

(** [r'^[A-Za-z]+-([A-Za-z0-9]{10})-[Nn]ew$'] *)
Definition pattern1_10 : regex :=
  Bol ;; Plus letters ;; One (Chr "-") ;; Group (Count alnums 10) ;;
  One (Chr "-") ;; One Nn ;; One (Chr "e") ;; One (Chr "w") ;; Eol.

(** [r'^[A-Za-z]+-([A-Za-z0-9]{10})-[Nn]$'] *)
Definition pattern2_10 : regex :=
  Bol ;; Plus letters ;; One (Chr "-") ;; Group (Count alnums 10) ;;
  One (Chr "-") ;; One Nn ;; Eol.

(** [r'^[A-Za-z]+-(\d{12})-[Nn]ew$'] *)
Definition pattern1_12 : regex :=
  Bol ;; Plus letters ;; One (Chr "-") ;; Group (Count Dig 12) ;;
  One (Chr "-") ;; One Nn ;; One (Chr "e") ;; One (Chr "w") ;; Eol.

(** [r'^[A-Za-z]+-(\d{12})-[Nn]$'] *)
Definition pattern2_12 : regex :=
  Bol ;; Plus letters ;; One (Chr "-") ;; Group (Count Dig 12) ;;
  One (Chr "-") ;; One Nn ;; Eol.

(** [extract_asin_from_sku(sku)] returns [(asin, success)]. *)
Definition extract_asin_from_sku (sku : value) : str * bool :=
  if isna sku || negb (isinstance_str sku) then ([], false)
  else
    match sku with
    | PyStr s =>
        let sku := strip s in
        (* the eBay attempt, reached when the Amazon attempt did not return *)
        let try_12 :=
          let match1_12 := re_match pattern1_12 sku in
          let match2_12 := re_match pattern2_12 sku in
          let match_12 := or_else match1_12 match2_12 in
          match match_12 with
          | Some m =>
              let code := group1 m in
              if str_isdigit code then
                let first_half := firstn 6 code in
                let second_half := skipn 6 code in
                (second_half ++ first_half, true)
              else ([], false)
          | None => ([], false)
          end in
        let match1_10 := re_match pattern1_10 sku in
        let match2_10 := re_match pattern2_10 sku in
        let match_10 := or_else match1_10 match2_10 in
        match match_10 with
        | Some m =>
            let code := group1 m in
            if any_isalpha code then
              let first_half := firstn 5 code in
              let second_half := skipn 5 code in
              (second_half ++ first_half, true)
            else try_12
        | None => try_12
        end
    | _ => ([], false)
    end.

(** [is_valid_asin(asin)] returns [(is_valid, reason)]. *)
Definition is_valid_asin (asin : value) : bool * str :=
  match asin with
  | PyStr s =>
      if str_eqb (strip s) [] then (false, lit "Empty or missing ASIN")
      else
        let asin := strip s in
        let asin_len := len asin in
        if Nat.eqb asin_len 10 then
          let has_letter := any_isalpha asin in
          if has_letter then (true, lit "Valid Amazon ASIN")
          else (false,
                lit "Length 10 but no alphabets (should contain letters)")
        else if Nat.eqb asin_len 12 then
          if str_isdigit asin then (true, lit "Valid eBay ASIN")
          else (false, lit "Length 12 but contains non-numeric characters")
        else
          (false,
           lit "Invalid length: " ++ str_of_nat asin_len
             ++ lit " (must be 10 or 12)")
  | _ => (false, lit "Empty or missing ASIN")
  end.

(** [verify_asin_from_sku(asin, sku)]; an empty argument is falsy. *)
Definition verify_asin_from_sku (asin sku : str) : bool * str :=
  match asin, sku with
  | [], _ | _, [] => (false, [])
  | _, _ =>
      let '(extracted_asin, success) := extract_asin_from_sku (PyStr sku) in
      if negb success then (false, [])
      else (str_eqb extracted_asin asin, extracted_asin)
  end.

(** [generate_link(asin)] *)
Definition generate_link (asin : value) : str :=
  match asin with
  | PyStr s =>
      if str_eqb s [] then []
      else
        let asin := strip s in
        let asin_len := len asin in
        if Nat.eqb asin_len 10 && any_isalpha asin then
          lit "https://www.amazon.com/dp/" ++ asin
        else if Nat.eqb asin_len 12 && str_isdigit asin then
          lit "https://www.ebay.com/itm/" ++ asin
        else []
  | _ => []
  end.

End DataScraper.

(* ================================================================== *)
(** * The remote listings API, as the updaters see it *)
(* ================================================================== *)

Module Reverb.
Import Py.
Local Open Scope list_scope.

(** The ['inventory'] entry of a listing: an object with a ['quantity'], or
    a bare number. *)
Inductive inventory_json : Type :=
| InvObj (quantity : option Z)
| InvNum (n : Z).

(** The ['price'] entry of a listing: an object with an ['amount'] and a
    ['currency'], or a bare number.  An amount is held as the float that
    [float(...)] makes of it. *)
Inductive price_json : Type :=
| PriceObj (amount : option float) (currency : option str)
| PriceNum (x : float).

Record Listing : Type := MkListing {
  l_id : str;
  l_inventory : option inventory_json;
  l_price : option price_json
}.

(** The body of a PUT on a listing:
    [{'inventory': n, 'price': {'amount': str(p), 'currency': c}}],
    each entry optional. *)
Record Payload : Type := MkPayload {
  p_inventory : option Z;
  p_price : option (float * str)
}.

(** A counter dictionary such as [stats]; [bump k d] is [d[k] += 1]. *)
Definition Stats : Type := string -> nat.
Definition no_stats : Stats := fun _ => 0.
Definition bump (k : string) (d : Stats) : Stats :=
  fun k' => if String.eqb k k' then S (d k') else d k'.

Definition zero : float := S754_zero false.

(** [[
inventory = listing.get('inventory', 0)
if isinstance(inventory, dict):
    current_inventory = inventory.get('quantity', 0)
else:
    current_inventory = int(inventory) if inventory else 0
]] *)
Definition current_inventory (listing : Listing) : Z :=
  match l_inventory listing with
  | Some (InvObj (Some q)) => q
  | Some (InvObj None) => 0%Z
  | Some (InvNum n) => if Z.eqb n 0 then 0%Z else n
  | None => 0%Z
  end.

(** [[
current_price_data = listing.get('price', {})
if isinstance(current_price_data, dict):
    reverb_price = float(current_price_data.get('amount', 0))
    currency = current_price_data.get('currency', 'USD')
else:
    reverb_price = float(current_price_data) if current_price_data else 0.0
    currency = 'USD'
]] *)
Definition current_price (listing : Listing) : float * str :=
  match l_price listing with
  | Some (PriceObj amount currency) =>
      (match amount with Some a => a | None => zero end,
       match currency with Some c => c | None => lit "USD" end)
  | Some (PriceNum x) => (if feq x zero then zero else x, lit "USD")
  | None => (zero, lit "USD")
  end.

End Reverb.

(* ================================================================== *)
(** * Multi Store Inventory Updater *)
(* ================================================================== *)

Module MultiStoreInventoryUpdater.
Import Py.

(** [calculate_inventory(stock)]: the stock value used directly. *)
Definition calculate_inventory (stock : float) : result Z :=
  if isna (PyFloat stock) then Ok 0%Z
  else int_of_float stock.

End MultiStoreInventoryUpdater.

(* ================================================================== *)
(** * Multi Store Price and Inventory Updater *)
(* ================================================================== *)

Module MultiStorePriceInventoryUpdater.
Import Py Reverb.
Local Open Scope list_scope.

Definition calculate_inventory (stock : float) : result Z :=
  if isna (PyFloat stock) then Ok 0%Z
  else int_of_float stock.

(** [str.upper()], character by character.  U+00DF, U+00B5 and U+00FF are
    left as they are: their upper-case forms are ["SS"] and two code points
    above U+00FF, none of which a keyword of the scripts contains. *)
Definition upper_char (c : ascii) : ascii :=
  if in_range 97 122 c || in_range 224 246 c || in_range 248 254 c
  then ascii_of_N (code c - 32)
  else c.

Definition upper (s : str) : str := map upper_char s.

Definition price_keywords : list str :=
  [lit "POSTED PRICE"; lit "Posted Price"; lit "posted price";
   lit "POSTED_PRICE"; lit "Posted_Price"; lit "posted_price";
   lit "PRICE"; lit "Price"; lit "price"].

(** The inner loop of the column search: the first keyword found in the
    column name sets [price_column]. *)
Fixpoint scan_keywords (keywords : list str) (col col_str : str)
  (price_column : option str) : option str :=
  match keywords with
  | [] => price_column
  | keyword :: rest =>
      if contains (upper keyword) (upper col_str) then Some col
      else scan_keywords rest col col_str price_column
  end.

(** [if price_column:] an absent or empty name is falsy. *)
Definition truthy (price_column : option str) : bool :=
  match price_column with
  | Some (_ :: _) => true
  | _ => false
  end.

(** [[
for col in df.columns:
    col_str = str(col).strip()
    for keyword in price_keywords:
        if keyword.upper() in col_str.upper():
            price_column = col
            break
    if price_column:
        break
]] *)
Fixpoint scan_columns (columns : list str) (price_column : option str)
  : option str :=
  match columns with
  | [] => price_column
  | col :: rest =>
      let col_str := strip col in
      let price_column := scan_keywords price_keywords col col_str price_column in
      if truthy price_column then price_column
      else scan_columns rest price_column
  end.

Definition find_posted_price_column (columns : list str) : option str :=
  scan_columns columns None.

(** The price update of a row: the price is sent only when it raises the
    listed one.
    Returns the PUT body sent, if any, and the two counter dictionaries
    [stats] and [overall_stats].  [update_ok] is the answer of
    [update_listing] to that PUT. *)
Definition update_price (listing : Listing) (posted_price : option float)
  (update_ok : bool) (stats overall_stats : Stats)
  : option Payload * (Stats * Stats) :=
  match posted_price with
  | Some posted_price =>
      let '(reverb_price, currency) := current_price listing in
      if fgt posted_price reverb_price then
        let price_data := MkPayload None (Some (posted_price, currency)) in
        if update_ok
        then (Some price_data,
              (bump "price_updated" stats, bump "price_updated" overall_stats))
        else (Some price_data,
              (bump "errors" stats, bump "total_errors" overall_stats))
      else (None,
            (bump "price_skipped" stats, bump "price_skipped" overall_stats))
  | None => (None, (stats, overall_stats))
  end.

End MultiStorePriceInventoryUpdater.

(* ================================================================== *)
(** * Reverb Updater *)
(* ================================================================== *)

Module ReverbUpdater.
Import Py Reverb.
Local Open Scope list_scope.

Definition seven : float := Eval vm_compute in float_of_Z 7.
Definition ten : float := Eval vm_compute in float_of_Z 10.

(** [calculate_inventory(stock)]: the inventory level 0, 1 or 2. *)
Definition calculate_inventory (stock : float) : Z :=
  if isna (PyFloat stock) || flt stock seven then 0%Z
  else if fle seven stock && fle stock ten then 1%Z
  else 2%Z.

Definition price_keywords : list str :=
  [lit "price"; lit "Price"; lit "PRICE"; lit "cost"; lit "Cost"; lit "COST";
   lit "amount"; lit "Amount"; lit "AMOUNT";
   lit "value"; lit "Value"; lit "VALUE"].

(** [find_price_column(df)], on the column names of [df]. *)
Fixpoint find_price_column (columns : list str) : option str :=
  match columns with
  | [] => None
  | col :: rest =>
      if existsb (fun keyword => contains keyword col) price_keywords
      then Some col
      else find_price_column rest
  end.

(** The price update of a row. *)
Definition update_price (listing : Listing) (excel_price : option float)
  (update_ok : bool) (stats : Stats) : option Payload * Stats :=
  match excel_price with
  | Some excel_price =>
      let '(current_reverb_price, currency) := current_price listing in
      if flt current_reverb_price excel_price then
        let price_data := MkPayload None (Some (excel_price, currency)) in
        if update_ok
        then (Some price_data, bump "price_updated" stats)
        else (Some price_data, bump "errors" stats)
      else (None, bump "price_skipped" stats)
  | None => (None, stats)
  end.

End ReverbUpdater.

(* ================================================================== *)
(** * Price Variance Updater *)
(* ================================================================== *)

Module PriceVarianceUpdater.
Import Py Reverb.
Local Open Scope list_scope.

Definition PRICE_VARIANCE_THRESHOLD : float := Eval vm_compute in float_of_Z 50.
Definition FAST_MODE : bool := true.
Definition VALIDATE_EVERY_N : nat := 5.

(** The keys of [STORES]; every key has a token. *)
Definition STORES : list str :=
  [lit "TSS"; lit "GGL"; lit "MMS"; lit "MZM"; lit "GG"; lit "AMH"].

Definition calculate_inventory (stock : float) : result Z :=
  if isna (PyFloat stock) then Ok 0%Z
  else int_of_float stock.

(** A row of the price variance review. *)
Record VarianceRecord : Type := MkVariance {
  STORE_NAME : str;
  SKU : str;
  REVERB_PRICE : float;
  POSTED_PRICE : float;
  DIFFERENCE : float;
  DIRECTION : str
}.

(** A spreadsheet row after the cell conversions at the top of the loop:
    [r_sku] is [str(row['SKU'])], absent for an empty cell; [r_stock] is
    [float(row['STOCK'])], 0 for an empty or unreadable cell;
    [r_posted_price] is absent without a price column and for an empty or
    unreadable cell. *)
Record Row : Type := MkRow {
  r_sku : option str;
  r_stock : float;
  r_posted_price : option float
}.

(** What the API answers while one row is processed. *)
Record Remote : Type := MkRemote {
  get_listing_by_sku : option Listing;
  update_listing : bool;
  validate_inventory_update : bool
}.

(** The variables of [main] that outlive a row, and the review file. *)
Record State : Type := MkState {
  price_variance_data : list VarianceRecord;
  stats : Stats;
  overall_stats : Stats;
  update_count : nat;
  review_file : option (list VarianceRecord)
}.

Definition bump2 (k ko : string) (st : State) : State :=
  MkState (price_variance_data st) (bump k (stats st))
    (bump ko (overall_stats st)) (update_count st) (review_file st).

Definition append_variance (r : VarianceRecord) (st : State) : State :=
  MkState (price_variance_data st ++ [r]) (stats st) (overall_stats st)
    (update_count st) (review_file st).

Definition incr_update_count (st : State) : State :=
  MkState (price_variance_data st) (stats st) (overall_stats st)
    (S (update_count st)) (review_file st).

(** The locals the price decision leaves for the rest of the row. *)
Record PriceLocals : Type := MkLocals {
  reverb_price : float;
  currency : str;
  price_difference : float;
  should_update_price : bool;
  add_to_review : bool
}.

(** The price decision of a row: from [reverb_price = 0.0] down to the
    [price_skipped_no_change] counters. *)
Definition decide_price (store_name sku : str) (listing : Listing)
  (posted_price : option float) (st : State) : PriceLocals * State :=
  let skip := (MkLocals zero (lit "USD") zero false false, st) in
  match posted_price with
  | Some posted_price =>
      if fgt posted_price zero then
        let '(reverb_price, currency) := current_price listing in
        let price_difference := fabs (fsub posted_price reverb_price) in
        if fge price_difference PRICE_VARIANCE_THRESHOLD then
          let direction :=
            if fgt posted_price reverb_price
            then lit "INCREASE" else lit "DECREASE" in
          (MkLocals reverb_price currency price_difference true true,
           append_variance
             (MkVariance store_name sku reverb_price posted_price
                price_difference direction) st)
        else if fgt price_difference zero then
          (MkLocals reverb_price currency price_difference true false, st)
        else
          (MkLocals reverb_price currency price_difference false false,
           bump2 "price_skipped_no_change" "price_skipped_no_change" st)
      else skip
  | None => skip
  end.

(** What the decision asks of the API. *)
Record Plan : Type := MkPlan {
  need_inventory_update : bool;
  need_price_update : bool;
  flagged : bool;
  update_data : Payload
}.

Definition make_plan (current_inventory target_inventory : Z)
  (posted_price : option float) (loc : PriceLocals) : Plan :=
  let need_inventory_update := negb (Z.eqb current_inventory target_inventory) in
  let need_price_update := should_update_price loc in
  MkPlan need_inventory_update need_price_update (add_to_review loc)
    (MkPayload
       (if need_inventory_update then Some target_inventory else None)
       (if need_price_update
        then option_map (fun p => (p, currency loc)) posted_price
        else None)).

Definition when (b : bool) (f : State -> State) (st : State) : State :=
  if b then f st else st.

(** The combined update: one PUT, then the counters.  [env] holds the
    answers of the API to the PUT and to the validation read. *)
Definition apply_plan (plan : Plan) (env : Remote) (st : State) : State :=
  if need_inventory_update plan || need_price_update plan then
    if update_listing env then
      let st :=
        when (need_inventory_update plan)
          (fun st =>
             let st := bump2 "inventory_updated" "inventory_updated" st in
             let st := incr_update_count st in
             if negb FAST_MODE
                && Nat.eqb (update_count st mod VALIDATE_EVERY_N) 0
             then
               if validate_inventory_update env
               then bump2 "inventory_validated" "inventory_validated" st
               else bump2 "inventory_validation_failed"
                      "inventory_validation_failed" st
             else st) st in
      let st :=
        when (need_price_update plan)
          (fun st =>
             let st :=
               when (flagged plan)
                 (bump2 "price_added_to_review" "price_added_to_review") st in
             bump2 "price_updated" "price_updated" st) st in
      when (need_inventory_update plan && need_price_update plan)
        (bump2 "combined_updates" "combined_updates") st
    else bump2 "errors" "total_errors" st
  else
    when (negb (need_inventory_update plan))
      (bump2 "inventory_skipped" "inventory_skipped") st.

(** One iteration of the row loop. *)
Definition process_row (store_name : str) (row : Row) (env : Remote)
  (st : State) : result State :=
  let st := bump2 "total" "total_rows" st in
  let sku := option_map strip (r_sku row) in
  match sku with
  | None | Some [] => Ok (bump2 "errors" "total_errors" st)
  | Some sku =>
      if str_eqb sku (lit "nan") then Ok (bump2 "errors" "total_errors" st)
      else
        match get_listing_by_sku env with
        | None => Ok (bump2 "not_found" "total_not_found" st)
        | Some listing =>
            match calculate_inventory (r_stock row) with
            | Raise e => Raise e
            | Ok target_inventory =>
                let '(loc, st) :=
                  decide_price store_name sku listing (r_posted_price row) st in
                let plan :=
                  make_plan (current_inventory listing) target_inventory
                    (r_posted_price row) loc in
                Ok (apply_plan plan env st)
            end
        end
  end.

Fixpoint process_rows (store_name : str) (rows : list (Row * Remote))
  (st : State) : result State :=
  match rows with
  | [] => Ok st
  | (row, env) :: rest =>
      match process_row store_name row env st with
      | Ok st' => process_rows store_name rest st'
      | Raise e => Raise e
      end
  end.

(** [save_price_variance_review]: the review file is written anew from the
    list, as an empty table when the list is empty. *)
Definition save_price_variance_review (st : State) : State :=
  MkState (price_variance_data st) (stats st) (overall_stats st)
    (update_count st) (Some (price_variance_data st)).

Definition is_store (store_name : str) : bool :=
  existsb (str_eqb store_name) STORES.

(** One iteration of the store loop: the rows of the store, then the review
    file is saved when the list is not empty. *)
Definition process_store (store_name : str) (rows : list (Row * Remote))
  (st : State) : result State :=
  if negb (is_store store_name) then Ok st
  else
    let st :=
      MkState (price_variance_data st) no_stats (overall_stats st) 0
        (review_file st) in
    match process_rows store_name rows st with
    | Raise e => Raise e
    | Ok st =>
        Ok (match price_variance_data st with
            | [] => st
            | _ :: _ => save_price_variance_review st
            end)
    end.

Fixpoint process_stores (grouped : list (str * list (Row * Remote)))
  (st : State) : result State :=
  match grouped with
  | [] => Ok st
  | (store_name, rows) :: rest =>
      match process_store store_name rows st with
      | Ok st' => process_stores rest st'
      | Raise e => Raise e
      end
  end.

Definition initial : State := MkState [] no_stats no_stats 0 None.

(** [main], from the store loop to the final save. *)
Definition main (grouped : list (str * list (Row * Remote))) : result State :=
  match process_stores grouped initial with
  | Ok st => Ok (save_price_variance_review st)
  | Raise e => Raise e
  end.

End PriceVarianceUpdater.

(* ================================================================== *)
(** * The vocabulary of the specification *)
(* ================================================================== *)

Module Spec.
Import Py Re.
Local Open Scope list_scope.
Local Open Scope char_scope.

(** ** Catalog SKUs: [PREFIX-CODE-SUFFIX] *)

Definition ascii_letter (c : ascii) : bool :=
  in_range 65 90 c || in_range 97 122 c.

Definition decimal_digit (c : ascii) : bool := in_range 48 57 c.

Definition ascii_alnum (c : ascii) : bool := ascii_letter c || decimal_digit c.

Definition sku_of (prefix code suffix : str) : str :=
  prefix ++ "-" :: code ++ "-" :: suffix.

(** One or more ASCII letters. *)
Definition is_prefix (prefix : str) : Prop :=
  prefix <> [] /\ forallb ascii_letter prefix = true.

(** Ten alphanumeric characters (marketplace A before the letter check). *)
Definition is_code10 (code : str) : Prop :=
  len code = 10 /\ forallb ascii_alnum code = true.

(** Twelve decimal digits (marketplace B). *)
Definition is_code12 (code : str) : Prop :=
  len code = 12 /\ forallb decimal_digit code = true.

(** The suffixes the extractor accepts. *)
Definition accepted_suffix (suffix : str) : Prop :=
  suffix = lit "New" \/ suffix = lit "new" \/
  suffix = lit "N" \/ suffix = lit "n".

Definition ascii_lower (c : ascii) : ascii :=
  if in_range 65 90 c then ascii_of_N (code c + 32) else c.

(** [suffix] is [word] in some casing. *)
Definition casing_of (word suffix : str) : Prop :=
  map ascii_lower suffix = word.

(** Shape 1 with its letter requirement, and shape 2. *)
Definition shape_A (s code : str) : Prop :=
  exists prefix suffix,
    s = sku_of prefix code suffix /\ is_prefix prefix /\ is_code10 code /\
    any_isalpha code = true /\ accepted_suffix suffix.

Definition shape_B (s code : str) : Prop :=
  exists prefix suffix,
    s = sku_of prefix code suffix /\ is_prefix prefix /\ is_code12 code /\
    accepted_suffix suffix.

Definition first_n (n : nat) (s : str) : str := firstn n s.
Definition last_n (n : nat) (s : str) : str := skipn (len s - n) s.

(** ** Product identifiers *)

Definition marketplace_A (id : str) : Prop :=
  len id = 10 /\ any_isalpha id = true.

Definition marketplace_B (id : str) : Prop :=
  len id = 12 /\ forallb isdigit id = true.

(** No white space at either end. *)
Definition trimmed (s : str) : Prop := strip s = s.

(** ** Stock values *)

(** The floor of a finite float. *)
Definition floor (x : float) : Z :=
  match x with
  | S754_finite s m e =>
      match e with
      | Z0 => signed s (Zpos m)
      | Zpos p => (signed s (Zpos m) * 2 ^ Zpos p)%Z
      | Zneg p => (signed s (Zpos m) / 2 ^ Zpos p)%Z
      end
  | _ => 0%Z
  end.

Definition finite (x : float) : bool :=
  match x with
  | S754_zero _ | S754_finite _ _ _ => true
  | _ => false
  end.

(** ** The variance decision, in the words of the specification *)

(** The posted price is present, above zero, and at least the threshold away
    from the listed price. *)
Definition meets_threshold (current : float) (desired : option float)
  (threshold : float) : bool :=
  match desired with
  | Some d => fgt d Reverb.zero && fge (fabs (fsub d current)) threshold
  | None => false
  end.

End Spec.

(* ================================================================== *)
(** * Vocabulary of the proofs *)
(* ================================================================== *)

Import Py Re.
Local Open Scope list_scope.

(** ** Short names for the scripts *)

Module MSI := MultiStoreInventoryUpdater.
Module MSP := MultiStorePriceInventoryUpdater.
Module PVU := PriceVarianceUpdater.
Module RU := ReverbUpdater.

(** ** The frame of the four patterns *)

(** What the four patterns share: the prefix, the dash and the group of
    [n] characters of one class; [tl] is what follows the group. *)
Definition sku_regex (a : atom) (n : nat) (tl : regex) : regex :=
  (Bol ;; Plus DataScraper.letters ;; One (Chr "-") ;;
   Group (Count a n) ;; tl)%re.

(** [-[Nn]ew$] and [-[Nn]$] *)
Definition tail_New : regex :=
  (One (Chr "-") ;; One DataScraper.Nn ;; One (Chr "e") ;; One (Chr "w") ;;
   Eol)%re.

Definition tail_N : regex := (One (Chr "-") ;; One DataScraper.Nn ;; Eol)%re.

(** The continuation of [re_match]: the match object. *)
Definition final (_ : nat) (_ : str) (g : option str) : option Match :=
  Some (MkMatch g).

(** The outcome of [match1 or match2] for either code shape, on a string
    that starts with a prefix, a dash and a code. *)
Definition either (a : atom) (n : nat) (s : str) : option Match :=
  or_else (re_match (sku_regex a n tail_New) s)
          (re_match (sku_regex a n tail_N) s).

(** ** Identifiers and links *)

(** [code[h:] + code[:h]] *)
Definition swap_halves (h : nat) (code : str) : str :=
  skipn h code ++ firstn h code.

Definition no_dash (s : str) : Prop :=
  forallb (fun c => negb (Ascii.eqb c "-"%char)) s = true.

Definition amazon : str := lit "https://www.amazon.com/dp/".
Definition ebay : str := lit "https://www.ebay.com/itm/".

(** ** Column names *)

(** The trimmed name contains the word price in some casing. *)
Definition names_price (col : str) : bool :=
  contains (lit "PRICE") (MSP.upper (strip col)).

(** The name contains one of the keywords of the Reverb Updater. *)
Definition has_keyword (col : str) : bool :=
  existsb (fun keyword => contains keyword col) RU.price_keywords.

(** ** The review list, in the words of the specification *)

(** The review record of a posted price [d] against a listing. *)
Definition variance_record (store sku : str) (listing : Reverb.Listing)
  (d : float) : PVU.VarianceRecord :=
  let current := fst (Reverb.current_price listing) in
  PVU.MkVariance store sku current d (fabs (fsub d current))
    (if fgt d current then lit "INCREASE" else lit "DECREASE").

(** What a decision adds to the review list. *)
Definition review_entry (store sku : str) (listing : Reverb.Listing)
  (posted : option float) : list PVU.VarianceRecord :=
  match posted with
  | Some d =>
      if Spec.meets_threshold (fst (Reverb.current_price listing)) posted
           (float_of_Z 50)
      then [variance_record store sku listing d]
      else []
  | None => []
  end.

(** What a row adds to the review list: the entry of its decision when the
    row has a SKU and its listing was found.  The answers to the update
    and to the validation read play no part. *)
Definition row_review (store : str) (row : PVU.Row) (env : PVU.Remote)
  : list PVU.VarianceRecord :=
  match option_map strip (PVU.r_sku row), PVU.get_listing_by_sku env with
  | Some (c :: sku), Some listing =>
      if str_eqb (c :: sku) (lit "nan") then []
      else review_entry store (c :: sku) listing (PVU.r_posted_price row)
  | _, _ => []
  end.

Definition store_review (group : str * list (PVU.Row * PVU.Remote))
  : list PVU.VarianceRecord :=
  if PVU.is_store (fst group)
  then flat_map (fun r => row_review (fst group) (fst r) (snd r)) (snd group)
  else [].

Definition expected_review (grouped : list (str * list (PVU.Row * PVU.Remote)))
  : list PVU.VarianceRecord :=
  flat_map store_review grouped.

(** ** Sample data *)

(** A listing priced at [amount] US dollars. *)
Definition listed_at (amount : Z) : Reverb.Listing :=
  Reverb.MkListing (lit "L1") None
    (Some (Reverb.PriceObj (Some (float_of_Z amount)) (Some (lit "USD")))).

(** A run of one row: listed at 100, posted at 160, and the update is
    refused. *)
Definition refused_run : list (str * list (PVU.Row * PVU.Remote)) :=
  [(lit "MZM",
    [(PVU.MkRow (Some (lit "MZM-4KTCXB0CYZ-New")) (float_of_Z 3)
        (Some (float_of_Z 160)),
      PVU.MkRemote (Some (listed_at 100)) false false)])].

(** A run of two rows of one store: the first is listed at 100 and posted
    at 160, and its update is accepted; the second has an infinite stock. *)
Definition aborted_run : list (str * list (PVU.Row * PVU.Remote)) :=
  [(lit "MZM",
    [(PVU.MkRow (Some (lit "MZM-4KTCXB0CYZ-New")) (float_of_Z 3)
        (Some (float_of_Z 160)),
      PVU.MkRemote (Some (listed_at 100)) true true);
     (PVU.MkRow (Some (lit "MZM-853596316522-N")) (S754_infinity false)
        None,
      PVU.MkRemote (Some (listed_at 100)) true true)])].

(* ================================================================== *)
(** * Further parts of the scripts *)
(* ================================================================== *)

(** ** More of [str] *)

Module Text.

(** [c.lower()]: below U+0100 the upper-case letters are A..Z,
    U+00C0..U+00D6 and U+00D8..U+00DE, each 32 below its lower-case form. *)
Definition lower_char (c : ascii) : ascii :=
  if in_range 65 90 c || in_range 192 214 c || in_range 216 222 c
  then ascii_of_N (code c + 32)
  else c.

Definition lower (s : str) : str := map lower_char s.

(** [s.upper()].  U+00DF becomes ["SS"].  U+00B5 and U+00FF are left as
    they are: their upper-case forms lie above U+00FF, and like them they
    are no ASCII character. *)
Definition upper (s : str) : str :=
  flat_map (fun c => if N.eqb (code c) 223 then lit "SS"
                     else [MSP.upper_char c]) s.

(** [s.endswith(suffix)] *)
Definition endswith (suffix s : str) : bool :=
  startswith (rev suffix) (rev s).

(** [str(n)] and [f"{n}"] for an integer. *)
Definition str_of_Z (z : Z) : str :=
  lit (NilEmpty.string_of_int (Z.to_int z)).

(** [s.split(sep)] for a separator of one character. *)
Fixpoint split (sep : ascii) (s : str) : list str :=
  match s with
  | [] => [[]]
  | c :: s' =>
      if Ascii.eqb c sep then [] :: split sep s'
      else match split sep s' with
           | part :: parts => (c :: part) :: parts
           | [] => [[c]]
           end
  end.

(** A dictionary from strings to strings, the latest binding first. *)
Definition dict : Type := list (str * str).

Definition dict_set (k v : str) (d : dict) : dict := (k, v) :: d.

Definition dict_get (k : str) (d : dict) : option str :=
  option_map snd (find (fun kv => str_eqb (fst kv) k) d).

End Text.

(** ** Store names (the three multi-store scripts) *)

Module StoreNames.

Section Builtins.
(** [str(x)] for a float, left open. *)
Variable str_of_float : float -> str.

(** [str(v)] *)
Definition to_str (v : value) : str :=
  match v with
  | PyNone => lit "None"
  | PyFloat x => str_of_float x
  | PyInt z => Text.str_of_Z z
  | PyStr s => s
  end.

(** [[
for store_key in STORES.keys():
    if store_key in name or name in store_key:
        return store_key
return None
]] *)
Fixpoint partial_match (keys : list str) (name : str) : option str :=
  match keys with
  | [] => None
  | store_key :: rest =>
      if contains store_key name || contains name store_key
      then Some store_key
      else partial_match rest name
  end.

(** [normalize_store_name(store_name)]; the keys of [STORES] are the same
    six in the three scripts. *)
Definition normalize_store_name (store_name : value) : option str :=
  if isna store_name then None
  else
    let name := Text.upper (strip (to_str store_name)) in
    if existsb (str_eqb name) PVU.STORES then Some name
    else partial_match PVU.STORES name.

End Builtins.

End StoreNames.

(** ** Required columns (the three multi-store scripts) *)

Module Columns.

Definition required_columns : list str :=
  [lit "STORES NAME"; lit "SKU"; lit "STOCK"].

(** [[col for col in required_columns if col not in df.columns]] *)
Definition missing_columns (columns : list str) : list str :=
  filter (fun col => negb (existsb (str_eqb col) columns)) required_columns.

(** [{col.upper(): col for col in df.columns}] *)
Definition column_map (columns : list str) : Text.dict :=
  fold_left (fun d col => Text.dict_set (Text.upper col) col d) columns [].

(** The body of the loop below. *)
Definition rename_step (column_map d : Text.dict) (req_col : str)
  : Text.dict :=
  match Text.dict_get (Text.upper req_col) column_map with
  | Some col => Text.dict_set col req_col d
  | None => d
  end.

(** [[
rename_dict = {}
for req_col in required_columns:
    if req_col.upper() in column_map:
        rename_dict[column_map[req_col.upper()]] = req_col
]] *)
Definition rename_dict (column_map : Text.dict) : Text.dict :=
  fold_left (rename_step column_map) required_columns [].

(** [df.rename(columns=rename_dict)] *)
Definition rename (d : Text.dict) (columns : list str) : list str :=
  map (fun col => match Text.dict_get col d with
                  | Some new => new
                  | None => col
                  end) columns.

(** The check of the required columns at the start of [main]: the column
    names the run goes on with, or nothing when the script exits. *)
Definition validate_columns (columns : list str) : option (list str) :=
  match missing_columns columns with
  | [] => Some columns
  | _ :: _ =>
      let columns := map strip columns in
      let column_map := column_map columns in
      let rename_dict := rename_dict column_map in
      let columns :=
        match rename_dict with
        | [] => columns
        | _ :: _ => rename rename_dict columns
        end in
      match missing_columns columns with
      | [] => Some columns
      | _ :: _ => None
      end
  end.

End Columns.


(** ** The summary of the Price Variance Updater *)

(** Every row counted once.  A row ends as an error, as not found, as
    needing no update, or as updated; a row whose inventory and price were
    both updated is in both update counters and in [combined_updates]. *)
Definition accounted (total errors not_found : string) (d : Reverb.Stats)
  : Prop :=
  d total + d "combined_updates"%string
  = d errors + d not_found + d "inventory_skipped"%string
    + d "inventory_updated"%string + d "price_updated"%string.

Definition store_accounted (st : PVU.State) : Prop :=
  accounted "total" "errors" "not_found" (PVU.stats st).

Definition run_accounted (st : PVU.State) : Prop :=
  accounted "total_rows" "total_errors" "total_not_found"
    (PVU.overall_stats st).

(** The counter of reviewed prices never runs ahead of the review list. *)
Definition review_counted (st : PVU.State) : Prop :=
  PVU.overall_stats st "price_added_to_review"%string
  <= List.length (PVU.price_variance_data st).

(** The rows of the stores that have a token. *)
Definition rows_of_known_stores
  (grouped : list (str * list (PVU.Row * PVU.Remote))) : nat :=
  list_sum
    (map (fun g => if PVU.is_store (fst g) then List.length (snd g) else 0)
       grouped).


(** ** The run of the Multi Store Inventory Updater *)

Module InventoryRun.
Import Reverb.

(** A request sent to the API: the GET of [get_listing_by_sku] and the PUT
    of [update_listing]. *)
Inductive Request : Type :=
| GET (sku : str)
| PUT (listing_id : str) (update_data : Payload).

Definition is_put (r : Request) : bool :=
  match r with PUT _ _ => true | GET _ => false end.

(** A spreadsheet row after the cell conversions at the top of the loop:
    [r_sku] is [str(row['SKU'])], absent for an empty cell; [r_stock] is
    [float(row['STOCK'])], 0 for an empty or unreadable cell. *)
Record Row : Type := MkRow {
  r_sku : option str;
  r_stock : float
}.

(** What the API answers while one row is processed: to the first read, to
    the PUT, and to each read of the validation, by attempt. *)
Record Remote : Type := MkRemote {
  get_listing_by_sku : option Listing;
  update_listing : bool;
  validation_reads : nat -> option Listing
}.

(** The variables of [main] that outlive a row ([store_results] with its
    latest binding first), and the requests sent so far, the oldest
    first. *)
Record State : Type := MkState {
  stats : Stats;
  overall_stats : Stats;
  store_results : list (str * Stats);
  requests : list Request
}.

Definition bump2 (k ko : string) (st : State) : State :=
  MkState (bump k (stats st)) (bump ko (overall_stats st))
    (store_results st) (requests st).

Definition send (r : Request) (st : State) : State :=
  MkState (stats st) (overall_stats st) (store_results st)
    (requests st ++ [r]).

(** [[
for attempt in range(max_retries):
    listing = get_listing_by_sku(sku, headers)
    if not listing:
        continue
    ...
    if current_inventory == expected_inventory:
        return True
return False
]]
    [attempt] counts the reads made, [remaining] those left; the waits
    between the reads are left out. *)
Fixpoint validate_attempts (sku : str) (expected_inventory : Z)
  (reads : nat -> option Listing) (attempt remaining : nat) (st : State)
  : bool * State :=
  match remaining with
  | 0 => (false, st)
  | S remaining =>
      let st := send (GET sku) st in
      match reads attempt with
      | None =>
          validate_attempts sku expected_inventory reads (S attempt)
            remaining st
      | Some listing =>
          if Z.eqb (current_inventory listing) expected_inventory
          then (true, st)
          else validate_attempts sku expected_inventory reads (S attempt)
                 remaining st
      end
  end.

(** [validate_inventory_update(sku, expected_inventory, headers,
    max_retries)] *)
Definition validate_inventory_update (sku : str) (expected_inventory : Z)
  (reads : nat -> option Listing) (max_retries : nat) (st : State)
  : bool * State :=
  validate_attempts sku expected_inventory reads 0 max_retries st.

(** The default of [max_retries]. *)
Definition max_retries : nat := 3.

(** One iteration of the row loop. *)
Definition process_row (row : Row) (env : Remote) (st : State)
  : result State :=
  let st := bump2 "total" "total_rows" st in
  let sku := option_map strip (r_sku row) in
  match sku with
  | None | Some [] => Ok (bump2 "errors" "total_errors" st)
  | Some sku =>
      if str_eqb sku (lit "nan") then Ok (bump2 "errors" "total_errors" st)
      else
        let st := send (GET sku) st in
        match get_listing_by_sku env with
        | None => Ok (bump2 "not_found" "total_not_found" st)
        | Some listing =>
            match MSI.calculate_inventory (r_stock row) with
            | Raise e => Raise e
            | Ok target_inventory =>
                if negb (Z.eqb (current_inventory listing) target_inventory)
                then
                  let inventory_data :=
                    MkPayload (Some target_inventory) None in
                  let st := send (PUT (l_id listing) inventory_data) st in
                  if update_listing env then
                    let '(valid, st) :=
                      validate_inventory_update sku target_inventory
                        (validation_reads env) max_retries st in
                    let st :=
                      if valid
                      then bump2 "validated" "total_validated" st
                      else bump2 "validation_failed"
                             "total_validation_failed" st in
                    Ok (bump2 "updated" "total_updated" st)
                  else Ok (bump2 "errors" "total_errors" st)
                else Ok (bump2 "skipped" "total_skipped" st)
            end
        end
  end.

Fixpoint process_rows (rows : list (Row * Remote)) (st : State)
  : result State :=
  match rows with
  | [] => Ok st
  | (row, env) :: rest =>
      match process_row row env st with
      | Ok st' => process_rows rest st'
      | Raise e => Raise e
      end
  end.

(** One iteration of the store loop.  [STORES] holds the tokens read from
    the environment, the empty string for a variable that is not set; a
    store without a token is passed over. *)
Definition process_store (STORES : Text.dict) (store_name : str)
  (rows : list (Row * Remote)) (st : State) : result State :=
  match Text.dict_get store_name STORES with
  | None | Some [] => Ok st
  | Some _ =>
      let st :=
        MkState no_stats (overall_stats st) (store_results st)
          (requests st) in
      match process_rows rows st with
      | Raise e => Raise e
      | Ok st =>
          Ok (MkState (stats st) (overall_stats st)
                ((store_name, stats st) :: store_results st)
                (requests st))
      end
  end.

Fixpoint process_stores (STORES : Text.dict)
  (grouped : list (str * list (Row * Remote))) (st : State) : result State :=
  match grouped with
  | [] => Ok st
  | (store_name, rows) :: rest =>
      match process_store STORES store_name rows st with
      | Ok st' => process_stores STORES rest st'
      | Raise e => Raise e
      end
  end.

Definition initial : State := MkState no_stats no_stats [] [].

(** [main], from the store loop on. *)
Definition main (STORES : Text.dict)
  (grouped : list (str * list (Row * Remote))) : result State :=
  process_stores STORES grouped initial.

End InventoryRun.

Module IR := InventoryRun.

(** The rows of a run are counted: each one ends as an error, as not
    found, as updated or as skipped, and each update was validated or
    not. *)
Definition inventory_accounted (total errors not_found updated skipped
  validated validation_failed : string) (d : Reverb.Stats) : Prop :=
  d total = d errors + d not_found + d updated + d skipped /\
  d validated + d validation_failed = d updated.

Definition puts (log : list InventoryRun.Request) : nat :=
  List.length (filter InventoryRun.is_put log).

(** The read of attempt [i] shows the expected inventory. *)
Definition confirms (reads : nat -> option Reverb.Listing)
  (expected_inventory : Z) (i : nat) : bool :=
  match reads i with
  | Some listing =>
      Z.eqb (Reverb.current_inventory listing) expected_inventory
  | None => false
  end.

(** The rows of the stores that have a token. *)
Definition rows_with_token (STORES : Text.dict)
  (grouped : list (str * list (InventoryRun.Row * InventoryRun.Remote)))
  : nat :=
  list_sum
    (map (fun g => match Text.dict_get (fst g) STORES with
                   | None | Some [] => 0
                   | Some _ => List.length (snd g)
                   end) grouped).

(** The listing of every row already shows the inventory of the sheet. *)
Definition in_step
  (grouped : list (str * list (InventoryRun.Row * InventoryRun.Remote)))
  : Prop :=
  forall store_name rows row env listing,
    In (store_name, rows) grouped -> In (row, env) rows ->
    InventoryRun.get_listing_by_sku env = Some listing ->
    MSI.calculate_inventory (InventoryRun.r_stock row)
    = Ok (Reverb.current_inventory listing).

(** The counters and the request log of a run, as far as the invariants
    below need them. *)
Definition store_counted (st : IR.State) : Prop :=
  inventory_accounted "total" "errors" "not_found" "updated" "skipped"
    "validated" "validation_failed" (IR.stats st).

Definition run_counted (st : IR.State) : Prop :=
  inventory_accounted "total_rows" "total_errors" "total_not_found"
    "total_updated" "total_skipped" "total_validated"
    "total_validation_failed" (IR.overall_stats st).

Definition within_budget (st : IR.State) : Prop :=
  let d := IR.overall_stats st in
  d "total_updated"%string <= puts (IR.requests st) /\
  puts (IR.requests st)
  <= d "total_updated"%string + d "total_errors"%string /\
  List.length (IR.requests st)
  <= d "total_rows"%string + puts (IR.requests st)
     + IR.max_retries * d "total_updated"%string.

Definition results_counted (st : IR.State) : Prop :=
  forall name d, In (name, d) (IR.store_results st) ->
    inventory_accounted "total" "errors" "not_found" "updated" "skipped"
      "validated" "validation_failed" d.

Definition nothing_sent (st : IR.State) : Prop :=
  puts (IR.requests st) = 0 /\
  IR.overall_stats st "total_updated"%string = 0 /\
  List.length (IR.requests st) <= IR.overall_stats st "total_rows"%string.


(** A listing that holds [q] pieces, and a small run: a store without a
    token, and a store with a row in step, a row to update whose second
    validation read confirms, a row with no listing and a row without
    SKU. *)
Definition holding (q : Z) : Reverb.Listing :=
  Reverb.MkListing (lit "77") (Some (Reverb.InvObj (Some q))) None.

Definition example_tokens : Text.dict :=
  [(lit "TSS", lit "t0k3n"); (lit "GGL", [])].

Definition example_run : list (str * list (IR.Row * IR.Remote)) :=
  [(lit "GGL",
    [(IR.MkRow (Some (lit "GGL-1")) (float_of_Z 3),
      IR.MkRemote None false (fun _ => None))]);
   (lit "TSS",
    [(IR.MkRow (Some (lit "TSS-1")) (float_of_Z 3),
      IR.MkRemote (Some (holding 3)) false (fun _ => None));
     (IR.MkRow (Some (lit "TSS-2")) (float_of_Z 4),
      IR.MkRemote (Some (holding 1)) true
        (fun attempt => if Nat.eqb attempt 1 then Some (holding 4) else None));
     (IR.MkRow (Some (lit "TSS-3")) (float_of_Z 1),
      IR.MkRemote None false (fun _ => None));
     (IR.MkRow None Reverb.zero,
      IR.MkRemote None false (fun _ => None))])].

Definition example_rerun : list (str * list (IR.Row * IR.Remote)) :=
  [(lit "TSS",
    [(IR.MkRow (Some (lit "TSS-1")) (float_of_Z 3),
      IR.MkRemote (Some (holding 3)) false (fun _ => None));
     (IR.MkRow (Some (lit "TSS-2")) (float_of_Z 4),
      IR.MkRemote (Some (holding 4)) false (fun _ => None))])].


(** ** The run of the Reverb Data Scraper *)

Module ScraperRun.
Import Reverb.

Definition INPUT_DIR : str :=
  lit "C:\Users\Navroz\OneDrive\Desktop\Reverb Work\Input Files".

Definition STORE_FILES : list str :=
  [lit "MMS"; lit "MZM"; lit "TSS"; lit "GG"; lit "GGL"; lit "AMH"].

(** [os.path.join(dir, name)] on the Windows paths of the script, for a
    directory that does not end with a separator. *)
Definition os_path_join (dir name : str) : str := dir ++ lit "\" ++ name.

(** A sheet as pandas hands it over: the labels of its columns, and its
    rows, a cell per column. *)
Record Frame : Type := MkFrame {
  columns : list str;
  rows : list (list value)
}.

(** What the script finds on the disk: whether a path exists, and what
    [pd.read_csv] and [pd.read_excel] make of a file, called as the script
    calls them. *)
Record Disk : Type := MkDisk {
  os_path_exists : str -> bool;
  pd_read_csv : str -> Frame;
  pd_read_excel : str -> Frame
}.

Definition extensions : list str := [lit ".csv"; lit ".xlsx"; lit ".xls"].

(** [find_input_file(store_name)] *)
Definition find_input_file (disk : Disk) (store_name : str) : option str :=
  find (os_path_exists disk)
    (map (fun ext => os_path_join INPUT_DIR (store_name ++ ext)) extensions).

(** [df.replace(old, '')]: the cells that are the string [old]. *)
Definition replace_cell (old : str) (v : value) : value :=
  match v with
  | PyStr s => if str_eqb s old then PyStr [] else v
  | _ => v
  end.

Definition replace (old : str) (df : Frame) : Frame :=
  MkFrame (columns df) (map (map (replace_cell old)) (rows df)).

(** [read_input_file(file_path)] *)
Definition read_input_file (disk : Disk) (file_path : str) : result Frame :=
  if Text.endswith (lit ".csv") file_path then Ok (pd_read_csv disk file_path)
  else if Text.endswith (lit ".xlsx") file_path
          || Text.endswith (lit ".xls") file_path
  then
    let df := pd_read_excel disk file_path in
    let df := replace (lit "nan") df in
    let df := replace (lit "NaN") df in
    Ok df
  else Raise ValueError.

Section Builtins.
(** [float(s)] for a string, left open; no answer is a [ValueError]. *)
Variable float_of_str : str -> option float.

(** [sys.get_int_max_str_digits()]: the longest decimal numeral that an
    integer is converted to, 4300 by default from CPython 3.11 on and never
    set below 640; 0 where there is no limit. *)
Variable int_max_str_digits : nat.

(** [str(n)] and [f"{n}"] for an integer: a [ValueError] when the numeral,
    its sign left out, has more digits than the limit. *)
Definition str_of_int (n : Z) : result str :=
  if Nat.ltb 0 int_max_str_digits
     && Nat.ltb int_max_str_digits (len (Text.str_of_Z (Z.abs n)))
  then Raise ValueError
  else Ok (Text.str_of_Z n).

(** [convert_to_string(value)] *)
Definition convert_to_string (value : value) : result str :=
  if isna value then Ok []
  else
    match value with
    | PyStr s =>
        let value_str := strip s in
        if contains (lit "e+") (Text.lower value_str)
           || contains (lit "e-") (Text.lower value_str)
        then
          match float_of_str value_str with
          | Some num =>
              match int_of_float num with
              | Ok n =>
                  match str_of_int n with
                  | Ok text => Ok text
                  | Raise _ => Ok value_str
                  end
              | Raise _ => Ok value_str
              end
          | None => Ok value_str
          end
        else Ok value_str
    | PyFloat x =>
        match int_of_float x with
        | Ok n => str_of_int n
        | Raise e => Raise e
        end
    | PyInt z => str_of_int z
    | PyNone => Ok []
    end.

(** What [row.get(label, '')] gives: the cell under the label, or, when
    several columns have the label, a Series of their cells. *)
Inductive Cell : Type :=
| Scalar (v : value)
| Series (cells : list value).

(** [sku = convert_to_string(sku_raw)] on what [row.get] gave: on a Series
    the test [if pd.isna(value)] is a [ValueError], the truth value of a
    Series of several cells being ambiguous. *)
Definition convert_cell (sku_raw : Cell) : result str :=
  match sku_raw with
  | Scalar v => convert_to_string v
  | Series _ => Raise ValueError
  end.

(** A row of the Data sheet; its STOCK and POSTED PRICE are empty. *)
Record ValidRow : Type := MkValid {
  v_STORE_NAME : str;
  v_SKU : str;
  v_ASIN : str;
  v_LEN : nat;
  v_LINKS : str
}.

(** A row of the Manual Review sheet; its MANUAL ASIN is empty. *)
Record InvalidRow : Type := MkInvalid {
  i_STORE_NAME : str;
  i_SKU : str
}.

(** The lists and counters of [process_store_file]. *)
Record State : Type := MkState {
  valid_data : list ValidRow;
  invalid_data : list InvalidRow;
  verification_stats : Stats;
  failed_sku_examples : list (str * list str)
}.

Definition count (k : string) (st : State) : State :=
  MkState (valid_data st) (invalid_data st) (bump k (verification_stats st))
    (failed_sku_examples st).

(** [[
if len(failed_sku_examples) < 20:
    failed_sku_examples.append({'sku': sku,
                                'parts': sku.split('-') if sku else []})
]] *)
Definition note_failure (sku : str) (st : State) : State :=
  if Nat.ltb (List.length (failed_sku_examples st)) 20 then
    MkState (valid_data st) (invalid_data st) (verification_stats st)
      (failed_sku_examples st
       ++ [(sku, match sku with [] => [] | _ :: _ => Text.split "-" sku end)])
  else st.

(** One iteration of the row loop, on the cell of the SKU. *)
Definition process_row (store_name : str) (sku_raw : Cell) (st : State)
  : result State :=
  match convert_cell sku_raw with
  | Raise e => Raise e
  | Ok sku =>
      let '(extracted_asin, extraction_success) :=
        DataScraper.extract_asin_from_sku (PyStr sku) in
      let '(final_asin, st) :=
        if extraction_success then
          if fst (DataScraper.is_valid_asin (PyStr extracted_asin))
          then (extracted_asin, count "extracted_from_sku" st)
          else ([], count "no_asin" st)
        else ([], note_failure sku (count "no_asin" st)) in
      match final_asin with
      | _ :: _ =>
          Ok (MkState
                (valid_data st
                 ++ [MkValid store_name sku final_asin (len final_asin)
                       (DataScraper.generate_link (PyStr final_asin))])
                (invalid_data st) (verification_stats st)
                (failed_sku_examples st))
      | [] =>
          Ok (MkState (valid_data st)
                (invalid_data st ++ [MkInvalid store_name sku])
                (verification_stats st) (failed_sku_examples st))
      end
  end.

Fixpoint process_rows (store_name : str) (cells : list Cell) (st : State)
  : result State :=
  match cells with
  | [] => Ok st
  | sku_raw :: rest =>
      match process_row store_name sku_raw st with
      | Ok st' => process_rows store_name rest st'
      | Raise e => Raise e
      end
  end.

(** The positions of a label among the labels, from position [i] on. *)
Fixpoint positions (label : str) (labels : list str) (i : nat) : list nat :=
  match labels with
  | [] => []
  | l :: rest =>
      if str_eqb l label then i :: positions label rest (S i)
      else positions label rest (S i)
  end.

(** [row.get(label, '')]: the default when no column has the label, the
    cell when one column has it, a Series of the cells when several have
    it. *)
Definition row_get (labels : list str) (row : list value) (label : str)
  : Cell :=
  match positions label labels 0 with
  | [] => Scalar (PyStr [])
  | [i] => Scalar (nth i row (PyStr []))
  | several => Series (map (fun i => nth i row (PyStr [])) several)
  end.

(** What [process_store_file] returns: a pair when the sheet has no SKU
    column, else three values, a sheet without rows given as [None]. *)
Inductive Returned : Type :=
| Two
| Three (valid_df : option (list ValidRow))
    (invalid_df : option (list InvalidRow)) (verification_stats : Stats).

Definition nonempty {A} (l : list A) : option (list A) :=
  match l with [] => None | _ :: _ => Some l end.

(** [process_store_file(store_name, file_path)] *)
Definition process_store_file (disk : Disk) (store_name file_path : str)
  : result Returned :=
  match read_input_file disk file_path with
  | Raise e => Raise e
  | Ok df =>
      let labels := map (fun c => strip (Text.lower c)) (columns df) in
      if negb (existsb (str_eqb (lit "sku")) labels) then Ok Two
      else
        let cells :=
          map (fun row => row_get labels row (lit "sku")) (rows df) in
        match process_rows store_name cells
                (MkState [] [] no_stats []) with
        | Raise e => Raise e
        | Ok st =>
            Ok (Three (nonempty (valid_data st)) (nonempty (invalid_data st))
                  (verification_stats st))
        end
  end.

(** The lists of [main] that outlive a store. *)
Record Collected : Type := MkCollected {
  all_valid_data : list (list ValidRow);
  all_invalid_data : list (list InvalidRow);
  files_processed : nat
}.

(** One iteration of the store loop; the three names on the left of the
    call take a result of three values only. *)
Definition process_store (disk : Disk) (store_name : str) (acc : Collected)
  : result Collected :=
  match find_input_file disk store_name with
  | Some file_path =>
      match process_store_file disk store_name file_path with
      | Raise e => Raise e
      | Ok Two => Raise ValueError
      | Ok (Three valid_df invalid_df _) =>
          let valid :=
            match valid_df with
            | Some ((_ :: _) as df) => all_valid_data acc ++ [df]
            | _ => all_valid_data acc
            end in
          let invalid :=
            match invalid_df with
            | Some ((_ :: _) as df) => all_invalid_data acc ++ [df]
            | _ => all_invalid_data acc
            end in
          Ok (MkCollected valid invalid (S (files_processed acc)))
      end
  | None => Ok acc
  end.

Fixpoint process_stores (disk : Disk) (stores : list str) (acc : Collected)
  : result Collected :=
  match stores with
  | [] => Ok acc
  | store_name :: rest =>
      match process_store disk store_name acc with
      | Ok acc' => process_stores disk rest acc'
      | Raise e => Raise e
      end
  end.

(** The workbook [main] writes: a sheet is there when it has rows. *)
Record Workbook : Type := MkWorkbook {
  Data : option (list ValidRow);
  Manual_Review : option (list InvalidRow);
  valid_count : nat;
  invalid_count : nat
}.

(** [main()]: the workbook written, if any. *)
Definition main (disk : Disk) : result (option Workbook) :=
  if negb (os_path_exists disk INPUT_DIR) then Ok None
  else
    match process_stores disk STORE_FILES (MkCollected [] [] 0) with
    | Raise e => Raise e
    | Ok acc =>
        match all_valid_data acc, all_invalid_data acc with
        | [], [] => Ok None
        | valid, invalid =>
            let combined_valid := List.concat valid in
            let combined_invalid := List.concat invalid in
            Ok (Some (MkWorkbook
                        (match valid with
                         | [] => None
                         | _ :: _ => Some combined_valid
                         end)
                        (match invalid with
                         | [] => None
                         | _ :: _ => Some combined_invalid
                         end)
                        (List.length combined_valid)
                        (List.length combined_invalid)))
        end
    end.

End Builtins.

End ScraperRun.

Module SR := ScraperRun.

(** The SKU of a row whose cell converts, the row made of a SKU that yields
    an identifier, and the sheets a list of SKUs gives. *)
Definition yields (sku : str) : bool :=
  snd (DataScraper.extract_asin_from_sku (PyStr sku)).

Definition valid_row (store_name sku : str) : SR.ValidRow :=
  let asin := fst (DataScraper.extract_asin_from_sku (PyStr sku)) in
  SR.MkValid store_name sku asin (len asin)
    (DataScraper.generate_link (PyStr asin)).

Definition data_sheet (store_name : str) (skus : list str)
  : list SR.ValidRow :=
  map (valid_row store_name) (filter yields skus).

Definition review_sheet (store_name : str) (skus : list str)
  : list SR.InvalidRow :=
  map (SR.MkInvalid store_name) (filter (fun sku => negb (yields sku)) skus).

Definition example_of (sku : str) : str * list str :=
  (sku, match sku with [] => [] | _ :: _ => Text.split "-" sku end).

(** The SKUs of a list of cells that all convert. *)
Fixpoint converted (float_of_str : str -> option float)
  (int_max_str_digits : nat) (cells : list SR.Cell) (skus : list str)
  : Prop :=
  match cells, skus with
  | [], [] => True
  | c :: cells, sku :: skus =>
      SR.convert_cell float_of_str int_max_str_digits c = Ok sku /\
      converted float_of_str int_max_str_digits cells skus
  | _, _ => False
  end.

(** Every cell of the sheet is a string, as [dtype=str] asks. *)
Definition text_frame (df : SR.Frame) : Prop :=
  forall row v, In row (SR.rows df) -> In v row -> isinstance_str v = true.

(** The sheet has a column whose label, put in lower case and trimmed, is
    sku. *)
Definition has_sku (df : SR.Frame) : bool :=
  existsb (str_eqb (lit "sku"))
    (map (fun c => strip (Text.lower c)) (SR.columns df)).

(** The number of such columns. *)
Definition sku_columns (df : SR.Frame) : nat :=
  List.length
    (SR.positions (lit "sku")
       (map (fun c => strip (Text.lower c)) (SR.columns df)) 0).

(** What [row.get('sku', '')] gives for each row. *)
Definition sku_cells (df : SR.Frame) : list SR.Cell :=
  map (fun row =>
         SR.row_get (map (fun c => strip (Text.lower c)) (SR.columns df))
           row (lit "sku"))
    (SR.rows df).

(** The sheet found for a store, if any. *)
Definition found (disk : SR.Disk) (store_name : str) : option SR.Frame :=
  match SR.find_input_file disk store_name with
  | Some file_path =>
      match SR.read_input_file disk file_path with
      | Ok df => Some df
      | Raise _ => None
      end
  | None => None
  end.

(** The rows of the sheets found for the stores. *)
Definition found_rows (disk : SR.Disk) (stores : list str) : nat :=
  list_sum
    (map (fun s => match found disk s with
                   | Some df => List.length (SR.rows df)
                   | None => 0
                   end) stores).

(** A disk with one sheet, [MZM.csv], of the given labels and rows. *)
Definition one_sheet (labels : list str) (rows : list (list value))
  : SR.Disk :=
  SR.MkDisk
    (fun path =>
       str_eqb path SR.INPUT_DIR
       || str_eqb path (SR.os_path_join SR.INPUT_DIR (lit "MZM.csv")))
    (fun _ => SR.MkFrame labels rows)
    (fun _ => SR.MkFrame [] []).

(** A sheet with rows, as one piece of the lists of [main]. *)
Definition piece {A} (sheet : list A) : list (list A) :=
  match sheet with [] => [] | _ :: _ => [sheet] end.

(** Every sheet found for one of the stores has one SKU column, and string
    cells. *)
Definition sheets_in_order (disk : SR.Disk) (stores : list str) : Prop :=
  forall store_name df,
    In store_name stores -> found disk store_name = Some df ->
    sku_columns df = 1 /\ text_frame df.

(** The lists of [main] grow by the rows of the sheets found. *)
Definition pieces_counted (disk : SR.Disk) (stores : list str)
  (acc acc' : SR.Collected) : Prop :=
  List.length (List.concat (SR.all_valid_data acc'))
  + List.length (List.concat (SR.all_invalid_data acc'))
  = List.length (List.concat (SR.all_valid_data acc))
    + List.length (List.concat (SR.all_invalid_data acc))
    + found_rows disk stores.

(** The rows written and the number of rows read agree. *)
Definition every_row_written (disk : SR.Disk) (out : option SR.Workbook)
  : Prop :=
  match out with
  | None => found_rows disk SR.STORE_FILES = 0
  | Some wb =>
      0 < found_rows disk SR.STORE_FILES /\
      SR.valid_count wb + SR.invalid_count wb
      = found_rows disk SR.STORE_FILES /\
      (SR.Data wb = None <-> SR.valid_count wb = 0) /\
      (SR.Manual_Review wb = None <-> SR.invalid_count wb = 0) /\
      (forall sheet, SR.Data wb = Some sheet ->
         List.length sheet = SR.valid_count wb) /\
      (forall sheet, SR.Manual_Review wb = Some sheet ->
         List.length sheet = SR.invalid_count wb)
  end.

(** Three rows: an Amazon SKU, a SKU of no known shape, and an eBay SKU
    with blanks around it. *)
Definition three_rows : list (list value) :=
  [[PyStr (lit "MZM-4KTCXB0CYZ-New"); PyStr (lit "12")];
   [PyStr (lit "bad"); PyStr (lit "7")];
   [PyStr (lit " MZM-853596316522-N "); PyStr (lit "1")]].

Definition no_float : str -> option float := fun _ => None.

(** The limit on the digits of an integer that CPython 3.11 starts with. *)
Definition default_limit : nat := 4300.

Definition example_disk : SR.Disk :=
  one_sheet [lit " SKU "; lit "Stock"] three_rows.

Definition example_path : str :=
  SR.os_path_join SR.INPUT_DIR (lit "MZM.csv").


(** ** The choice of a store (Reverb Updater, Test Reverb API) *)

Module StoreChoice.

(** What [input()] gives: a line, or the interrupt of the user. *)
Inductive Typed : Type :=
| Line (s : str)
| KeyboardInterrupt.

(** How [select_store] ends: with a store, with [sys.exit(1)], or with the
    [EOFError] of an input that has no more lines. *)
Inductive Outcome : Type :=
| Selected (selected_store : str)
| Exit
| EOFError.

Section Builtins.
(** [int(s)] for a string, left open; no answer is a [ValueError]. *)
Variable int_of_str : str -> option Z.

(** [[
while True:
    try:
        choice = input(...).strip()
        if choice.isdigit() and 1 <= int(choice) <= len(store_list):
            selected_store = store_list[int(choice) - 1]
            break
        elif choice.upper() in STORES:
            selected_store = choice.upper()
            break
        else:
            print(...)
    except (ValueError, KeyboardInterrupt):
        sys.exit(1)
]]
    on the lines typed, the first one first. *)
Fixpoint select_store (typed : list Typed) : Outcome :=
  match typed with
  | [] => EOFError
  | KeyboardInterrupt :: _ => Exit
  | Line s :: rest =>
      let choice := strip s in
      let by_name :=
        if existsb (str_eqb (Text.upper choice)) PVU.STORES
        then Selected (Text.upper choice)
        else select_store rest in
      if str_isdigit choice then
        match int_of_str choice with
        | None => Exit
        | Some n =>
            if Z.leb 1 n && Z.leb n (Z.of_nat (List.length PVU.STORES))
            then Selected (nth (Z.to_nat (n - 1)) PVU.STORES [])
            else by_name
        end
      else by_name
  end.

End Builtins.

End StoreChoice.

(** A line that names a store, by its number or by its name. *)
Definition names_store (int_of_str : str -> option Z) (s k : str) : Prop :=
  (str_isdigit (strip s) = true /\
   exists n, int_of_str (strip s) = Some n /\ (1 <= n <= 6)%Z /\
             nth_error PVU.STORES (Z.to_nat (n - 1)) = Some k) \/
  (In k PVU.STORES /\ Text.upper (strip s) = k).

(** A line that is passed over: it is no name of a store, and it is no
    numeral, or a numeral that [int] reads as a number outside 1 to 6. *)
Definition passed_over (int_of_str : str -> option Z) (s : str) : Prop :=
  ~ In (Text.upper (strip s)) PVU.STORES /\
  (str_isdigit (strip s) = false \/
   exists n, int_of_str (strip s) = Some n /\ ~ (1 <= n <= 6)%Z).

(** A character of a decimal numeral: a digit or the minus sign. *)
Definition numeral_char (c : ascii) : bool :=
  in_range 48 57 c || Ascii.eqb c "-".

(** The integer that [convert_to_string] writes for a number: the number
    itself, or the integer part of a float. *)
Definition integer_of (v : value) : option Z :=
  match v with
  | PyInt z => Some z
  | PyFloat x => match int_of_float x with Ok n => Some n | Raise _ => None end
  | _ => None
  end.

(** The numeral of [n], its sign left out, is longer than a limit that is
    set. *)
Definition too_long (int_max_str_digits : nat) (n : Z) : bool :=
  Nat.ltb 0 int_max_str_digits
  && Nat.ltb int_max_str_digits (len (Text.str_of_Z (Z.abs n))).

(** An answer of [int] for the witnesses: it reads the numeral 2 only. *)
Definition reads_two (s : str) : option Z :=
  if str_eqb s (lit "2") then Some 2%Z else None.

(* ================================================================== *)
(** * Characters and strings *)
(* ================================================================== *)

Ltac by_char c :=
  destruct c as [[|] [|] [|] [|] [|] [|] [|] [|]];
  vm_compute; try reflexivity; try discriminate; auto.

Lemma letters_spec c :
  atom_matches DataScraper.letters c = Spec.ascii_letter c.
Proof. by_char c. Qed.

Lemma alnums_spec c :
  atom_matches DataScraper.alnums c = Spec.ascii_alnum c.
Proof. by_char c. Qed.

Lemma letter_not_dash c :
  Spec.ascii_letter c = true -> c <> "-"%char.
Proof. by_char c. Qed.

Lemma letter_not_space c :
  Spec.ascii_letter c = true -> isspace c = false.
Proof. by_char c. Qed.

Lemma alnum_not_dash c : Spec.ascii_alnum c = true -> c <> "-"%char.
Proof. by_char c. Qed.

Lemma alnum_not_space c : Spec.ascii_alnum c = true -> isspace c = false.
Proof. by_char c. Qed.

Lemma digit_is_alnum c :
  Spec.decimal_digit c = true -> Spec.ascii_alnum c = true.
Proof. by_char c. Qed.

Lemma digit_isdigit c : Spec.decimal_digit c = true -> isdigit c = true.
Proof. by_char c. Qed.

Lemma digit_not_alpha c : Spec.decimal_digit c = true -> isalpha c = false.
Proof. by_char c. Qed.

Lemma Nn_spec c :
  atom_matches DataScraper.Nn c = true -> c = "N"%char \/ c = "n"%char.
Proof. by_char c. Qed.

Lemma forallb_impl {A} (p q : A -> bool) (l : list A) :
  (forall x, p x = true -> q x = true) ->
  forallb p l = true -> forallb q l = true.
Proof.
  intros Hpq. induction l as [|x l IH]; simpl; [reflexivity|].
  intros H. apply andb_true_iff in H as [Hx Hl].
  now rewrite (Hpq _ Hx), IH.
Qed.

Lemma forallb_ext_eq {A} (p q : A -> bool) (l : list A) :
  (forall x, p x = q x) -> forallb p l = forallb q l.
Proof. intros H. induction l; simpl; [reflexivity|]. now rewrite H, IHl. Qed.

(** ** [strip] *)

Lemma lstrip_id c s : isspace c = false -> lstrip (c :: s) = c :: s.
Proof. intros H. simpl. now rewrite H. Qed.

Lemma rstrip_id s c : isspace c = false -> rstrip (s ++ [c]) = s ++ [c].
Proof.
  intros H. unfold rstrip. rewrite rev_app_distr. simpl.
  rewrite H. simpl. now rewrite rev_involutive.
Qed.

Lemma strip_id c s d :
  isspace c = false -> isspace d = false ->
  strip (c :: s ++ [d]) = c :: s ++ [d].
Proof.
  intros Hc Hd. unfold strip. rewrite lstrip_id by assumption.
  now rewrite app_comm_cons, rstrip_id.
Qed.

Lemma strip_id1 c : isspace c = false -> strip [c] = [c].
Proof. intros H. unfold strip, rstrip. simpl. rewrite H. simpl. now rewrite H. Qed.

(** A string without white space is its own [strip]. *)
Lemma strip_no_space s :
  forallb (fun c => negb (isspace c)) s = true -> strip s = s.
Proof.
  destruct s as [|c s]; [reflexivity|].
  destruct (exists_last (l := c :: s)) as (t & d & E); [discriminate|].
  intros H. destruct t as [|c' t].
  - simpl in E. injection E as -> ->. simpl in H.
    apply strip_id1. now destruct (isspace d).
  - rewrite E in H |- *. simpl in E. injection E as <- _.
    simpl in H. apply andb_true_iff in H as [Hc H].
    rewrite forallb_app in H. apply andb_true_iff in H as [_ H].
    simpl in H. apply strip_id.
    + now destruct (isspace c).
    + now destruct (isspace d).
Qed.

Lemma lstrip_head s c t : lstrip s = c :: t -> isspace c = false.
Proof.
  induction s as [|a s IH]; simpl; [discriminate|].
  destruct (isspace a) eqn:Ha; [exact IH|].
  intros E. injection E as <- _. exact Ha.
Qed.

(** The last character of a stripped string is not white space. *)
Lemma strip_last s t c : strip s = t ++ [c] -> isspace c = false.
Proof.
  unfold strip, rstrip. intros E.
  apply (f_equal (@rev ascii)) in E.
  rewrite rev_involutive, rev_app_distr in E. simpl in E.
  eapply lstrip_head; eassumption.
Qed.

(* ================================================================== *)
(** * The matcher on the patterns of the scraper *)
(* ================================================================== *)

Section MatcherFacts.
Variable A : Type.
Implicit Types (k : cont A) (a : atom) (s : str).

(** What a successful [star] consumed. *)
Lemma star_inv a k x : forall s pos,
  star a pos s k = Some x ->
  exists pre rest,
    s = pre ++ rest /\ forallb (atom_matches a) pre = true /\
    k (pos + len pre) rest = Some x.
Proof.
  induction s as [|c s IH]; intros pos H; simpl in H.
  - exists [], []. simpl. now rewrite Nat.add_0_r.
  - destruct (atom_matches a c) eqn:Hc.
    + destruct (star a (S pos) s k) as [r|] eqn:Hs.
      * injection H as <-. destruct (IH _ Hs) as (pre & rest & -> & Hp & Hk).
        exists (c :: pre), rest. simpl. rewrite Hc, Hp.
        repeat split. now rewrite Nat.add_succ_r.
      * exists [], (c :: s). simpl. now rewrite Nat.add_0_r.
    + exists [], (c :: s). simpl. now rewrite Nat.add_0_r.
Qed.

(** [star] stops in front of a character that is not in the class, and
    the longest run is tried first. *)
Lemma star_fwd a k x rest : forall pre pos,
  forallb (atom_matches a) pre = true ->
  match rest with c :: _ => atom_matches a c = false | [] => True end ->
  k (pos + len pre) rest = Some x ->
  star a pos (pre ++ rest) k = Some x.
Proof.
  induction pre as [|c pre IH]; intros pos Hp Hr Hk; simpl in *.
  - rewrite Nat.add_0_r in Hk. destruct rest as [|c r]; simpl; [exact Hk|].
    now rewrite Hr.
  - apply andb_true_iff in Hp as [Hc Hp]. rewrite Hc.
    rewrite IH; auto. now rewrite Nat.add_succ_l, <- Nat.add_succ_r.
Qed.

Lemma count_inv a k x : forall n s pos,
  count a n pos s k = Some x ->
  exists body rest,
    s = body ++ rest /\ len body = n /\
    forallb (atom_matches a) body = true /\ k (pos + n) rest = Some x.
Proof.
  induction n as [|n IH]; intros s pos H; simpl in H.
  - exists [], s. simpl. now rewrite Nat.add_0_r.
  - destruct s as [|c s]; [discriminate|].
    destruct (atom_matches a c) eqn:Hc; [|discriminate].
    destruct (IH _ _ H) as (body & rest & -> & Hl & Hb & Hk).
    exists (c :: body), rest. simpl. rewrite Hc, Hb.
    repeat split; [now f_equal|]. now rewrite Nat.add_succ_r.
Qed.

Lemma count_fwd a k rest : forall body pos,
  forallb (atom_matches a) body = true ->
  count a (len body) pos (body ++ rest) k = k (pos + len body) rest.
Proof.
  induction body as [|c body IH]; intros pos Hb; simpl in *.
  - now rewrite Nat.add_0_r.
  - apply andb_true_iff in Hb as [Hc Hb]. rewrite Hc, IH by assumption.
    now rewrite Nat.add_succ_r.
Qed.

End MatcherFacts.

(** Splitting at the first dash is unambiguous. *)
Lemma split_at_dash : forall pre pre' r r',
  forallb Spec.ascii_letter pre = true ->
  forallb Spec.ascii_letter pre' = true ->
  pre ++ "-"%char :: r = pre' ++ "-"%char :: r' -> pre = pre' /\ r = r'.
Proof.
  induction pre as [|c pre IH]; intros [|c' pre'] r r' H H' E; simpl in *.
  - injection E as ->. now split.
  - injection E as <- _. apply andb_true_iff in H' as [H' _].
    now apply letter_not_dash in H'.
  - injection E as -> _. apply andb_true_iff in H as [H _].
    now apply letter_not_dash in H.
  - injection E as -> E.
    apply andb_true_iff in H as [_ H]. apply andb_true_iff in H' as [_ H'].
    destruct (IH _ _ _ H H' E) as [-> ->]. now split.
Qed.

Lemma app_same_length : forall (b b' r r' : str),
  len b = len b' -> b ++ r = b' ++ r' -> b = b' /\ r = r'.
Proof.
  induction b as [|c b IH]; intros [|c' b'] r r' Hl E; simpl in *;
    try discriminate.
  - now split.
  - injection E as -> E. injection Hl as Hl.
    destruct (IH _ _ _ Hl E) as [-> ->]. now split.
Qed.

(** The text between the start of the group and the position reached. *)
Lemma firstn_captured (body rest : str) (p : nat) :
  firstn (p + len body - p) (body ++ rest) = body.
Proof.
  replace (p + len body - p) with (len body) by lia.
  unfold len. now rewrite firstn_app, Nat.sub_diag, firstn_all, app_nil_r.
Qed.

(** A match of the frame splits the input at the first dash; group 1 is
    the [n] characters after it, and the tail pattern matched the rest. *)
Lemma sku_regex_inv a n tl s m :
  re_match (sku_regex a n tl) s = Some m ->
  exists pre body rest,
    s = pre ++ "-"%char :: body ++ rest /\
    pre <> [] /\ forallb Spec.ascii_letter pre = true /\
    len body = n /\ forallb (atom_matches a) body = true /\
    rmatch tl (len pre + 1 + n) rest (Some body) final = Some m.
Proof.
  unfold re_match, sku_regex. cbn [rmatch Nat.eqb].
  destruct s as [|c s]; [discriminate|].
  destruct (atom_matches DataScraper.letters c) eqn:Hc; [|discriminate].
  intros H. apply star_inv in H as (pre & rest & -> & Hp & H).
  destruct rest as [|d rest]; [discriminate|].
  cbn [atom_matches] in H.
  destruct (Ascii.eqb_spec "-"%char d) as [<-|]; [|discriminate].
  apply count_inv in H as (body & rest' & -> & Hl & Hb & H).
  exists (c :: pre), body, rest'. repeat split; try assumption.
  - discriminate.
  - simpl. rewrite <- letters_spec, Hc. simpl.
    erewrite forallb_ext_eq; [exact Hp|]. intros; symmetry; apply letters_spec.
  - rewrite <- H, <- Hl, firstn_captured. f_equal. simpl. lia.
Qed.

(** On a string of the frame's form, the frame reduces to its tail. *)
Lemma sku_regex_fwd a n tl pre body rest m :
  pre <> [] -> forallb Spec.ascii_letter pre = true ->
  len body = n -> forallb (atom_matches a) body = true ->
  rmatch tl (len pre + 1 + n) rest (Some body) final = Some m ->
  re_match (sku_regex a n tl) (pre ++ "-"%char :: body ++ rest) = Some m.
Proof.
  intros Hne Hp Hl Hb H. unfold re_match, sku_regex. cbn [rmatch Nat.eqb].
  destruct pre as [|c pre]; [congruence|]. cbn [forallb app] in Hp |- *.
  apply andb_true_iff in Hp as [Hc Hp].
  rewrite letters_spec, Hc.
  apply star_fwd.
  - erewrite forallb_ext_eq; [exact Hp|]. apply letters_spec.
  - reflexivity.
  - cbn [atom_matches]. rewrite Ascii.eqb_refl.
    subst n. rewrite count_fwd by assumption.
    rewrite firstn_captured, <- H. f_equal. simpl. lia.
Qed.

(** On a string that starts with a prefix, a dash and [n] characters of the
    class, the frame matches exactly when its tail matches what follows. *)
Lemma sku_regex_eq a n tl pre body rest :
  Spec.is_prefix pre ->
  len body = n -> forallb (atom_matches a) body = true ->
  re_match (sku_regex a n tl) (pre ++ "-"%char :: body ++ rest) =
  rmatch tl (len pre + 1 + n) rest (Some body) final.
Proof.
  intros [Hne Hp] Hl Hb.
  destruct (rmatch tl (len pre + 1 + n) rest (Some body) final) as [m|] eqn:Ht.
  - now apply sku_regex_fwd.
  - destruct (re_match _ _) as [m|] eqn:Hm; [|reflexivity].
    apply sku_regex_inv in Hm
      as (pre' & body' & rest' & E & _ & Hp' & Hl' & _ & Hm).
    apply split_at_dash in E as [<- E]; try assumption.
    apply app_same_length in E as [<- <-]; [|congruence].
    exact (eq_trans (eq_sym Hm) Ht).
Qed.

Lemma atom_Chr c c' : atom_matches (Chr c) c' = Ascii.eqb c c'.
Proof. reflexivity. Qed.

Ltac step_tail t c :=
  destruct t as [|c t]; cbn [rmatch]; [discriminate|].

Ltac step_chr c :=
  rewrite atom_Chr;
  match goal with
  | |- context [Ascii.eqb ?x c] =>
      destruct (Ascii.eqb_spec x c) as [<-|]; [|discriminate]
  end.

Ltac step_eol t c g :=
  destruct t as [|c t]; cbn [rmatch];
  [ intros H; injection H as <-; split; [reflexivity|]
  | destruct t; [|discriminate];
    destruct (Ascii.eqb_spec c "010"%char) as [->|]; [|discriminate];
    intros H; injection H as <-; split; [reflexivity|] ].

Lemma tail_New_inv p t g m :
  rmatch tail_New p t g final = Some m ->
  m = MkMatch g /\
  exists c nl,
    t = "-"%char :: c :: "e"%char :: "w"%char :: nl /\
    (c = "N"%char \/ c = "n"%char) /\ (nl = [] \/ nl = ["010"%char]).
Proof.
  unfold tail_New.
  step_tail t c0. step_chr c0.
  step_tail t c1.
  destruct (atom_matches DataScraper.Nn c1) eqn:Hn; [|discriminate].
  apply Nn_spec in Hn.
  step_tail t c2. step_chr c2.
  step_tail t c3. step_chr c3.
  step_eol t c4 g.
  - exists c1, []. auto.
  - exists c1, ["010"%char]. auto.
Qed.

Lemma tail_N_inv p t g m :
  rmatch tail_N p t g final = Some m ->
  m = MkMatch g /\
  exists c nl,
    t = "-"%char :: c :: nl /\
    (c = "N"%char \/ c = "n"%char) /\ (nl = [] \/ nl = ["010"%char]).
Proof.
  unfold tail_N.
  step_tail t c0. step_chr c0.
  step_tail t c1.
  destruct (atom_matches DataScraper.Nn c1) eqn:Hn; [|discriminate].
  apply Nn_spec in Hn.
  step_eol t c4 g.
  - exists c1, []. auto.
  - exists c1, ["010"%char]. auto.
Qed.

(** Neither tail matches in front of a character that is not a dash. *)
Lemma tail_needs_dash tl p c t g :
  tl = tail_New \/ tl = tail_N -> c <> "-"%char ->
  rmatch tl p (c :: t) g final = None.
Proof.
  intros [-> | ->] Hc; cbn [tail_New tail_N rmatch]; rewrite atom_Chr;
    destruct (Ascii.eqb_spec "-"%char c); congruence.
Qed.

(** The four patterns are instances of the frame. *)
Lemma patterns_are_frames :
  DataScraper.pattern1_10 = sku_regex DataScraper.alnums 10 tail_New /\
  DataScraper.pattern2_10 = sku_regex DataScraper.alnums 10 tail_N /\
  DataScraper.pattern1_12 = sku_regex Dig 12 tail_New /\
  DataScraper.pattern2_12 = sku_regex Dig 12 tail_N.
Proof. repeat split. Qed.

Lemma either_accepted a n pre code suf :
  Spec.is_prefix pre -> len code = n ->
  forallb (atom_matches a) code = true ->
  Spec.accepted_suffix suf ->
  either a n (Spec.sku_of pre code suf) = Some (MkMatch (Some code)).
Proof.
  intros Hp Hl Hc Hs. unfold either, Spec.sku_of.
  rewrite !sku_regex_eq by assumption.
  destruct Hs as [-> | [-> | [-> | ->]]]; reflexivity.
Qed.

Lemma sku_of_app pre code suf nl :
  Spec.sku_of pre code suf ++ nl = Spec.sku_of pre code (suf ++ nl).
Proof.
  unfold Spec.sku_of. rewrite <- app_assoc. simpl.
  now rewrite <- app_assoc.
Qed.

Lemma either_inv a n s m :
  either a n s = Some m ->
  exists pre code suf nl,
    s = Spec.sku_of pre code suf ++ nl /\
    Spec.is_prefix pre /\ len code = n /\
    forallb (atom_matches a) code = true /\
    Spec.accepted_suffix suf /\ (nl = [] \/ nl = ["010"%char]) /\
    m = MkMatch (Some code).
Proof.
  unfold either, or_else. intros H.
  destruct (re_match (sku_regex a n tail_New) s) as [m1|] eqn:H1.
  - injection H as <-.
    apply sku_regex_inv in H1 as (pre & code & rest & -> & ? & ? & ? & ? & H).
    apply tail_New_inv in H as (-> & c & nl & -> & Hc & Hnl).
    exists pre, code, [c; "e"; "w"]%char, nl.
    rewrite sku_of_app. unfold Spec.is_prefix, Spec.accepted_suffix.
    repeat split; auto.
    destruct Hc as [-> | ->]; auto.
  - apply sku_regex_inv in H as (pre & code & rest & -> & ? & ? & ? & ? & H).
    apply tail_N_inv in H as (-> & c & nl & -> & Hc & Hnl).
    exists pre, code, [c], nl.
    rewrite sku_of_app. unfold Spec.is_prefix, Spec.accepted_suffix.
    repeat split; auto.
    destruct Hc as [-> | ->]; auto.
Qed.

(* ================================================================== *)
(** * The extractor *)
(* ================================================================== *)

Lemma no_dash_of (p : ascii -> bool) s :
  (forall c, p c = true -> c <> "-"%char) ->
  forallb p s = true -> no_dash s.
Proof.
  intros Hp. apply forallb_impl. intros c Hc.
  destruct (Ascii.eqb_spec c "-"%char); [now apply Hp in Hc|reflexivity].
Qed.

Lemma split_no_dash : forall pre pre' r r',
  no_dash pre -> no_dash pre' ->
  pre ++ "-"%char :: r = pre' ++ "-"%char :: r' -> pre = pre' /\ r = r'.
Proof.
  unfold no_dash.
  induction pre as [|c pre IH]; intros [|c' pre'] r r' H H' E; simpl in *.
  - injection E as ->. now split.
  - injection E as <- _. now rewrite Ascii.eqb_refl in H'.
  - injection E as -> _. now rewrite Ascii.eqb_refl in H.
  - injection E as -> E.
    apply andb_true_iff in H as [_ H]. apply andb_true_iff in H' as [_ H'].
    destruct (IH _ _ _ H H' E) as [-> ->]. now split.
Qed.

(** A SKU has one reading as prefix, code and suffix. *)
Lemma sku_of_inj pre code suf pre' code' suf' :
  no_dash pre -> no_dash pre' -> no_dash code -> no_dash code' ->
  Spec.sku_of pre code suf = Spec.sku_of pre' code' suf' ->
  pre = pre' /\ code = code' /\ suf = suf'.
Proof.
  unfold Spec.sku_of. intros Hp Hp' Hc Hc' E.
  apply split_no_dash in E as [-> E]; try assumption.
  apply split_no_dash in E as [-> ->]; try assumption.
  now repeat split.
Qed.

Lemma prefix_no_dash pre : Spec.is_prefix pre -> no_dash pre.
Proof. intros [_ H]. eapply no_dash_of; [apply letter_not_dash|exact H]. Qed.

Lemma code10_no_dash code : Spec.is_code10 code -> no_dash code.
Proof. intros [_ H]. eapply no_dash_of; [apply alnum_not_dash|exact H]. Qed.

Lemma code12_is_alnum code :
  forallb Spec.decimal_digit code = true -> forallb Spec.ascii_alnum code = true.
Proof. apply forallb_impl, digit_is_alnum. Qed.

Lemma code12_no_dash code : Spec.is_code12 code -> no_dash code.
Proof.
  intros [_ H]. eapply no_dash_of; [apply alnum_not_dash|].
  now apply code12_is_alnum.
Qed.

Lemma accepted_suffix_last suf :
  Spec.accepted_suffix suf ->
  exists t d, suf = t ++ [d] /\ isspace d = false.
Proof.
  intros [-> | [-> | [-> | ->]]];
    [exists (lit "Ne"), "w"%char | exists (lit "ne"), "w"%char
    | exists [], "N"%char | exists [], "n"%char]; now split.
Qed.

(** A SKU whose suffix ends in a visible character is its own [strip]. *)
Lemma strip_sku pre code t d :
  Spec.is_prefix pre -> isspace d = false ->
  strip (Spec.sku_of pre code (t ++ [d])) = Spec.sku_of pre code (t ++ [d]).
Proof.
  intros [Hne Hp] Hd. destruct pre as [|c pre]; [congruence|].
  simpl in Hp. apply andb_true_iff in Hp as [Hc _].
  unfold Spec.sku_of.
  replace ((c :: pre) ++ "-"%char :: code ++ "-"%char :: t ++ [d])
    with (c :: (pre ++ "-"%char :: code ++ "-"%char :: t) ++ [d]).
  - apply strip_id; [now apply letter_not_space|assumption].
  - simpl. f_equal. rewrite <- app_assoc. simpl. f_equal. f_equal.
    now rewrite <- app_assoc.
Qed.

(** The extractor, in terms of the two attempts. *)
Lemma extract_unfold s :
  DataScraper.extract_asin_from_sku (PyStr s) =
  let try_12 :=
    match either Dig 12 (strip s) with
    | Some m =>
        if str_isdigit (group1 m) then (swap_halves 6 (group1 m), true)
        else ([], false)
    | None => ([], false)
    end in
  match either DataScraper.alnums 10 (strip s) with
  | Some m =>
      if any_isalpha (group1 m) then (swap_halves 5 (group1 m), true)
      else try_12
  | None => try_12
  end.
Proof. reflexivity. Qed.

(** A failure always comes with the empty identifier. *)
Lemma extract_failure v :
  snd (DataScraper.extract_asin_from_sku v) = false ->
  DataScraper.extract_asin_from_sku v = ([], false).
Proof.
  destruct v as [| x | z | s];
    [reflexivity | intros _; now destruct x | reflexivity |].
  rewrite extract_unfold. cbv zeta.
  destruct (either DataScraper.alnums 10 (strip s)) as [m|];
    [destruct (any_isalpha (group1 m)); [discriminate|]|];
    (destruct (either Dig 12 (strip s)) as [m'|];
     [destruct (str_isdigit (group1 m')); [discriminate|]|]); reflexivity.
Qed.

Lemma no_final_newline s t : strip s = t ++ ["010"%char] -> False.
Proof. intros E. now apply strip_last in E. Qed.

Lemma either_strip_inv a n s m :
  either a n (strip s) = Some m ->
  exists pre code suf,
    strip s = Spec.sku_of pre code suf /\
    Spec.is_prefix pre /\ len code = n /\
    forallb (atom_matches a) code = true /\
    Spec.accepted_suffix suf /\ m = MkMatch (Some code).
Proof.
  intros H. apply either_inv in H
    as (pre & code & suf & nl & E & Hp & Hl & Hc & Hs & [-> | ->] & ->).
  - rewrite app_nil_r in E. exists pre, code, suf. auto 10.
  - now apply no_final_newline in E.
Qed.

(** Every success of the extractor comes from one of the two shapes. *)
Lemma extract_success s id :
  DataScraper.extract_asin_from_sku (PyStr s) = (id, true) ->
  (exists code, Spec.shape_A (strip s) code /\ id = swap_halves 5 code) \/
  (exists code, Spec.shape_B (strip s) code /\ id = swap_halves 6 code).
Proof.
  rewrite extract_unfold. cbv zeta. intros H.
  assert (B : match either Dig 12 (strip s) with
              | Some m =>
                  if str_isdigit (group1 m)
                  then (swap_halves 6 (group1 m), true) else ([], false)
              | None => ([], false)
              end = (id, true) ->
              exists code, Spec.shape_B (strip s) code /\ id = swap_halves 6 code).
  { clear H. destruct (either Dig 12 (strip s)) as [m|] eqn:E; [|discriminate].
    apply either_strip_inv in E as (pre & code & suf & E & Hp & Hl & Hc & Hs & ->).
    unfold group1; simpl. destruct (str_isdigit code); [|discriminate].
    intros H. injection H as <-. exists code. split; [|reflexivity].
    exists pre, suf. repeat split; try assumption; apply Hp. }
  destruct (either DataScraper.alnums 10 (strip s)) as [m|] eqn:E; [|auto].
  destruct (any_isalpha (group1 m)) eqn:Ha; [|auto].
  injection H as <-. left.
  apply either_strip_inv in E as (pre & code & suf & E & Hp & Hl & Hc & Hs & ->).
  unfold group1 in *; simpl in *. exists code. split; [|reflexivity].
  exists pre, suf. repeat split; try assumption; try apply Hp.
  erewrite forallb_ext_eq; [exact Hc|]. intros; symmetry; apply alnums_spec.
Qed.

(** The Amazon attempt on a SKU of shape 1. *)
Lemma extract_shape_A s code :
  Spec.shape_A s code ->
  DataScraper.extract_asin_from_sku (PyStr s) = (swap_halves 5 code, true).
Proof.
  intros (pre & suf & -> & Hp & [Hl Hc] & Ha & Hs).
  rewrite extract_unfold. cbv zeta.
  destruct (accepted_suffix_last Hs) as (t & d & E & Hd).
  rewrite E, strip_sku, <- E by assumption.
  rewrite either_accepted; try assumption.
  - unfold group1; simpl. now rewrite Ha.
  - erewrite forallb_ext_eq; [exact Hc|]. apply alnums_spec.
Qed.

(** A code of twelve digits overruns the ten characters of the Amazon
    patterns: the character after them is a digit, not a dash. *)
Lemma either_10_on_code12 pre code suf :
  Spec.is_prefix pre -> Spec.is_code12 code ->
  either DataScraper.alnums 10 (Spec.sku_of pre code suf) = None.
Proof.
  intros Hp [Hl Hc]. unfold Spec.sku_of, len in *.
  rewrite <- (firstn_skipn 10 code) in Hc |- *.
  assert (Hb : len (firstn 10 code) = 10)
    by (unfold len; rewrite length_firstn; lia).
  assert (Hr : List.length (skipn 10 code) = 2)
    by (rewrite length_skipn; lia).
  rewrite forallb_app in Hc. apply andb_true_iff in Hc as [Hc Hd].
  destruct (skipn 10 code) as [|d r]; [discriminate|].
  cbn [forallb] in Hd. apply andb_true_iff in Hd as [Hd _].
  rewrite <- app_assoc.
  assert (Ha : forallb (atom_matches DataScraper.alnums) (firstn 10 code) = true).
  { erewrite forallb_ext_eq; [apply code12_is_alnum, Hc|]. apply alnums_spec. }
  unfold either.
  rewrite sku_regex_eq by assumption. rewrite sku_regex_eq by assumption.
  cbn [app].
  rewrite !tail_needs_dash;
    auto using alnum_not_dash, digit_is_alnum.
Qed.

(** The eBay attempt on a SKU of shape 2. *)
Lemma extract_shape_B s code :
  Spec.shape_B s code ->
  DataScraper.extract_asin_from_sku (PyStr s) = (swap_halves 6 code, true).
Proof.
  intros (pre & suf & -> & Hp & [Hl Hc] & Hs).
  rewrite extract_unfold. cbv zeta.
  destruct (accepted_suffix_last Hs) as (t & d & E & Hd).
  rewrite E, strip_sku, <- E by assumption.
  rewrite either_10_on_code12 by (assumption || (split; assumption)).
  rewrite either_accepted; try assumption.
  unfold group1; simpl.
  assert (D : str_isdigit code = true).
  { destruct code as [|c code]; [discriminate|].
    unfold str_isdigit. revert Hc. apply forallb_impl, digit_isdigit. }
  now rewrite D.
Qed.

Lemma swap_halves_len h code : len (swap_halves h code) = len code.
Proof.
  unfold swap_halves, len.
  rewrite length_app, length_skipn, length_firstn. lia.
Qed.

Lemma swap_halves_forallb (p : ascii -> bool) h code :
  forallb p (swap_halves h code) = forallb p code.
Proof.
  unfold swap_halves. rewrite forallb_app, andb_comm, <- forallb_app.
  now rewrite firstn_skipn.
Qed.

Lemma swap_halves_existsb (p : ascii -> bool) h code :
  existsb p (swap_halves h code) = existsb p code.
Proof.
  unfold swap_halves. rewrite existsb_app, orb_comm, <- existsb_app.
  now rewrite firstn_skipn.
Qed.

Lemma last_first_swap h code :
  len code = 2 * h ->
  Spec.last_n h code ++ Spec.first_n h code = swap_halves h code.
Proof.
  intros Hl. unfold Spec.last_n, Spec.first_n, swap_halves.
  now replace (len code - h) with h by lia.
Qed.

Lemma lower_not_space c :
  Spec.ascii_lower c = "w"%char \/ Spec.ascii_lower c = "n"%char ->
  isspace c = false.
Proof. by_char c; intros [H | H]; discriminate H. Qed.

Lemma casing_last suf :
  Spec.casing_of (lit "new") suf \/ Spec.casing_of (lit "n") suf ->
  exists t d, suf = t ++ [d] /\ isspace d = false.
Proof.
  unfold Spec.casing_of. intros [H | H].
  - destruct suf as [|a [|b [|c [|]]]]; try discriminate.
    exists [a; b], c. split; [reflexivity|].
    apply lower_not_space. left. simpl in H. congruence.
  - destruct suf as [|a [|]]; try discriminate.
    exists [], a. split; [reflexivity|].
    apply lower_not_space. right. simpl in H. congruence.
Qed.

(* ================================================================== *)
(** * Claims on the identifier extractor *)
(* ================================================================== *)

(** C1.  For a SKU PREFIX-CODE-SUFFIX with an alphabetic prefix and an
    accepted suffix: when CODE is ten alphanumeric characters with at least
    one letter, the extractor succeeds and returns the last five characters
    of CODE followed by its first five; when CODE is twelve decimal digits,
    it succeeds and returns the last six followed by the first six. *)
Theorem extract_swaps_halves (prefix code suffix : str) :
  Spec.is_prefix prefix ->
  Spec.accepted_suffix suffix ->
  (Spec.is_code10 code -> any_isalpha code = true ->
   DataScraper.extract_asin_from_sku (PyStr (Spec.sku_of prefix code suffix))
   = (Spec.last_n 5 code ++ Spec.first_n 5 code, true)) /\
  (Spec.is_code12 code ->
   DataScraper.extract_asin_from_sku (PyStr (Spec.sku_of prefix code suffix))
   = (Spec.last_n 6 code ++ Spec.first_n 6 code, true)).
Proof.
  intros Hp Hs. split.
  - intros Hc Ha. rewrite last_first_swap by apply Hc.
    apply extract_shape_A. exists prefix, suffix. auto.
  - intros Hc. rewrite last_first_swap by apply Hc.
    apply extract_shape_B. exists prefix, suffix. auto.
Qed.

(** The two SKUs of the specification, through C1. *)
Lemma extract_swaps_halves_witness :
  DataScraper.extract_asin_from_sku (PyStr (lit "MZM-4KTCXB0CYZ-New"))
  = (lit "B0CYZ4KTCX", true) /\
  DataScraper.extract_asin_from_sku (PyStr (lit "MZM-853596316522-New"))
  = (lit "316522853596", true).
Proof.
  assert (Hp : Spec.is_prefix (lit "MZM")) by (split; [discriminate|reflexivity]).
  assert (Hs : Spec.accepted_suffix (lit "New")) by (left; reflexivity).
  split.
  - apply (proj1 (extract_swaps_halves (lit "4KTCXB0CYZ") Hp Hs)).
    + split; reflexivity.
    + reflexivity.
  - apply (proj2 (extract_swaps_halves (lit "853596316522") Hp Hs)).
    split; reflexivity.
Defined.

(** The third SKU of the specification, by evaluation. *)
Example extract_suffix_N :
  DataScraper.extract_asin_from_sku (PyStr (lit "MZM-7TBHSB0DJ8-N"))
  = (lit "B0DJ87TBHS", true).
Proof. reflexivity. Qed.

(** C5, as the code has it.  Only the first letter of the suffix is matched
    in both cases: on a SKU whose prefix and code fit one of the two shapes
    and whose suffix is some casing of New or N, the extractor succeeds
    exactly when the suffix is New, new, N or n. *)
Theorem suffix_first_letter_only (prefix code suffix : str) :
  Spec.is_prefix prefix ->
  (Spec.is_code10 code /\ any_isalpha code = true) \/ Spec.is_code12 code ->
  Spec.casing_of (lit "new") suffix \/ Spec.casing_of (lit "n") suffix ->
  snd (DataScraper.extract_asin_from_sku
         (PyStr (Spec.sku_of prefix code suffix))) = true
  <-> Spec.accepted_suffix suffix.
Proof.
  intros Hp Hc Hcase. split.
  - destruct (DataScraper.extract_asin_from_sku _) as [id ok] eqn:E.
    simpl. intros ->.
    destruct (casing_last Hcase) as (t & d & Et & Hd).
    apply extract_success in E.
    rewrite Et, strip_sku, <- Et in E by assumption.
    assert (Hn : no_dash code).
    { destruct Hc as [[Hc _] | Hc];
        [now apply code10_no_dash | now apply code12_no_dash]. }
    destruct E as [(code' & (pre' & suf' & E & Hp' & Hc' & _ & Hs') & _)
                  |(code' & (pre' & suf' & E & Hp' & Hc' & Hs') & _)];
      apply sku_of_inj in E as (_ & _ & ->);
      auto using prefix_no_dash, code10_no_dash, code12_no_dash.
  - intros Hs. destruct Hc as [[Hc Ha] | Hc].
    + rewrite (extract_shape_A (code := code)); [reflexivity|].
      exists prefix, suffix. auto.
    + rewrite (extract_shape_B (code := code)); [reflexivity|].
      exists prefix, suffix. auto.
Qed.

Lemma suffix_first_letter_only_witness :
  snd (DataScraper.extract_asin_from_sku (PyStr (lit "MZM-7TBHSB0DJ8-n")))
  = true.
Proof.
  apply (suffix_first_letter_only (prefix := lit "MZM")
           (code := lit "7TBHSB0DJ8") (suffix := lit "n")).
  - split; [discriminate|reflexivity].
  - left. repeat split.
  - right. reflexivity.
  - right. right. right. reflexivity.
Defined.

(** C5, as stated, fails: the suffix NEW is a casing of New, the prefix and
    the code fit shape 1, and the extractor rejects the SKU. *)
Lemma suffix_upper_case_rejected :
  Spec.is_prefix (lit "MZM") /\
  Spec.is_code10 (lit "4KTCXB0CYZ") /\ any_isalpha (lit "4KTCXB0CYZ") = true /\
  Spec.casing_of (lit "new") (lit "NEW") /\
  DataScraper.extract_asin_from_sku
    (PyStr (Spec.sku_of (lit "MZM") (lit "4KTCXB0CYZ") (lit "NEW")))
  = ([], false).
Proof. repeat split. discriminate. Qed.

Lemma sku_has_dash prefix code suffix :
  In "-"%char (Spec.sku_of prefix code suffix).
Proof. unfold Spec.sku_of. apply in_or_app. right. now left. Qed.

(** C6, as the code has it.  The extractor trims white space first and then
    fails hard: whenever the trimmed input fits neither shape 1 with its
    letter requirement nor shape 2, the result is the empty identifier with
    ok = false.  A value that is not a string fails the same way. *)
Theorem extract_fails_off_shape (v : value) :
  (forall s code,
     v = PyStr s ->
     ~ Spec.shape_A (strip s) code /\ ~ Spec.shape_B (strip s) code) ->
  DataScraper.extract_asin_from_sku v = ([], false).
Proof.
  intros H. apply extract_failure.
  destruct (DataScraper.extract_asin_from_sku v) as [id [|]] eqn:E;
    [|reflexivity].
  destruct v as [| x | z | s];
    try (rewrite extract_failure in E; [discriminate E|]);
    try reflexivity; try (now destruct x).
  apply extract_success in E as [(code & Hs & _) | (code & Hs & _)];
    now destruct (H s code eq_refl).
Qed.

Lemma extract_fails_off_shape_witness :
  DataScraper.extract_asin_from_sku (PyStr (lit "garbage")) = ([], false).
Proof.
  apply extract_fails_off_shape. intros s code E. injection E as <-.
  split; intros (prefix & suffix & E & _);
    pose proof (sku_has_dash prefix code suffix) as D;
    rewrite <- E in D; vm_compute in D; intuition discriminate.
Defined.

(** The failures the specification lists. *)
Example extract_empty :
  DataScraper.extract_asin_from_sku (PyStr []) = ([], false).
Proof. reflexivity. Qed.

Example extract_ten_digits :
  DataScraper.extract_asin_from_sku (PyStr (lit "MZM-1234567890-New"))
  = ([], false).
Proof. reflexivity. Qed.

Example extract_not_a_string :
  DataScraper.extract_asin_from_sku PyNone = ([], false).
Proof. reflexivity. Qed.

(** C6, as stated, fails: a SKU with a leading blank is not of the form
    PREFIX-CODE-SUFFIX for any alphabetic prefix, so it fits neither shape
    whatever the suffix, and yet an identifier is extracted from it. *)
Lemma padded_sku_is_extracted :
  (forall prefix code suffix,
     Spec.is_prefix prefix ->
     lit " MZM-4KTCXB0CYZ-New" <> Spec.sku_of prefix code suffix) /\
  DataScraper.extract_asin_from_sku (PyStr (lit " MZM-4KTCXB0CYZ-New"))
  = (lit "B0CYZ4KTCX", true).
Proof.
  split; [|reflexivity].
  intros prefix code suffix [Hne Hp] E.
  destruct prefix as [|c prefix]; [congruence|].
  injection E as <- _. discriminate Hp.
Qed.

(** C7.  Whatever the extractor returns with ok = true has length 10 with
    at least one letter, or length 12 and only digits, and [is_valid_asin]
    accepts it. *)
Theorem extracted_identifier_is_valid (v : value) (id : str) :
  DataScraper.extract_asin_from_sku v = (id, true) ->
  (Spec.marketplace_A id \/ Spec.marketplace_B id) /\
  (len id = 10 \/ len id = 12) /\
  fst (DataScraper.is_valid_asin (PyStr id)) = true.
Proof.
  intros E.
  assert (exists s, v = PyStr s) as [s ->].
  { destruct v as [| x | z | s]; try discriminate E; [|now exists s].
    rewrite extract_failure in E; [discriminate E|now destruct x]. }
  apply extract_success in E
    as [(code & (pre & suf & _ & _ & [Hl Hc] & Ha & _) & ->)
       |(code & (pre & suf & _ & _ & [Hl Hc] & _) & ->)].
  - assert (L : len (swap_halves 5 code) = 10)
      by now rewrite swap_halves_len.
    assert (A : any_isalpha (swap_halves 5 code) = true)
      by (unfold any_isalpha; now rewrite swap_halves_existsb).
    assert (S : strip (swap_halves 5 code) = swap_halves 5 code).
    { apply strip_no_space. rewrite swap_halves_forallb.
      revert Hc. apply forallb_impl. intros c Hc.
      now rewrite alnum_not_space. }
    repeat split; auto. left; now split.
    unfold DataScraper.is_valid_asin. rewrite S, L, A.
    destruct (swap_halves 5 code); [discriminate L|reflexivity].
  - assert (L : len (swap_halves 6 code) = 12)
      by now rewrite swap_halves_len.
    assert (D : forallb isdigit (swap_halves 6 code) = true).
    { rewrite swap_halves_forallb. revert Hc.
      apply forallb_impl, digit_isdigit. }
    assert (S : strip (swap_halves 6 code) = swap_halves 6 code).
    { apply strip_no_space. rewrite swap_halves_forallb.
      revert Hc. apply forallb_impl. intros c Hc.
      now rewrite alnum_not_space by now apply digit_is_alnum. }
    repeat split; auto. right; now split.
    unfold DataScraper.is_valid_asin. rewrite S, L.
    destruct (swap_halves 6 code) as [|c r]; [discriminate L|].
    unfold str_isdigit. now rewrite D.
Qed.

Lemma extracted_identifier_is_valid_witness :
  fst (DataScraper.is_valid_asin (PyStr (lit "B0CYZ4KTCX"))) = true /\
  fst (DataScraper.is_valid_asin (PyStr (lit "316522853596"))) = true.
Proof.
  split.
  - apply (extracted_identifier_is_valid (PyStr (lit "MZM-4KTCXB0CYZ-New"))).
    reflexivity.
  - apply (extracted_identifier_is_valid (PyStr (lit "MZM-853596316522-N"))).
    reflexivity.
Defined.

(** ** Links *)

(** What [str.isdigit] accepts of one character: a decimal digit, or one of
    the superscripts U+00B2, U+00B3 and U+00B9. *)
Lemma isdigit_spec c :
  isdigit c = Spec.decimal_digit c || one_of [178; 179; 185]%N c.
Proof. by_char c. Qed.

(** C8, as the code has it.  The link is made from the trimmed identifier
    [t]: the Amazon address followed by [t] when [t] has length 10 and a
    letter; the eBay address followed by [t] when [t] has length 12 and
    [str.isdigit] accepts each of its characters, which it does of the
    decimal digits, so of every identifier of 12 decimal digits, and of the
    superscript digits as well; the empty string otherwise.  For an
    identifier without white space at its ends, [t] is the identifier. *)
Theorem link_of_trimmed_identifier (id : str) :
  let t := strip id in
  let isdigit12 := len t = 12 /\ forallb isdigit t = true in
  (Spec.marketplace_A t -> DataScraper.generate_link (PyStr id) = amazon ++ t) /\
  (isdigit12 -> DataScraper.generate_link (PyStr id) = ebay ++ t) /\
  (Spec.is_code12 t -> DataScraper.generate_link (PyStr id) = ebay ++ t) /\
  (~ Spec.marketplace_A t -> ~ isdigit12 ->
   DataScraper.generate_link (PyStr id) = []) /\
  (forall c, isdigit c = true <->
     Spec.decimal_digit c = true \/
     In (code c) [178; 179; 185]%N) /\
  (Spec.trimmed id -> t = id).
Proof.
  intros t isdigit12. unfold isdigit12. clear isdigit12.
  unfold DataScraper.generate_link. fold t.
  assert (N : len t <> 0 -> str_eqb id [] = false).
  { destruct id; [intros H; now elim H|reflexivity]. }
  assert (B : len t = 12 /\ forallb isdigit t = true ->
              (if str_eqb id [] then []
               else if Nat.eqb (len t) 10 && any_isalpha t
                    then amazon ++ t
                    else if Nat.eqb (len t) 12 && str_isdigit t
                         then ebay ++ t else []) = ebay ++ t).
  { intros [L D]. rewrite N, L by lia.
    destruct t as [|c r] eqn:E; [discriminate L|].
    unfold str_isdigit. now rewrite D. }
  split; [|split; [|split; [|split; [|split]]]].
  - intros [L A]. rewrite N, L, A by lia. reflexivity.
  - exact B.
  - intros [L D]. apply B. split; [exact L|].
    revert D. apply forallb_impl, digit_isdigit.
  - intros NA NB. destruct (str_eqb id []); [reflexivity|].
    destruct (Nat.eqb_spec (len t) 10) as [L|_].
    + destruct (any_isalpha t) eqn:A; [now elim NA|]. simpl.
      now rewrite L.
    + simpl. destruct (Nat.eqb_spec (len t) 12) as [L|_]; [|reflexivity].
      simpl. destruct (str_isdigit t) eqn:D; [|reflexivity].
      elim NB. split; [assumption|].
      destruct t; [discriminate D|exact D].
  - intros c. rewrite isdigit_spec, orb_true_iff. unfold one_of.
    split; (intros [H | H]; [now left|right]).
    + apply existsb_exists in H as (n & Hn & E).
      apply N.eqb_eq in E. now rewrite <- E in Hn.
    + apply existsb_exists. exists (code c). split; [exact H|apply N.eqb_refl].
  - auto.
Qed.

Lemma link_of_trimmed_identifier_witness :
  DataScraper.generate_link (PyStr (lit "B0CYZ4KTCX"))
  = lit "https://www.amazon.com/dp/B0CYZ4KTCX" /\
  DataScraper.generate_link (PyStr (lit "316522853596"))
  = lit "https://www.ebay.com/itm/316522853596" /\
  DataScraper.generate_link (PyStr (lit "31652285359X")) = [].
Proof.
  split; [|split].
  - apply (proj1 (link_of_trimmed_identifier (lit "B0CYZ4KTCX"))).
    split; reflexivity.
  - apply (proj1 (proj2 (proj2
             (link_of_trimmed_identifier (lit "316522853596"))))).
    split; reflexivity.
  - apply (proj1 (proj2 (proj2 (proj2
             (link_of_trimmed_identifier (lit "31652285359X")))))).
    + intros [L _]. discriminate L.
    + intros [_ D]. discriminate D.
Defined.

(** C8, as stated, fails in both directions: an identifier of length 11 is
    given a link, and one of length 10 with a letter is given none. *)
Lemma link_ignores_outer_blanks :
  (len (lit " B0CYZ4KTCX") = 11 /\
   DataScraper.generate_link (PyStr (lit " B0CYZ4KTCX"))
   = lit "https://www.amazon.com/dp/B0CYZ4KTCX") /\
  (len (lit "B0CYZ4KTC ") = 10 /\ any_isalpha (lit "B0CYZ4KTC ") = true /\
   DataScraper.generate_link (PyStr (lit "B0CYZ4KTC ")) = []).
Proof. repeat split. Qed.

(** Nor is the eBay link kept to decimal digits: [str.isdigit] accepts a
    superscript two, so twelve characters that end in one are given a link,
    although the twelfth is no decimal digit. *)
Example superscript_digit_is_linked :
  let id := lit "12345678901" ++ [ascii_of_N 178] in
  len id = 12 /\ forallb Spec.decimal_digit id = false /\
  DataScraper.generate_link (PyStr id) = ebay ++ id.
Proof. repeat split. Qed.

(* ================================================================== *)
(** * Float comparisons *)
(* ================================================================== *)

Lemma SFcompare_antisym (x y : float) :
  SFcompare y x = option_map CompOpp (SFcompare x y).
Proof.
  destruct x as [sx | sx | | sx mx ex], y as [sy | sy | | sy my ey];
    try (destruct sx); try (destruct sy); try reflexivity;
    simpl; rewrite (Z.compare_antisym ey ex);
    destruct (ey ?= ex)%Z; simpl; try reflexivity;
    rewrite !Pos.compare_cont_spec; simpl;
    rewrite (Pos.compare_antisym my mx); now destruct (my ?= mx)%positive.
Qed.

Lemma fgt_flt (x y : float) : fgt x y = flt y x.
Proof.
  unfold fgt, flt. rewrite (SFcompare_antisym x y).
  now destruct (SFcompare x y) as [[| |]|].
Qed.

Lemma fge_fle (x y : float) : fge x y = fle y x.
Proof.
  unfold fge, fle. rewrite (SFcompare_antisym x y).
  now destruct (SFcompare x y) as [[| |]|].
Qed.

(** The outcomes of one comparison exclude each other. *)
Lemma fle_not_fgt (x y : float) : fle x y = true -> fgt x y = false.
Proof. unfold fle, fgt. now destruct (SFcompare x y) as [[| |]|]. Qed.

Lemma fgt_not_fle (x y : float) : fgt x y = true -> fle x y = false.
Proof. unfold fle, fgt. now destruct (SFcompare x y) as [[| |]|]. Qed.

Lemma flt_not_fge (x y : float) : flt x y = true -> fge x y = false.
Proof. unfold flt, fge. now destruct (SFcompare x y) as [[| |]|]. Qed.

Lemma feq_not_fgt (x y : float) : feq x y = true -> fgt x y = false.
Proof. unfold feq, fgt. now destruct (SFcompare x y) as [[| |]|]. Qed.

(** Only a zero compares equal to zero. *)
Lemma feq_zero (x : float) :
  feq x Reverb.zero = true -> exists s, x = S754_zero s.
Proof.
  destruct x as [s | s | | s m e]; try (destruct s); try discriminate;
    intros _; eexists; reflexivity.
Qed.

Lemma nan_compares_false (x : float) :
  is_nan x = true ->
  forall y, flt x y = false /\ fle x y = false /\ fgt x y = false /\
            fge x y = false /\ fle y x = false.
Proof.
  destruct x; try discriminate. intros _ y.
  unfold flt, fle, fgt, fge. now destruct y.
Qed.

(* ================================================================== *)
(** * Claims on the price policies *)
(* ================================================================== *)

Lemma threshold_is_50 : PVU.PRICE_VARIANCE_THRESHOLD = float_of_Z 50.
Proof. reflexivity. Qed.

Lemma zero_below_threshold s :
  fge (S754_zero s) PVU.PRICE_VARIANCE_THRESHOLD = false /\
  fgt (S754_zero s) Reverb.zero = false.
Proof. now destruct s. Qed.

(** What the combined update does to the counter of updated prices: it
    counts a price exactly when the plan asks for a price update and the API
    accepts the PUT. *)
Lemma apply_plan_price_updated plan env st :
  PVU.stats (PVU.apply_plan plan env st) "price_updated"%string
  = if PVU.need_price_update plan && PVU.update_listing env
    then S (PVU.stats st "price_updated"%string)
    else PVU.stats st "price_updated"%string.
Proof.
  unfold PVU.apply_plan.
  destruct (PVU.need_inventory_update plan), (PVU.need_price_update plan),
    (PVU.update_listing env), (PVU.flagged plan);
    cbv beta iota zeta delta
      [PVU.when PVU.bump2 PVU.incr_update_count Reverb.bump PVU.stats
       PVU.overall_stats PVU.price_variance_data PVU.update_count
       PVU.review_file PVU.FAST_MODE String.eqb Ascii.eqb Bool.eqb
       andb orb negb];
    reflexivity.
Qed.

(** The price decision leaves the counter of updated prices alone. *)
Lemma decide_price_price_updated store sku listing desired st :
  PVU.stats (snd (PVU.decide_price store sku listing desired st))
    "price_updated"%string
  = PVU.stats st "price_updated"%string.
Proof.
  unfold PVU.decide_price.
  destruct desired as [d|]; [|reflexivity].
  destruct (fgt d Reverb.zero); [|reflexivity].
  destruct (Reverb.current_price listing) as [current currency].
  destruct (fge _ _); [reflexivity|].
  destruct (fgt _ _); reflexivity.
Qed.

(** C2.  The threshold policy of the Price Variance Updater, threshold 50,
    on the decision and on the combined update made from it.  An absent,
    zero or negative posted price changes nothing: no price update is asked
    for, the body of the PUT carries no price, no price is counted as
    updated and nothing is recorded; so does a difference of zero.  A posted
    price above zero with a difference strictly between 0 and 50 is sent,
    in the body of the PUT with the currency of the listing, counted as
    updated when the API accepts it, and not recorded; with a difference of
    50 or more it is sent likewise and a review record is appended, with
    direction INCREASE when the posted price is above the listed one and
    DECREASE otherwise. *)
Theorem threshold_policy (store sku : str) (listing : Reverb.Listing)
  (desired : option float) (st : PVU.State)
  (current_inventory target_inventory : Z) (env : PVU.Remote) :
  let current := fst (Reverb.current_price listing) in
  let currency := snd (Reverb.current_price listing) in
  let loc := fst (PVU.decide_price store sku listing desired st) in
  let st' := snd (PVU.decide_price store sku listing desired st) in
  let plan := PVU.make_plan current_inventory target_inventory desired loc in
  let price_updated s := PVU.stats s "price_updated"%string in
  let unchanged :=
    PVU.should_update_price loc = false /\
    PVU.need_price_update plan = false /\
    Reverb.p_price (PVU.update_data plan) = None /\
    price_updated (PVU.apply_plan plan env st') = price_updated st /\
    PVU.price_variance_data st' = PVU.price_variance_data st in
  let sent d :=
    PVU.should_update_price loc = true /\
    PVU.need_price_update plan = true /\
    Reverb.p_price (PVU.update_data plan) = Some (d, currency) /\
    price_updated (PVU.apply_plan plan env st')
    = (if PVU.update_listing env then S (price_updated st)
       else price_updated st) in
  (desired = None -> unchanged) /\
  (forall d, desired = Some d ->
     let diff := fabs (fsub d current) in
     (fle d Reverb.zero = true -> unchanged) /\
     (feq diff Reverb.zero = true -> unchanged) /\
     (fgt d Reverb.zero = true ->
      fgt diff Reverb.zero = true -> flt diff (float_of_Z 50) = true ->
      sent d /\
      PVU.price_variance_data st' = PVU.price_variance_data st) /\
     (fgt d Reverb.zero = true -> fge diff (float_of_Z 50) = true ->
      sent d /\
      PVU.price_variance_data st' =
      PVU.price_variance_data st ++
      [PVU.MkVariance store sku current d diff
         (if fgt d current then lit "INCREASE" else lit "DECREASE")])).
Proof.
  cbv zeta. rewrite <- threshold_is_50.
  rewrite apply_plan_price_updated, decide_price_price_updated.
  unfold PVU.make_plan. cbn [PVU.need_price_update PVU.update_data
    Reverb.p_price]. unfold PVU.decide_price.
  split; [now intros ->|]. intros d ->.
  destruct (Reverb.current_price listing) as [current currency].
  cbn [fst snd]. set (diff := fabs (fsub d current)).
  split; [|split; [|split]].
  - intros H. rewrite (fle_not_fgt _ _ H). now repeat split.
  - intros H. apply feq_zero in H as [s H].
    destruct (fgt d Reverb.zero); [|now repeat split].
    rewrite H. destruct (zero_below_threshold s) as [-> ->].
    now repeat split.
  - intros -> H1 H2. rewrite (flt_not_fge _ _ H2), H1. now repeat split.
  - intros -> ->. now repeat split.
Qed.

(** The four decisions of the specification, through C2. *)
Lemma threshold_policy_witness :
  let decide d := PVU.decide_price (lit "MZM") (lit "SKU1") (listed_at 100) d
                    PVU.initial in
  let body d :=
    Reverb.p_price
      (PVU.update_data (PVU.make_plan 3 3 d (fst (decide d)))) in
  (PVU.should_update_price (fst (decide (Some (float_of_Z 160)))) = true /\
   body (Some (float_of_Z 160)) = Some (float_of_Z 160, lit "USD") /\
   PVU.price_variance_data (snd (decide (Some (float_of_Z 160)))) =
   [PVU.MkVariance (lit "MZM") (lit "SKU1") (float_of_Z 100) (float_of_Z 160)
      (float_of_Z 60) (lit "INCREASE")]) /\
  (PVU.should_update_price (fst (decide (Some (float_of_Z 130)))) = true /\
   body (Some (float_of_Z 130)) = Some (float_of_Z 130, lit "USD") /\
   PVU.price_variance_data (snd (decide (Some (float_of_Z 130)))) = []) /\
  (PVU.should_update_price (fst (decide (Some (float_of_Z 100)))) = false /\
   body (Some (float_of_Z 100)) = None /\
   PVU.price_variance_data (snd (decide (Some (float_of_Z 100)))) = []) /\
  (PVU.should_update_price (fst (decide None)) = false /\
   body None = None /\
   PVU.price_variance_data (snd (decide None)) = []).
Proof.
  intros decide body. unfold body, decide.
  pose proof (fun d => threshold_policy (lit "MZM") (lit "SKU1")
                         (listed_at 100) d PVU.initial 3 3
                         (PVU.MkRemote None true true)) as T.
  cbv zeta in T.
  split; [|split; [|split]].
  - destruct (proj2 (proj2 (proj2 (proj2 (T (Some (float_of_Z 160)))
                                     (float_of_Z 160) eq_refl)))
                eq_refl eq_refl) as [(A & _ & B & _) C].
    split; [exact A|]. split; [exact B|exact C].
  - destruct (proj1 (proj2 (proj2 (proj2 (T (Some (float_of_Z 130)))
                                     (float_of_Z 130) eq_refl)))
                eq_refl eq_refl eq_refl) as [(A & _ & B & _) C].
    split; [exact A|]. split; [exact B|exact C].
  - destruct (proj1 (proj2 (proj2 (T (Some (float_of_Z 100)))
                              (float_of_Z 100) eq_refl))
                eq_refl) as (A & _ & B & _ & C).
    split; [exact A|]. split; [exact B|exact C].
  - destruct (proj1 (T None) eq_refl) as (A & _ & B & _ & C).
    split; [exact A|]. split; [exact B|exact C].
Defined.

(** The two raise-only scripts send the same request. *)
Lemma price_updates_agree listing desired ok stats overall :
  fst (MSP.update_price listing desired ok stats overall)
  = fst (RU.update_price listing desired ok stats).
Proof.
  unfold MSP.update_price, RU.update_price. destruct desired as [d|]; [|reflexivity].
  destruct (Reverb.current_price listing) as [current currency].
  rewrite fgt_flt. destruct (flt current d); [|reflexivity]. now destruct ok.
Qed.

(** C3.  The raise-only policy of the Multi Store Price and Inventory
    Updater and of the Reverb Updater: a present posted price is sent
    exactly when it is strictly above the listed price; at or below the
    listed price nothing is sent, however large the difference; an absent
    posted price sends nothing. *)
Theorem raise_only_policy (listing : Reverb.Listing) (desired : option float)
  (ok : bool) (stats overall : Reverb.Stats) :
  let current := fst (Reverb.current_price listing) in
  let currency := snd (Reverb.current_price listing) in
  let sent := fst (MSP.update_price listing desired ok stats overall) in
  sent = fst (RU.update_price listing desired ok stats) /\
  (desired = None -> sent = None) /\
  (forall d, desired = Some d ->
     (sent <> None <-> fgt d current = true) /\
     (fgt d current = true ->
      sent = Some (Reverb.MkPayload None (Some (d, currency)))) /\
     (fle d current = true -> sent = None)).
Proof.
  cbv zeta. split; [apply price_updates_agree|].
  split; [now intros ->|]. intros d ->.
  unfold MSP.update_price.
  destruct (Reverb.current_price listing) as [current currency]. simpl.
  destruct (fgt d current) eqn:G.
  - repeat split; try (now destruct ok).
    intros L. now rewrite (fle_not_fgt _ _ L) in G.
  - repeat split; try discriminate; try reflexivity.
    intros H. now elim H.
Qed.

(** The two decisions of the specification, through C3. *)
Lemma raise_only_policy_witness :
  fst (MSP.update_price (listed_at 100) (Some (float_of_Z 90)) true
         Reverb.no_stats Reverb.no_stats) = None /\
  fst (MSP.update_price (listed_at 100) (Some (float_of_Z 110)) true
         Reverb.no_stats Reverb.no_stats)
  = Some (Reverb.MkPayload None (Some (float_of_Z 110, lit "USD"))).
Proof.
  pose proof (fun d => raise_only_policy (listed_at 100) d true
                         Reverb.no_stats Reverb.no_stats) as T.
  cbv zeta in T. split.
  - exact (proj2 (proj2 (proj2 (proj2 (T (Some (float_of_Z 90))))
                           (float_of_Z 90) eq_refl))
             eq_refl).
  - exact (proj1 (proj2 (proj2 (proj2 (T (Some (float_of_Z 110))))
                           (float_of_Z 110) eq_refl))
             eq_refl).
Defined.

(* ================================================================== *)
(** * Claims on the inventory strategies *)
(* ================================================================== *)

(** The three copies of the identity strategy are one function. *)
Lemma identity_copies stock :
  MSP.calculate_inventory stock = MSI.calculate_inventory stock /\
  PVU.calculate_inventory stock = MSI.calculate_inventory stock.
Proof. split; reflexivity. Qed.

Lemma floor_nonneg (m : positive) (e : Z) :
  (0 <= Spec.floor (S754_finite false m e))%Z.
Proof.
  destruct e as [|p|p]; unfold Spec.floor, signed.
  - lia.
  - apply Z.mul_nonneg_nonneg; [lia|]. apply Z.pow_nonneg. lia.
  - apply Z.div_pos; [lia|]. apply Z.pow_pos_nonneg; lia.
Qed.

(** A stock above ten is not below seven. *)
Lemma above_ten_not_below_seven stock :
  fgt stock RU.ten = true -> flt stock RU.seven = false.
Proof.
  unfold fgt, flt, RU.seven, RU.ten.
  destruct stock as [s | s | | s m e]; try (destruct s); cbn [SFcompare];
    try discriminate; try reflexivity.
  destruct (Z.compare_spec e (-49)); try discriminate;
    destruct (Z.compare_spec e (-50)); try lia; try reflexivity.
Qed.

(** C4, as the code has it.  The identity strategy is [int(stock)], the
    stock truncated toward zero, with NaN mapped to 0: for a finite stock
    at or above zero it is floor(stock), which is max(floor(stock), 0); for
    a finite stock below zero it is minus floor(-stock), at most 0 and not
    clamped.  The bucketing strategy returns 0 for NaN and for stock < 7,
    1 for 7 <= stock <= 10, and 2 for stock > 10. *)
Theorem inventory_strategies (stock : float) :
  (is_nan stock = true -> MSI.calculate_inventory stock = Ok 0%Z) /\
  (Spec.finite stock = true -> fge stock Reverb.zero = true ->
   MSI.calculate_inventory stock = Ok (Spec.floor stock) /\
   Spec.floor stock = Z.max (Spec.floor stock) 0) /\
  (Spec.finite stock = true -> flt stock Reverb.zero = true ->
   MSI.calculate_inventory stock = Ok (- Spec.floor (SFopp stock))%Z /\
   (- Spec.floor (SFopp stock) <= 0)%Z) /\
  (is_nan stock = true \/ flt stock (float_of_Z 7) = true ->
   RU.calculate_inventory stock = 0%Z) /\
  (fle (float_of_Z 7) stock = true -> fle stock (float_of_Z 10) = true ->
   RU.calculate_inventory stock = 1%Z) /\
  (fgt stock (float_of_Z 10) = true -> RU.calculate_inventory stock = 2%Z).
Proof.
  repeat apply conj.
  - now destruct stock.
  - destruct stock as [s | s | | s m e]; try discriminate.
    + intros _ _. split; reflexivity.
    + intros _ H. destruct s; [discriminate H|].
      split; [now destruct e|].
      pose proof (floor_nonneg m e). lia.
  - destruct stock as [s | s | | s m e]; try discriminate.
    intros _ H. destruct s; [|discriminate H].
    split; [now destruct e|].
    pose proof (floor_nonneg m e). simpl SFopp. lia.
  - unfold RU.calculate_inventory. intros [H | H].
    + destruct stock; try discriminate H. reflexivity.
    + change (float_of_Z 7) with RU.seven in H. rewrite H.
      now rewrite orb_true_r.
  - unfold RU.calculate_inventory.
    change (float_of_Z 7) with RU.seven. change (float_of_Z 10) with RU.ten.
    intros H7 H10. rewrite H7, H10.
    rewrite <- fge_fle in H7.
    assert (N : is_nan stock = false) by (destruct stock; try reflexivity; discriminate H7).
    assert (L : flt stock RU.seven = false).
    { unfold fge in H7. unfold flt.
      now destruct (SFcompare stock RU.seven) as [[| |]|]. }
    simpl isna. now rewrite N, L.
  - unfold RU.calculate_inventory.
    change (float_of_Z 10) with RU.ten. intros H.
    rewrite (fgt_not_fle _ _ H), andb_false_r.
    assert (N : is_nan stock = false) by (destruct stock; try reflexivity; discriminate H).
    simpl isna. now rewrite N, (above_ten_not_below_seven _ H).
Qed.

(** The stock values of the specification, through C4. *)
Lemma inventory_strategies_witness :
  MSI.calculate_inventory (float_of_Z 6) = Ok 6%Z /\
  MSI.calculate_inventory S754_nan = Ok 0%Z /\
  RU.calculate_inventory (float_of_Z 6) = 0%Z /\
  RU.calculate_inventory (float_of_Z 7) = 1%Z /\
  RU.calculate_inventory (float_of_Z 10) = 1%Z /\
  RU.calculate_inventory (float_of_Z 11) = 2%Z.
Proof.
  repeat apply conj.
  - exact (proj1 (proj1 (proj2 (inventory_strategies (float_of_Z 6)))
                    eq_refl eq_refl)).
  - exact (proj1 (inventory_strategies S754_nan) eq_refl).
  - exact (proj1 (proj2 (proj2 (proj2 (inventory_strategies (float_of_Z 6)))))
             (or_intror eq_refl)).
  - exact (proj1 (proj2 (proj2 (proj2 (proj2
             (inventory_strategies (float_of_Z 7)))))) eq_refl eq_refl).
  - exact (proj1 (proj2 (proj2 (proj2 (proj2
             (inventory_strategies (float_of_Z 10)))))) eq_refl eq_refl).
  - exact (proj2 (proj2 (proj2 (proj2 (proj2
             (inventory_strategies (float_of_Z 11)))))) eq_refl).
Defined.

(** C4, as stated, fails: a stock of -3 is finite, the claim gives
    max(floor(-3), 0) = 0, and the identity strategy returns -3. *)
Lemma negative_stock_is_not_clamped :
  Spec.finite (float_of_Z (-3)) = true /\
  Z.max (Spec.floor (float_of_Z (-3))) 0 = 0%Z /\
  MSI.calculate_inventory (float_of_Z (-3)) = Ok (-3)%Z /\
  MSI.calculate_inventory (float_of_Z (-3))
  <> Ok (Z.max (Spec.floor (float_of_Z (-3))) 0).
Proof. repeat split. discriminate. Qed.

(* ================================================================== *)
(** * Claims on the price column *)
(* ================================================================== *)

Lemma startswith_spec k : forall s,
  startswith k s = true <-> exists post, s = k ++ post.
Proof.
  induction k as [|kc k IH]; intros s; simpl.
  - split; [intros _; now exists s|reflexivity].
  - destruct s as [|c s].
    + split; [discriminate|]. intros [post E]. discriminate E.
    + rewrite andb_true_iff, IH. split.
      * intros [Hc [post ->]]. apply Ascii.eqb_eq in Hc as ->. now exists post.
      * intros [post E]. injection E as -> ->.
        split; [apply Ascii.eqb_refl|now exists post].
Qed.

(** [k in s]: [s] is some text, then [k], then some text. *)
Lemma contains_spec k : forall s,
  contains k s = true <-> exists pre post, s = pre ++ k ++ post.
Proof.
  induction s as [|c s IH]; simpl; rewrite orb_true_iff, startswith_spec.
  - split.
    + intros [[post E] | H]; [|discriminate H]. now exists [], post.
    + intros (pre & post & E). left.
      destruct pre; [now exists post|discriminate E].
  - rewrite IH. split.
    + intros [[post E] | (pre & post & ->)].
      * now exists [], post.
      * now exists (c :: pre), post.
    + intros (pre & post & E). destruct pre as [|c' pre].
      * left. now exists post.
      * right. injection E as -> ->. now exists pre, post.
Qed.

Lemma contains_trans a b c :
  contains a b = true -> contains b c = true -> contains a c = true.
Proof.
  rewrite !contains_spec. intros (p1 & q1 & ->) (p2 & q2 & ->).
  exists (p2 ++ p1), (q1 ++ q2). now rewrite <- !app_assoc.
Qed.

(** The inner loop is a disjunction over the keywords. *)
Lemma scan_keywords_spec col col_str pc : forall keywords,
  MSP.scan_keywords keywords col col_str pc =
  if existsb (fun k => contains (MSP.upper k) (MSP.upper col_str)) keywords
  then Some col else pc.
Proof.
  induction keywords as [|k ks IH]; simpl; [reflexivity|].
  destruct (contains (MSP.upper k) (MSP.upper col_str)); [reflexivity|exact IH].
Qed.

(** Every keyword of the multi-store search contains PRICE once in upper
    case, and PRICE is one of them. *)
Lemma multi_store_keywords s :
  existsb (fun k => contains (MSP.upper k) s) MSP.price_keywords
  = contains (lit "PRICE") s.
Proof.
  destruct (contains (lit "PRICE") s) eqn:P.
  - apply existsb_exists. exists (lit "PRICE"). split; [|exact P].
    unfold MSP.price_keywords. simpl. tauto.
  - destruct (existsb _ _) eqn:E; [|reflexivity].
    apply existsb_exists in E as (k & Hk & Hc).
    rewrite <- P. symmetry. apply contains_trans with (b := MSP.upper k);
      [|exact Hc].
    unfold MSP.price_keywords in Hk. simpl in Hk.
    repeat (destruct Hk as [<- | Hk]; [reflexivity|]). contradiction.
Qed.

Lemma names_price_nonempty col : names_price col = true -> col <> [].
Proof. intros H ->. discriminate H. Qed.

Lemma scan_columns_find : forall columns,
  MSP.scan_columns columns None = find names_price columns.
Proof.
  induction columns as [|col rest IH]; cbn [MSP.scan_columns find];
    [reflexivity|].
  rewrite scan_keywords_spec, multi_store_keywords.
  fold (names_price col). destruct (names_price col) eqn:P.
  - destruct col; [now apply names_price_nonempty in P|reflexivity].
  - exact IH.
Qed.

Lemma find_price_column_find : forall columns,
  RU.find_price_column columns = find has_keyword columns.
Proof.
  induction columns as [|col rest IH]; cbn [RU.find_price_column find];
    [reflexivity|].
  fold (has_keyword col). now rewrite IH.
Qed.

Lemma find_not_none {A} (p : A -> bool) (l : list A) :
  find p l <> None <-> exists x, In x l /\ p x = true.
Proof.
  split.
  - destruct (find p l) as [x|] eqn:E; [|congruence].
    intros _. exists x. now apply find_some in E.
  - intros (x & Hx & Hp) E. now rewrite (find_none _ _ E x Hx) in Hp.
Qed.

(** [find] gives the first element that passes. *)
Lemma find_first_iff {A} (p : A -> bool) (l : list A) (x : A) :
  find p l = Some x <->
  exists before after,
    l = before ++ x :: after /\ p x = true /\
    forall y, In y before -> p y = false.
Proof.
  induction l as [|a l IH]; simpl.
  - split; [discriminate|]. intros (before & after & E & _).
    now destruct before.
  - destruct (p a) eqn:Pa.
    + split.
      * intros E. injection E as <-. exists [], l. now repeat split.
      * intros (before & after & E & Px & N).
        destruct before as [|b before]; [now injection E as ->|].
        injection E as -> _. rewrite (N b (or_introl eq_refl)) in Pa.
        discriminate Pa.
    + rewrite IH. split.
      * intros (before & after & -> & Px & N). exists (a :: before), after.
        split; [reflexivity|]. split; [exact Px|].
        intros y [<- | Hy]; [exact Pa|now apply N].
      * intros (before & after & E & Px & N).
        destruct before as [|b before].
        -- injection E as -> _. rewrite Px in Pa. discriminate Pa.
        -- injection E as _ ->. exists before, after.
           split; [reflexivity|]. split; [exact Px|].
           intros y Hy. apply N. now right.
Qed.

(** C9, as the code has it.  The Reverb Updater selects the first column
    whose name, taken as it is, contains one of the twelve literal keywords:
    price, cost, amount or value, written in lower case, capitalised or in
    upper case.  The multi-store updater selects the first column whose
    trimmed name contains the word price in any casing.  In each search the
    column selected is the first such column in the order of the sheet, no
    column before it being one; a column is selected exactly when such a
    column exists. *)
Theorem price_column_search (columns : list str) :
  (RU.find_price_column columns <> None <->
   exists col, In col columns /\
     exists keyword,
       In keyword RU.price_keywords /\ contains keyword col = true) /\
  (forall col, RU.find_price_column columns = Some col <->
     exists before after,
       columns = before ++ col :: after /\
       (exists keyword,
          In keyword RU.price_keywords /\ contains keyword col = true) /\
       forall col', In col' before ->
         forall keyword, In keyword RU.price_keywords ->
           contains keyword col' = false) /\
  (MSP.find_posted_price_column columns <> None <->
   exists col, In col columns /\
     contains (lit "PRICE") (MSP.upper (strip col)) = true) /\
  (forall col, MSP.find_posted_price_column columns = Some col <->
     exists before after,
       columns = before ++ col :: after /\
       contains (lit "PRICE") (MSP.upper (strip col)) = true /\
       forall col', In col' before ->
         contains (lit "PRICE") (MSP.upper (strip col')) = false).
Proof.
  unfold MSP.find_posted_price_column.
  rewrite find_price_column_find, scan_columns_find, !find_not_none.
  split; [|split; [|split]].
  - split.
    + intros (col & Hc & Hk). exists col. split; [assumption|].
      now apply existsb_exists in Hk.
    + intros (col & Hc & Hk). exists col. split; [assumption|].
      now apply existsb_exists.
  - intros col. rewrite find_first_iff. unfold has_keyword. split.
    + intros (before & after & E & Hk & N). exists before, after.
      split; [exact E|]. split; [now apply existsb_exists in Hk|].
      intros col' Hc keyword Hin.
      specialize (N col' Hc).
      destruct (contains keyword col') eqn:C; [|reflexivity].
      rewrite <- N. symmetry. apply existsb_exists. now exists keyword.
    + intros (before & after & E & Hk & N). exists before, after.
      split; [exact E|]. split; [now apply existsb_exists|].
      intros col' Hc.
      destruct (existsb _ RU.price_keywords) eqn:X; [|reflexivity].
      apply existsb_exists in X as (keyword & Hin & C).
      now rewrite (N col' Hc keyword Hin) in C.
  - split; intros H; exact H.
  - intros col. rewrite find_first_iff. unfold names_price.
    split; intros H; exact H.
Qed.

Lemma price_column_search_witness :
  RU.find_price_column [lit "SKU"; lit "Stock"; lit "Unit Cost"] <> None /\
  MSP.find_posted_price_column [lit "SKU"; lit "STOCK"; lit " PoStEd pRiCe "]
  <> None /\
  RU.find_price_column [lit "SKU"; lit "Price A"; lit "Price B"]
  = Some (lit "Price A") /\
  MSP.find_posted_price_column [lit "SKU"; lit "price a"; lit "PRICE B"]
  = Some (lit "price a").
Proof.
  split; [|split; [|split]].
  - apply (proj1 (price_column_search _)). exists (lit "Unit Cost").
    split; [simpl; tauto|]. exists (lit "Cost"). split; [simpl; tauto|reflexivity].
  - apply (proj1 (proj2 (proj2 (price_column_search _)))).
    exists (lit " PoStEd pRiCe "). split; [simpl; tauto|reflexivity].
  - apply (proj1 (proj2 (price_column_search _))).
    exists [lit "SKU"], [lit "Price B"]. split; [reflexivity|].
    split; [exists (lit "Price"); split; [simpl; tauto|reflexivity]|].
    intros col' [<- | []] keyword Hin. unfold RU.price_keywords in Hin.
    simpl in Hin.
    repeat (destruct Hin as [<- | Hin]; [reflexivity|]). contradiction.
  - apply (proj2 (proj2 (proj2 (price_column_search _)))).
    exists [lit "SKU"], [lit "PRICE B"]. split; [reflexivity|].
    split; [reflexivity|]. intros col' [<- | []]. reflexivity.
Defined.

(** C9, as stated, fails at both searches: the Reverb Updater finds no
    price column in a sheet that has a column PrIcE, and the multi-store
    updater finds none in a sheet that has a column Unit CoSt. *)
Lemma mixed_case_column_is_missed :
  RU.find_price_column [lit "SKU"; lit "Stock"; lit "PrIcE"] = None /\
  MSP.find_posted_price_column [lit "STORES NAME"; lit "SKU"; lit "STOCK";
                                lit "Unit CoSt"] = None.
Proof. split; reflexivity. Qed.

(* ================================================================== *)
(** * Claims on the review list *)
(* ================================================================== *)

Lemma bump2_list k ko st :
  PVU.price_variance_data (PVU.bump2 k ko st) = PVU.price_variance_data st.
Proof. reflexivity. Qed.

Lemma when_list b f st :
  (forall s, PVU.price_variance_data (f s) = PVU.price_variance_data s) ->
  PVU.price_variance_data (PVU.when b f st) = PVU.price_variance_data st.
Proof. intros H. destruct b; [apply H|reflexivity]. Qed.

(** The combined update leaves the review list as the decision made it,
    whatever the API answers. *)
Lemma apply_plan_list plan env st :
  PVU.price_variance_data (PVU.apply_plan plan env st)
  = PVU.price_variance_data st.
Proof.
  unfold PVU.apply_plan.
  destruct (PVU.need_inventory_update plan || PVU.need_price_update plan).
  - destruct (PVU.update_listing env); [|reflexivity].
    rewrite when_list by (intros; apply bump2_list).
    rewrite when_list
      by (intros s; rewrite bump2_list; apply when_list;
          intros; apply bump2_list).
    apply when_list. intros s.
    destruct (negb PVU.FAST_MODE && _); [|reflexivity].
    now destruct (PVU.validate_inventory_update env).
  - now apply when_list.
Qed.

Lemma decide_price_list store sku listing posted st :
  PVU.price_variance_data (snd (PVU.decide_price store sku listing posted st))
  = PVU.price_variance_data st ++ review_entry store sku listing posted.
Proof.
  unfold PVU.decide_price, review_entry, Spec.meets_threshold, variance_record.
  rewrite <- threshold_is_50.
  destruct posted as [d|]; [|now rewrite app_nil_r].
  destruct (fgt d Reverb.zero); [|now rewrite app_nil_r].
  destruct (Reverb.current_price listing) as [current currency]. simpl.
  destruct (fge _ _); [reflexivity|].
  destruct (fgt _ _); now rewrite app_nil_r.
Qed.

Lemma process_row_list store row env st st' :
  PVU.process_row store row env st = Ok st' ->
  PVU.price_variance_data st'
  = PVU.price_variance_data st ++ row_review store row env.
Proof.
  unfold PVU.process_row, row_review.
  destruct (option_map strip (PVU.r_sku row)) as [[|c sku]|];
    try (intros E; injection E as <-; now rewrite app_nil_r).
  destruct (PVU.get_listing_by_sku env) as [listing|],
           (str_eqb (c :: sku) (lit "nan"));
    try (intros E; injection E as <-; now rewrite app_nil_r).
  destruct (PVU.calculate_inventory (PVU.r_stock row)) as [target|e];
    [|discriminate].
  pose proof (decide_price_list store (c :: sku) listing
                (PVU.r_posted_price row)
                (PVU.bump2 "total" "total_rows" st)) as D.
  destruct (PVU.decide_price _ _ _ _ _) as [loc st1].
  intros E. injection E as <-. now rewrite apply_plan_list.
Qed.

Lemma process_rows_list store : forall rows st st',
  PVU.process_rows store rows st = Ok st' ->
  PVU.price_variance_data st'
  = PVU.price_variance_data st
    ++ flat_map (fun r => row_review store (fst r) (snd r)) rows.
Proof.
  induction rows as [|[row env] rest IH]; intros st st' E; simpl in E.
  - injection E as <-. now rewrite app_nil_r.
  - destruct (PVU.process_row store row env st) as [st1|e] eqn:R;
      [|discriminate].
    rewrite (IH _ _ E), (process_row_list _ _ _ _ R). simpl.
    now rewrite app_assoc.
Qed.

Lemma process_store_list store rows st st' :
  PVU.process_store store rows st = Ok st' ->
  PVU.price_variance_data st'
  = PVU.price_variance_data st ++ store_review (store, rows).
Proof.
  unfold PVU.process_store, store_review. simpl.
  destruct (PVU.is_store store); simpl.
  - destruct (PVU.process_rows store rows _) as [st1|e] eqn:R; [|discriminate].
    intros E. injection E as <-. apply process_rows_list in R. simpl in R.
    rewrite <- R. now destruct (PVU.price_variance_data st1) eqn:L.
  - intros E. injection E as <-. now rewrite app_nil_r.
Qed.

Lemma process_stores_list : forall grouped st st',
  PVU.process_stores grouped st = Ok st' ->
  PVU.price_variance_data st'
  = PVU.price_variance_data st ++ expected_review grouped.
Proof.
  induction grouped as [|[store rows] rest IH]; intros st st' E; simpl in E.
  - injection E as <-. now rewrite app_nil_r.
  - destruct (PVU.process_store store rows st) as [st1|e] eqn:R;
      [|discriminate].
    rewrite (IH _ _ E), (process_store_list _ _ _ R).
    unfold expected_review. simpl. now rewrite app_assoc.
Qed.

(** A row stops the run in one way only: its stock is not a number that
    [int] takes. *)
Lemma process_row_raises store row env st e :
  PVU.process_row store row env st = Raise e ->
  PVU.calculate_inventory (PVU.r_stock row) = Raise e.
Proof.
  unfold PVU.process_row.
  destruct (option_map strip (PVU.r_sku row)) as [[|c sku]|];
    try discriminate.
  destruct (str_eqb (c :: sku) (lit "nan")); [discriminate|].
  destruct (PVU.get_listing_by_sku env) as [listing|]; [|discriminate].
  destruct (PVU.calculate_inventory (PVU.r_stock row)) as [target|e'];
    [|intros E; injection E as <-; reflexivity].
  destruct (PVU.decide_price _ _ _ _ _) as [loc st1]. discriminate.
Qed.

(** C10, as the code has it.  The review record is appended by the price
    decision, exactly when the posted price is present, above zero and at
    least 50 away from the listed price; the combined update that follows
    leaves the list alone whether the API accepts it or not; so a row that
    is processed adds its record whatever the answer to its update, and the
    review file of a run that completes holds the records of all such
    rows.  A row stops the run only through the conversion of its stock to
    an integer, which comes before its own decision. *)
Theorem review_records_outlive_failed_updates :
  (forall store sku listing posted st,
     PVU.price_variance_data
       (snd (PVU.decide_price store sku listing posted st))
     = PVU.price_variance_data st ++ review_entry store sku listing posted) /\
  (forall plan env st,
     PVU.price_variance_data (PVU.apply_plan plan env st)
     = PVU.price_variance_data st) /\
  (forall store row env st st',
     PVU.process_row store row env st = Ok st' ->
     PVU.price_variance_data st'
     = PVU.price_variance_data st ++ row_review store row env) /\
  (forall grouped final,
     PVU.main grouped = Ok final ->
     PVU.review_file final = Some (expected_review grouped)) /\
  (forall store row env st e,
     PVU.process_row store row env st = Raise e ->
     PVU.calculate_inventory (PVU.r_stock row) = Raise e).
Proof.
  repeat apply conj.
  - apply decide_price_list.
  - apply apply_plan_list.
  - apply process_row_list.
  - intros grouped final. unfold PVU.main.
    destruct (PVU.process_stores grouped PVU.initial) as [st|e] eqn:R;
      [|discriminate].
    intros E. injection E as <-. simpl.
    now rewrite (process_stores_list _ _ R).
  - apply process_row_raises.
Qed.

Lemma review_records_outlive_failed_updates_witness :
  exists final,
    PVU.main refused_run = Ok final /\
    PVU.stats final "errors"%string = 1 /\
    PVU.stats final "price_updated"%string = 0 /\
    PVU.review_file final =
    Some [PVU.MkVariance (lit "MZM") (lit "MZM-4KTCXB0CYZ-New")
            (float_of_Z 100) (float_of_Z 160) (float_of_Z 60)
            (lit "INCREASE")].
Proof.
  eexists. split; [reflexivity|]. split; [reflexivity|].
  split; [reflexivity|].
  exact (proj1 (proj2 (proj2 (proj2 review_records_outlive_failed_updates)))
           refused_run _ eq_refl).
Defined.

(** C10, as stated, fails when the run is cut short: the first row of this
    run meets the threshold and its update is accepted, its record is in the
    list once the row is done, and the second row, whose stock is
    infinite, raises [OverflowError] before the store is over, so that the
    review file is never written. *)
Lemma flagged_record_is_lost_when_run_aborts :
  (exists row env rest,
     aborted_run = [(lit "MZM", (row, env) :: rest)] /\
     Spec.meets_threshold (fst (Reverb.current_price (listed_at 100)))
       (PVU.r_posted_price row) (float_of_Z 50) = true /\
     PVU.get_listing_by_sku env = Some (listed_at 100) /\
     exists st,
       PVU.process_row (lit "MZM") row env PVU.initial = Ok st /\
       List.length (PVU.price_variance_data st) = 1 /\
       PVU.review_file st = None) /\
  PVU.main aborted_run = Raise OverflowError.
Proof.
  split; [|reflexivity].
  eexists. eexists. eexists. split; [reflexivity|].
  split; [reflexivity|]. split; [reflexivity|].
  eexists. split; [reflexivity|]. split; reflexivity.
Qed.

(* ================================================================== *)
(** * Further properties of the scraper *)
(* ================================================================== *)

(** ** White space *)

Lemma lstrip_app_last u c :
  isspace c = false -> lstrip (u ++ [c]) = lstrip u ++ [c].
Proof.
  intros Hc. induction u as [|a u IH]; simpl.
  - now rewrite Hc.
  - destruct (isspace a); [exact IH|reflexivity].
Qed.

Lemma rstrip_cons c t : isspace c = false -> rstrip (c :: t) = c :: rstrip t.
Proof.
  intros Hc. unfold rstrip. simpl.
  now rewrite lstrip_app_last, rev_app_distr.
Qed.

Lemma lstrip_fixed s : lstrip (lstrip s) = lstrip s.
Proof.
  destruct (lstrip s) as [|c t] eqn:E; [reflexivity|].
  apply lstrip_id. eapply lstrip_head; eassumption.
Qed.

Lemma rstrip_fixed s : rstrip (rstrip s) = rstrip s.
Proof. unfold rstrip. now rewrite rev_involutive, lstrip_fixed. Qed.

(** Trimming twice is trimming once. *)
Lemma strip_idempotent s : strip (strip s) = strip s.
Proof.
  unfold strip. destruct (lstrip s) as [|c t] eqn:E; [reflexivity|].
  assert (Hc : isspace c = false) by (eapply lstrip_head; eassumption).
  rewrite rstrip_cons by assumption.
  rewrite lstrip_id by assumption.
  rewrite <- rstrip_cons by assumption. apply rstrip_fixed.
Qed.

Lemma str_eqb_eq (a b : str) : str_eqb a b = true <-> a = b.
Proof.
  unfold str_eqb. destruct (list_eq_dec ascii_dec a b); split; congruence.
Qed.

Lemma str_eqb_refl (a : str) : str_eqb a a = true.
Proof. now apply str_eqb_eq. Qed.

(** X1.  The three functions of the scraper that take an identifier or a
    SKU see it only through [strip]: blanks, tabs and line ends around the
    text change neither the extraction, nor the validation with its reason,
    nor the link. *)
Theorem scraper_ignores_outer_white_space (s : str) :
  DataScraper.extract_asin_from_sku (PyStr s)
  = DataScraper.extract_asin_from_sku (PyStr (strip s)) /\
  DataScraper.is_valid_asin (PyStr s)
  = DataScraper.is_valid_asin (PyStr (strip s)) /\
  DataScraper.generate_link (PyStr s)
  = DataScraper.generate_link (PyStr (strip s)).
Proof.
  repeat apply conj.
  - now rewrite !extract_unfold, strip_idempotent.
  - unfold DataScraper.is_valid_asin. now rewrite strip_idempotent.
  - unfold DataScraper.generate_link. rewrite strip_idempotent.
    destruct s as [|c s]; [reflexivity|].
    change (str_eqb (c :: s) []) with false. cbv iota.
    destruct (strip (c :: s)) as [|d t]; reflexivity.
Qed.

(** ** From the identifier back to the SKU *)

Lemma swap_halves_involutive h code :
  len code = 2 * h -> swap_halves h (swap_halves h code) = code.
Proof.
  intros Hl. unfold swap_halves, len in *.
  assert (Hs : List.length (skipn h code) = h) by (rewrite length_skipn; lia).
  rewrite skipn_app, firstn_app, Hs, Nat.sub_diag.
  rewrite (skipn_all2 (skipn h code)), (firstn_all2 (skipn h code)) by lia.
  simpl. rewrite app_nil_r. apply firstn_skipn.
Qed.

(** X2.  The half swap is its own inverse, so every well-formed identifier
    has SKUs: swapping the halves of a 10-character identifier with a letter
    (or of a 12-digit one) and putting a prefix and an accepted suffix
    around it gives a SKU from which the extractor returns that very
    identifier. *)
Theorem extract_inverts_the_half_swap (prefix id suffix : str) :
  Spec.is_prefix prefix ->
  Spec.accepted_suffix suffix ->
  (Spec.is_code10 id /\ any_isalpha id = true) \/ Spec.is_code12 id ->
  DataScraper.extract_asin_from_sku
    (PyStr (Spec.sku_of prefix (swap_halves (len id / 2) id) suffix))
  = (id, true).
Proof.
  intros Hp Hs [[[Hl Hc] Ha] | [Hl Hc]]; rewrite Hl.
  - change (10 / 2) with 5.
    rewrite <- (swap_halves_involutive 5 id) at 2 by exact Hl.
    apply extract_shape_A. exists prefix, suffix.
    repeat split; try assumption; try apply Hp.
    + now rewrite swap_halves_len.
    + now rewrite swap_halves_forallb.
    + unfold any_isalpha. now rewrite swap_halves_existsb.
  - change (12 / 2) with 6.
    rewrite <- (swap_halves_involutive 6 id) at 2 by exact Hl.
    apply extract_shape_B. exists prefix, suffix.
    repeat split; try assumption; try apply Hp.
    + now rewrite swap_halves_len.
    + now rewrite swap_halves_forallb.
Qed.

Lemma extract_inverts_the_half_swap_witness :
  DataScraper.extract_asin_from_sku (PyStr (lit "GGL-9866NB098S-n"))
  = (lit "B098S9866N", true).
Proof.
  apply (extract_inverts_the_half_swap (prefix := lit "GGL")
           (id := lit "B098S9866N") (suffix := lit "n")).
  - split; [discriminate|reflexivity].
  - right. right. right. reflexivity.
  - left. repeat split.
Defined.

(** X3.  A successful extraction determines the SKU: the trimmed input is
    a prefix, the identifier with its halves swapped back, and an accepted
    suffix.  Two SKUs with the same identifier carry the same code. *)
Theorem sku_code_is_recovered (s id : str) :
  DataScraper.extract_asin_from_sku (PyStr s) = (id, true) ->
  exists prefix suffix,
    Spec.is_prefix prefix /\ Spec.accepted_suffix suffix /\
    strip s = Spec.sku_of prefix (swap_halves (len id / 2) id) suffix.
Proof.
  intros E. apply extract_success in E
    as [(code & (pre & suf & E & Hp & [Hl Hc] & _ & Hs) & ->)
       |(code & (pre & suf & E & Hp & [Hl Hc] & Hs) & ->)];
    exists pre, suf; rewrite swap_halves_len, Hl.
  - change (10 / 2) with 5. now rewrite swap_halves_involutive.
  - change (12 / 2) with 6. now rewrite swap_halves_involutive.
Qed.

Lemma sku_code_is_recovered_witness :
  exists prefix suffix,
    Spec.is_prefix prefix /\ Spec.accepted_suffix suffix /\
    strip (lit " MZM-4KTCXB0CYZ-New ")
    = Spec.sku_of prefix (swap_halves 5 (lit "B0CYZ4KTCX")) suffix.
Proof.
  exact (sku_code_is_recovered (lit " MZM-4KTCXB0CYZ-New ")
           (id := lit "B0CYZ4KTCX") eq_refl).
Defined.

(** ** The reverse verification *)

Lemma extracted_nonempty v id :
  DataScraper.extract_asin_from_sku v = (id, true) -> id <> [].
Proof.
  intros E ->.
  destruct v as [| x | z | s]; try discriminate E.
  - rewrite extract_failure in E; [discriminate E|now destruct x].
  - apply extract_success in E
      as [(code & (pre & suf & _ & _ & [Hl _] & _) & E)
         |(code & (pre & suf & _ & _ & [Hl _] & _) & E)];
      apply (f_equal len) in E; rewrite swap_halves_len, Hl in E;
      discriminate E.
Qed.

(** X4.  [verify_asin_from_sku] accepts an identifier for a SKU exactly
    when the identifier is not empty and is what the extractor returns for
    that SKU; in particular it accepts every identifier the extractor
    returns, and hands it back. *)
Theorem verify_accepts_what_extract_returns (asin sku : str) :
  (fst (DataScraper.verify_asin_from_sku asin sku) = true <->
   asin <> [] /\
   DataScraper.extract_asin_from_sku (PyStr sku) = (asin, true)) /\
  (DataScraper.extract_asin_from_sku (PyStr sku) = (asin, true) ->
   DataScraper.verify_asin_from_sku asin sku = (true, asin)).
Proof.
  assert (F : forall id,
             DataScraper.extract_asin_from_sku (PyStr []) <> (id, true))
    by (intros id; discriminate).
  assert (L : forall id,
             DataScraper.extract_asin_from_sku (PyStr sku) = (id, true) ->
             id <> []).
  { intros id E ->.
    apply (extracted_nonempty (PyStr sku)) in E. now apply E. }
  unfold DataScraper.verify_asin_from_sku. split.
  - destruct asin as [|a asin]; [simpl; split; [discriminate|tauto]|].
    destruct sku as [|c sku].
    + simpl. split; [discriminate|]. intros [_ E]. now apply F in E.
    + destruct (DataScraper.extract_asin_from_sku (PyStr (c :: sku)))
        as [e [|]]; simpl.
      * rewrite str_eqb_eq. split.
        -- intros ->. split; [discriminate|reflexivity].
        -- intros [_ E]. now injection E.
      * split; [discriminate|]. intros [_ E]. discriminate E.
  - intros E. pose proof (L _ E) as Hne.
    destruct asin as [|a asin]; [congruence|].
    destruct sku as [|c sku]; [now apply F in E|].
    rewrite E. simpl. now rewrite str_eqb_refl.
Qed.

Lemma verify_accepts_what_extract_returns_witness :
  DataScraper.verify_asin_from_sku (lit "B0DJ87TBHS") (lit "MZM-7TBHSB0DJ8-N")
  = (true, lit "B0DJ87TBHS").
Proof.
  apply verify_accepts_what_extract_returns. reflexivity.
Defined.

(** ** Links and validity *)

(** X5.  A link is made exactly for the values [is_valid_asin] accepts:
    the link is empty when the validation fails, and it is the Amazon or
    the eBay address followed by the trimmed identifier when the validation
    succeeds. *)
Theorem link_exactly_for_valid_identifiers (v : value) :
  (DataScraper.generate_link v <> [] <->
   fst (DataScraper.is_valid_asin v) = true) /\
  (fst (DataScraper.is_valid_asin v) = true ->
   exists s, v = PyStr s /\
     (DataScraper.generate_link v = amazon ++ strip s \/
      DataScraper.generate_link v = ebay ++ strip s)).
Proof.
  destruct v as [| x | z | s];
    try (split; [split; [intros H; now elim H|discriminate]|discriminate]).
  unfold DataScraper.generate_link, DataScraper.is_valid_asin.
  fold amazon ebay.
  destruct (strip s) as [|c t] eqn:T.
  - simpl. destruct (str_eqb s []);
      (split; [split; [intros H; now elim H|discriminate]|discriminate]).
  - assert (N : str_eqb s [] = false)
      by (destruct s; [discriminate T|reflexivity]).
    rewrite N. change (str_eqb (c :: t) []) with false. cbv iota.
    destruct (Nat.eqb (len (c :: t)) 10) eqn:L10.
    + assert (L12 : Nat.eqb (len (c :: t)) 12 = false)
        by (apply Nat.eqb_eq in L10; now rewrite L10).
      rewrite L12.
      destruct (any_isalpha (c :: t)); cbn [andb fst].
      * split; [split; [intros _; reflexivity|discriminate]|].
        intros _. exists s. rewrite T. split; [reflexivity|]. left. reflexivity.
      * split; [split; [intros H; now elim H|discriminate]|discriminate].
    + cbn [andb]. destruct (Nat.eqb (len (c :: t)) 12).
      * destruct (str_isdigit (c :: t)); cbn [andb fst].
        -- split; [split; [intros _; reflexivity|discriminate]|].
           intros _. exists s. rewrite T. split; [reflexivity|].
           right. reflexivity.
        -- split; [split; [intros H; now elim H|discriminate]|discriminate].
      * cbn [andb fst].
        split; [split; [intros H; now elim H|discriminate]|discriminate].
Qed.

Lemma link_exactly_for_valid_identifiers_witness :
  DataScraper.generate_link (PyStr (lit "31652285359")) = [] /\
  fst (DataScraper.is_valid_asin (PyStr (lit "31652285359"))) = false.
Proof.
  pose proof (proj1 (link_exactly_for_valid_identifiers
                       (PyStr (lit "31652285359")))) as [H _].
  split; [|reflexivity].
  destruct (DataScraper.generate_link (PyStr (lit "31652285359")));
    [reflexivity|].
  discriminate (H ltac:(discriminate)).
Defined.

(* ================================================================== *)
(** * Further properties of the Price Variance Updater *)
(* ================================================================== *)

Ltac count_keys :=
  cbv beta iota zeta delta
    [store_accounted run_accounted review_counted accounted
     PVU.when PVU.bump2 PVU.incr_update_count PVU.append_variance
     Reverb.bump PVU.stats PVU.overall_stats PVU.price_variance_data
     PVU.need_inventory_update PVU.need_price_update PVU.flagged
     PVU.should_update_price PVU.add_to_review PVU.FAST_MODE
     PVU.initial Reverb.no_stats
     String.eqb Ascii.eqb Bool.eqb andb orb negb];
  rewrite ?length_app; cbv beta iota delta [List.length]; try lia.

(** What one row does to the counters. *)
Lemma process_row_counts store row env st st' :
  PVU.process_row store row env st = Ok st' ->
  (store_accounted st -> store_accounted st') /\
  (run_accounted st -> run_accounted st') /\
  (review_counted st -> review_counted st') /\
  PVU.overall_stats st' "total_rows"%string
  = S (PVU.overall_stats st "total_rows"%string).
Proof.
  unfold PVU.process_row.
  destruct (option_map strip (PVU.r_sku row)) as [[|c sku]|];
    try (intros E; injection E as <-; repeat split; count_keys).
  destruct (str_eqb (c :: sku) (lit "nan"));
    [intros E; injection E as <-; repeat split; count_keys|].
  destruct (PVU.get_listing_by_sku env) as [listing|];
    [|intros E; injection E as <-; repeat split; count_keys].
  destruct (PVU.calculate_inventory (PVU.r_stock row)) as [target|e];
    [|discriminate].
  unfold PVU.decide_price, PVU.make_plan, PVU.apply_plan.
  destruct (PVU.r_posted_price row) as [d|].
  - destruct (fgt d Reverb.zero).
    + destruct (Reverb.current_price listing) as [reverb currency].
      destruct (fge _ _); [|destruct (fgt _ _)];
        intros E; injection E as <-;
        destruct (Z.eqb _ target), (PVU.update_listing env);
        repeat split; count_keys.
    + intros E; injection E as <-;
        destruct (Z.eqb _ target), (PVU.update_listing env);
        repeat split; count_keys.
  - intros E; injection E as <-;
      destruct (Z.eqb _ target), (PVU.update_listing env);
      repeat split; count_keys.
Qed.

Lemma process_rows_counts store : forall rows st st',
  PVU.process_rows store rows st = Ok st' ->
  (store_accounted st -> store_accounted st') /\
  (run_accounted st -> run_accounted st') /\
  (review_counted st -> review_counted st') /\
  PVU.overall_stats st' "total_rows"%string
  = List.length rows + PVU.overall_stats st "total_rows"%string.
Proof.
  induction rows as [|[row env] rest IH]; intros st st' E; simpl in E.
  - injection E as <-. auto.
  - destruct (PVU.process_row store row env st) as [st1|e] eqn:R;
      [|discriminate].
    apply process_row_counts in R as (A1 & B1 & C1 & D1).
    apply IH in E as (A2 & B2 & C2 & D2).
    repeat split; auto. rewrite D2, D1. simpl. lia.
Qed.

Lemma process_store_counts store rows st st' :
  PVU.process_store store rows st = Ok st' ->
  (store_accounted st -> store_accounted st') /\
  (run_accounted st -> run_accounted st') /\
  (review_counted st -> review_counted st') /\
  PVU.overall_stats st' "total_rows"%string
  = (if PVU.is_store store then List.length rows else 0)
    + PVU.overall_stats st "total_rows"%string.
Proof.
  unfold PVU.process_store. destruct (PVU.is_store store); simpl.
  - destruct (PVU.process_rows store rows _) as [st1|e] eqn:R; [|discriminate].
    intros E. injection E as <-.
    apply process_rows_counts in R as (A & B & C & D).
    assert (S : forall P : PVU.State -> Prop,
               (forall s, P (PVU.save_price_variance_review s) <-> P s) ->
               P st1 ->
               P match PVU.price_variance_data st1 with
                 | [] => st1
                 | _ :: _ => PVU.save_price_variance_review st1
                 end).
    { intros P HP H. destruct (PVU.price_variance_data st1); [exact H|].
      now apply HP. }
    repeat split.
    + intros _. apply S; [reflexivity|]. apply A. count_keys.
    + intros H. apply S; [reflexivity|]. now apply B.
    + intros H. apply S; [reflexivity|]. now apply C.
    + simpl in D. rewrite <- D. now destruct (PVU.price_variance_data st1).
  - intros E. injection E as <-. auto.
Qed.

Lemma process_stores_counts : forall grouped st st',
  PVU.process_stores grouped st = Ok st' ->
  (store_accounted st -> store_accounted st') /\
  (run_accounted st -> run_accounted st') /\
  (review_counted st -> review_counted st') /\
  PVU.overall_stats st' "total_rows"%string
  = rows_of_known_stores grouped + PVU.overall_stats st "total_rows"%string.
Proof.
  induction grouped as [|[store rows] rest IH]; intros st st' E; simpl in E.
  - injection E as <-. auto.
  - destruct (PVU.process_store store rows st) as [st1|e] eqn:R;
      [|discriminate].
    apply process_store_counts in R as (A1 & B1 & C1 & D1).
    apply IH in E as (A2 & B2 & C2 & D2).
    repeat split; auto. rewrite D2, D1.
    unfold rows_of_known_stores. simpl. lia.
Qed.

(** X6.  The summary of a completed run of the Price Variance Updater
    accounts for every row of the stores it knows exactly once: the rows
    counted are all their rows, and rows + combined updates = errors + not
    found + rows needing no update + inventory updates + price updates, in
    the counters of the run and in those of the last store. *)
Theorem summary_accounts_for_every_row
  (grouped : list (str * list (PVU.Row * PVU.Remote))) (final : PVU.State) :
  PVU.main grouped = Ok final ->
  PVU.overall_stats final "total_rows"%string = rows_of_known_stores grouped /\
  run_accounted final /\ store_accounted final.
Proof.
  unfold PVU.main.
  destruct (PVU.process_stores grouped PVU.initial) as [st|e] eqn:R;
    [|discriminate].
  intros E. injection E as <-.
  apply process_stores_counts in R as (A & B & _ & D).
  repeat split.
  - change (PVU.overall_stats (PVU.save_price_variance_review st))
      with (PVU.overall_stats st). rewrite D.
    cbv [PVU.initial PVU.overall_stats Reverb.no_stats]. lia.
  - apply B. count_keys.
  - apply A. count_keys.
Qed.

Lemma summary_accounts_for_every_row_witness :
  exists final,
    PVU.main refused_run = Ok final /\
    PVU.overall_stats final "total_rows"%string = 1 /\
    PVU.overall_stats final "total_errors"%string = 1.
Proof.
  eexists. split; [reflexivity|].
  split; [|reflexivity].
  exact (proj1 (summary_accounts_for_every_row refused_run eq_refl)).
Defined.

(** X7.  The summary line "added to review" never counts more prices than
    the review file lists: the counter grows only when a flagged update
    succeeds, the file on every flagged decision. *)
Theorem review_counter_within_review_file
  (grouped : list (str * list (PVU.Row * PVU.Remote))) (final : PVU.State) :
  PVU.main grouped = Ok final ->
  exists records,
    PVU.review_file final = Some records /\
    PVU.overall_stats final "price_added_to_review"%string
    <= List.length records.
Proof.
  unfold PVU.main.
  destruct (PVU.process_stores grouped PVU.initial) as [st|e] eqn:R;
    [|discriminate].
  intros E. injection E as <-.
  apply process_stores_counts in R as (_ & _ & C & _).
  exists (PVU.price_variance_data st). split; [reflexivity|].
  apply C. count_keys.
Qed.

Lemma review_counter_within_review_file_witness :
  exists final records,
    PVU.main refused_run = Ok final /\
    PVU.review_file final = Some records /\
    PVU.overall_stats final "price_added_to_review"%string = 0 /\
    List.length records = 1.
Proof.
  destruct (review_counter_within_review_file refused_run eq_refl)
    as (records & E & _).
  eexists. exists records. split; [reflexivity|].
  split; [exact E|]. split; [reflexivity|].
  injection E as <-. reflexivity.
Defined.

(** A float minus itself is a zero or a NaN. *)
Lemma fsub_self (x : float) :
  (exists s, fsub x x = S754_zero s) \/ fsub x x = S754_nan.
Proof.
  destruct x as [s | s | | s m e]; unfold fsub; simpl.
  - left. destruct s; eexists; reflexivity.
  - right. now destruct s.
  - now right.
  - left. rewrite Z.sub_diag. eexists. reflexivity.
Qed.

(** X8.  A posted price equal to the listed price is not sent again: the
    difference is then a zero (or a NaN, between two infinities), below
    every threshold, so the decision asks for no price update and records
    nothing, the plan made from it asks for none, the body of its PUT
    carries no price, and the combined update counts no price as updated,
    whatever the inventories and the answers of the API. *)
Theorem listed_price_is_not_resent (store sku : str)
  (listing : Reverb.Listing) (d : float) (st : PVU.State)
  (current_inventory target_inventory : Z) (env : PVU.Remote) :
  fst (Reverb.current_price listing) = d ->
  let loc := fst (PVU.decide_price store sku listing (Some d) st) in
  let st' := snd (PVU.decide_price store sku listing (Some d) st) in
  let plan :=
    PVU.make_plan current_inventory target_inventory (Some d) loc in
  PVU.should_update_price loc = false /\
  PVU.price_variance_data st' = PVU.price_variance_data st /\
  PVU.need_price_update plan = false /\
  Reverb.p_price (PVU.update_data plan) = None /\
  (PVU.update_data plan
   = Reverb.MkPayload
       (if Z.eqb current_inventory target_inventory then None
        else Some target_inventory) None) /\
  PVU.stats (PVU.apply_plan plan env st') "price_updated"%string
  = PVU.stats st "price_updated"%string.
Proof.
  intros E. cbv zeta.
  rewrite apply_plan_price_updated, decide_price_price_updated.
  unfold PVU.make_plan. cbn [PVU.need_price_update PVU.update_data
    Reverb.p_price].
  assert (S : PVU.should_update_price
                (fst (PVU.decide_price store sku listing (Some d) st)) = false
              /\ PVU.price_variance_data
                   (snd (PVU.decide_price store sku listing (Some d) st))
                 = PVU.price_variance_data st).
  { unfold PVU.decide_price.
    destruct (fgt d Reverb.zero); [|now split].
    destruct (Reverb.current_price listing) as [current currency].
    simpl in E. subst current.
    destruct (fsub_self d) as [[s ->] | ->].
    - now destruct s.
    - now split. }
  destruct S as [S1 S2]. rewrite S1.
  repeat split; try assumption.
  now destruct (Z.eqb current_inventory target_inventory).
Qed.

Lemma listed_price_is_not_resent_witness :
  let loc :=
    fst (PVU.decide_price (lit "MZM") (lit "SKU1") (listed_at 250)
           (Some (float_of_Z 250)) PVU.initial) in
  PVU.should_update_price loc = false /\
  PVU.update_data (PVU.make_plan 2 5 (Some (float_of_Z 250)) loc)
  = Reverb.MkPayload (Some 5%Z) None.
Proof.
  intros loc.
  pose proof (listed_price_is_not_resent (lit "MZM") (lit "SKU1")
                (listed_at 250) PVU.initial 2 5
                (PVU.MkRemote None true true) eq_refl)
    as (A & _ & _ & _ & B & _).
  split; [exact A|exact B].
Defined.

(* ================================================================== *)
(** * Store names *)
(* ================================================================== *)

Section StoreNameFacts.
Variable str_of_float : float -> str.

Lemma partial_match_in name : forall keys k,
  StoreNames.partial_match keys name = Some k -> In k keys.
Proof.
  induction keys as [|key rest IH]; intros k; simpl; [discriminate|].
  destruct (contains key name || contains name key).
  - intros E. injection E as <-. now left.
  - intros E. right. now apply IH.
Qed.

Lemma is_store_in k : PVU.is_store k = true <-> In k PVU.STORES.
Proof.
  unfold PVU.is_store. rewrite existsb_exists. split.
  - intros (x & Hx & E). apply str_eqb_eq in E. now subst.
  - intros H. exists k. split; [assumption|apply str_eqb_refl].
Qed.

(** X9.  [normalize_store_name] answers with a key of [STORES] or with
    nothing, whatever the cell holds; so every group of rows the Price
    Variance Updater forms passes the token test of its store loop. *)
Theorem normalized_store_is_a_key (store_name : value) (k : str) :
  StoreNames.normalize_store_name str_of_float store_name = Some k ->
  In k PVU.STORES /\ PVU.is_store k = true.
Proof.
  unfold StoreNames.normalize_store_name.
  destruct (isna store_name); [discriminate|].
  set (name := Text.upper (strip (StoreNames.to_str str_of_float store_name))).
  intros E.
  assert (H : In k PVU.STORES).
  { destruct (existsb (str_eqb name) PVU.STORES) eqn:D.
    - injection E as <-. apply existsb_exists in D as (x & Hx & Ex).
      apply str_eqb_eq in Ex. now subst.
    - now apply partial_match_in in E. }
  split; [exact H|now apply is_store_in].
Qed.

(** The keys are written in upper case, without outer blanks. *)
Lemma keys_are_normal k : In k PVU.STORES -> Text.upper (strip k) = k.
Proof.
  unfold PVU.STORES. simpl.
  intros [<- | [<- | [<- | [<- | [<- | [<- | []]]]]]]; reflexivity.
Qed.

Lemma key_of_text s k :
  In k PVU.STORES -> Text.upper (strip s) = k ->
  StoreNames.normalize_store_name str_of_float (PyStr s) = Some k.
Proof.
  intros H E.
  unfold StoreNames.normalize_store_name, StoreNames.to_str.
  cbn [isna]. rewrite E.
  apply is_store_in in H. unfold PVU.is_store in H. now rewrite H.
Qed.

Lemma normalized_in store_name k :
  StoreNames.normalize_store_name str_of_float store_name = Some k ->
  In k PVU.STORES.
Proof.
  unfold StoreNames.normalize_store_name.
  destruct (isna store_name); [discriminate|].
  set (name := Text.upper (strip (StoreNames.to_str str_of_float store_name))).
  destruct (existsb (str_eqb name) PVU.STORES) eqn:D.
  - intros E. injection E as <-. apply existsb_exists in D as (x & Hx & Ex).
    apply str_eqb_eq in Ex. now subst.
  - apply partial_match_in.
Qed.

(** X10.  A store is recognised in any casing and with blanks around it:
    a text whose trimmed upper-case form is a key is given that key.  So
    normalising twice changes nothing: the answer to any cell is a name
    that is answered by itself. *)
Theorem store_key_in_any_casing (s k : str) (store_name : value) :
  (In k PVU.STORES -> Text.upper (strip s) = k ->
   StoreNames.normalize_store_name str_of_float (PyStr s) = Some k) /\
  (StoreNames.normalize_store_name str_of_float store_name = Some k ->
   StoreNames.normalize_store_name str_of_float (PyStr k) = Some k).
Proof.
  split; [apply key_of_text|].
  intros E. apply normalized_in in E.
  apply key_of_text; [exact E|now apply keys_are_normal].
Qed.

(** X11.  A text that is not a key is given the first key, in the order
    TSS, GGL, MMS, MZM, GG, AMH, that it contains or that contains it, and
    nothing when there is none.  A blank text is contained in every key: it
    is given TSS. *)
Theorem unknown_store_goes_to_first_related_key (s : str) :
  let name := Text.upper (strip s) in
  ~ In name PVU.STORES ->
  StoreNames.normalize_store_name str_of_float (PyStr s)
  = find (fun key => contains key name || contains name key) PVU.STORES /\
  (strip s = [] ->
   StoreNames.normalize_store_name str_of_float (PyStr s)
   = Some (lit "TSS")).
Proof.
  intros name H.
  unfold StoreNames.normalize_store_name, StoreNames.to_str.
  cbn [isna]. fold name.
  assert (D : existsb (str_eqb name) PVU.STORES = false).
  { destruct (existsb (str_eqb name) PVU.STORES) eqn:D; [|reflexivity].
    elim H. apply existsb_exists in D as (x & Hx & Ex).
    apply str_eqb_eq in Ex. now subst. }
  rewrite D. split.
  - generalize PVU.STORES. induction l as [|key rest IH];
      cbn [StoreNames.partial_match find]; [reflexivity|].
    now destruct (contains key name || contains name key).
  - intros B. subst name. rewrite B. reflexivity.
Qed.

End StoreNameFacts.

Lemma normalized_store_is_a_key_witness :
  In (lit "GG") PVU.STORES.
Proof.
  exact (proj1 (normalized_store_is_a_key (fun _ => [])
                  (PyStr (lit "gg store")) eq_refl)).
Defined.

Lemma store_key_in_any_casing_witness :
  StoreNames.normalize_store_name (fun _ => []) (PyStr (lit "  mZm "))
  = Some (lit "MZM").
Proof.
  apply (proj1 (store_key_in_any_casing (fun _ => []) (lit "  mZm ")
                  (lit "MZM") PyNone)); [|reflexivity].
  simpl. tauto.
Defined.

Lemma unknown_store_goes_to_first_related_key_witness :
  StoreNames.normalize_store_name (fun _ => []) (PyStr (lit "   "))
  = Some (lit "TSS") /\
  StoreNames.normalize_store_name (fun _ => []) (PyStr (lit "g"))
  = Some (lit "GGL").
Proof.
  assert (N : forall s : str,
             existsb (str_eqb s) PVU.STORES = false -> ~ In s PVU.STORES).
  { intros s D H. apply is_store_in in H. unfold PVU.is_store in H.
    now rewrite D in H. }
  split.
  - apply (proj2 (unknown_store_goes_to_first_related_key (fun _ => [])
                    (lit "   ") (N (Text.upper (strip (lit "   "))) eq_refl))).
    reflexivity.
  - exact (proj1 (unknown_store_goes_to_first_related_key (fun _ => [])
                    (lit "g") (N (Text.upper (strip (lit "g"))) eq_refl))).
Defined.

(* ================================================================== *)
(** * Required columns *)
(* ================================================================== *)

Lemma find_app {A} (p : A -> bool) (l1 l2 : list A) :
  find p (l1 ++ l2)
  = match find p l1 with Some x => Some x | None => find p l2 end.
Proof.
  induction l1 as [|a l1 IH]; simpl; [reflexivity|].
  now destruct (p a).
Qed.

Lemma dict_get_set k k' v d :
  Text.dict_get k (Text.dict_set k' v d)
  = if str_eqb k' k then Some v else Text.dict_get k d.
Proof.
  unfold Text.dict_get, Text.dict_set. simpl. now destruct (str_eqb k' k).
Qed.

Lemma dict_get_in k v d : Text.dict_get k d = Some v -> In (k, v) d.
Proof.
  unfold Text.dict_get.
  destruct (find _ d) as [[k' v']|] eqn:F; [|discriminate].
  simpl. intros E. injection E as ->. apply find_some in F as [H E].
  simpl in E. apply str_eqb_eq in E. now subst.
Qed.

(** The dictionary of the upper-cased names holds, for each of them, the
    last column of that name. *)
Lemma column_map_get K : forall columns d,
  Text.dict_get K
    (fold_left (fun d col => Text.dict_set (Text.upper col) col d) columns d)
  = match find (fun col => str_eqb (Text.upper col) K) (rev columns) with
    | Some col => Some col
    | None => Text.dict_get K d
    end.
Proof.
  induction columns as [|c columns IH]; intros d; simpl; [reflexivity|].
  rewrite IH, find_app, dict_get_set. simpl.
  destruct (find _ (rev columns)); [reflexivity|].
  now destruct (str_eqb (Text.upper c) K).
Qed.

Lemma column_map_some K columns c :
  Text.dict_get K (Columns.column_map columns) = Some c ->
  In c columns /\ Text.upper c = K.
Proof.
  unfold Columns.column_map. rewrite column_map_get.
  destruct (find _ (rev columns)) as [x|] eqn:F; [|discriminate].
  intros E. injection E as <-. apply find_some in F as [H E].
  apply str_eqb_eq in E. split; [now apply in_rev|assumption].
Qed.

Lemma column_map_has K columns c :
  In c columns -> Text.upper c = K ->
  exists c', Text.dict_get K (Columns.column_map columns) = Some c'.
Proof.
  intros H E. unfold Columns.column_map. rewrite column_map_get.
  destruct (find _ (rev columns)) as [x|] eqn:F; [now exists x|].
  apply find_none with (x := c) in F; [|now apply in_rev in H].
  subst K. now rewrite str_eqb_refl in F.
Qed.

Section RenameDict.
Variable cmap : Text.dict.

Lemma rename_dict_get src v : forall reqs d,
  Text.dict_get src (fold_left (Columns.rename_step cmap) reqs d) = Some v ->
  Text.dict_get src d = Some v \/
  (In v reqs /\ Text.dict_get (Text.upper v) cmap = Some src).
Proof.
  induction reqs as [|r reqs IH]; intros d; simpl; [auto|].
  intros H. apply IH in H as [H | [H1 H2]]; [|auto].
  unfold Columns.rename_step in H.
  destruct (Text.dict_get (Text.upper r) cmap) as [col|] eqn:G; [|auto].
  rewrite dict_get_set in H. destruct (str_eqb col src) eqn:E; [|auto].
  injection H as <-. apply str_eqb_eq in E. subst col. auto.
Qed.

Lemma rename_dict_has src req : forall reqs d,
  (In req reqs \/ Text.dict_get src d <> None) ->
  (In req reqs -> Text.dict_get (Text.upper req) cmap = Some src) ->
  Text.dict_get src (fold_left (Columns.rename_step cmap) reqs d) <> None.
Proof.
  induction reqs as [|r reqs IH]; intros d H G; simpl.
  - destruct H as [[] | H]; exact H.
  - apply IH; [|intros Hr; apply G; now right].
    destruct H as [[-> | H] | H]; [| now left |].
    + right. unfold Columns.rename_step. rewrite G by now left.
      rewrite dict_get_set, str_eqb_refl. discriminate.
    + right. unfold Columns.rename_step.
      destruct (Text.dict_get (Text.upper r) cmap) as [col|]; [|exact H].
      rewrite dict_get_set. now destruct (str_eqb col src).
Qed.

End RenameDict.

Lemma missing_none columns :
  Columns.missing_columns columns = [] <->
  forall req, In req Columns.required_columns -> In req columns.
Proof.
  unfold Columns.missing_columns. split.
  - intros H req Hr.
    destruct (existsb (str_eqb req) columns) eqn:E.
    + apply existsb_exists in E as (x & Hx & E). apply str_eqb_eq in E.
      now subst.
    + assert (In req (filter (fun col => negb (existsb (str_eqb col) columns))
                        Columns.required_columns))
        by (apply filter_In; split; [assumption|now rewrite E]).
      rewrite H in H0. contradiction.
  - intros H.
    destruct (filter _ Columns.required_columns) as [|x l] eqn:F;
      [reflexivity|].
    assert (Hx : In x (x :: l)) by now left.
    rewrite <- F in Hx. apply filter_In in Hx as [Hx E].
    apply H in Hx. apply negb_true_iff in E.
    assert (existsb (str_eqb x) columns = true)
      by (apply existsb_exists; exists x; split;
          [assumption|apply str_eqb_refl]).
    congruence.
Qed.

(** The required names are written in upper case, without outer blanks. *)
Lemma required_are_normal req :
  In req Columns.required_columns ->
  Text.upper req = req /\ Text.upper (strip req) = req.
Proof.
  unfold Columns.required_columns. simpl.
  intros [<- | [<- | [<- | []]]]; split; reflexivity.
Qed.

Lemma rename_nil columns : Columns.rename [] columns = columns.
Proof. unfold Columns.rename. simpl. apply map_id. Qed.

(** The columns the run goes on with, once something was missing. *)
Lemma validate_columns_unfold columns :
  Columns.validate_columns columns
  = match Columns.missing_columns columns with
    | [] => Some columns
    | _ :: _ =>
        let renamed :=
          Columns.rename
            (Columns.rename_dict (Columns.column_map (map strip columns)))
            (map strip columns) in
        match Columns.missing_columns renamed with
        | [] => Some renamed
        | _ :: _ => None
        end
    end.
Proof.
  unfold Columns.validate_columns.
  destruct (Columns.missing_columns columns); [reflexivity|]. cbv zeta.
  destruct (Columns.rename_dict _); [now rewrite rename_nil|reflexivity].
Qed.

Lemma renamed_has_required columns req :
  In req Columns.required_columns ->
  In req (Columns.rename
            (Columns.rename_dict (Columns.column_map (map strip columns)))
            (map strip columns))
  <-> exists col, In col columns /\ Text.upper (strip col) = req.
Proof.
  intros Hr. destruct (required_are_normal Hr) as [U _].
  set (stripped := map strip columns).
  set (cmap := Columns.column_map stripped).
  unfold Columns.rename. rewrite in_map_iff. split.
  - intros (c & E & Hc).
    apply in_map_iff in Hc as (col & <- & Hcol). exists col.
    split; [assumption|].
    destruct (Text.dict_get (strip col) (Columns.rename_dict cmap))
      as [v|] eqn:G.
    + subst v. apply rename_dict_get in G as [G | [_ G]]; [discriminate G|].
      apply column_map_some in G as [_ G]. now rewrite G.
    + now rewrite E.
  - intros (col & Hcol & E).
    assert (Hs : In (strip col) stripped) by now apply in_map.
    destruct (@column_map_has req stripped (strip col) Hs E) as [src G].
    fold cmap in G. exists src.
    pose proof (@column_map_some _ _ _ G) as [Hsrc Usrc].
    split; [|assumption].
    destruct (Text.dict_get src (Columns.rename_dict cmap)) as [v|] eqn:D.
    + apply rename_dict_get in D as [D | [Hv D]]; [discriminate D|].
      apply column_map_some in D as [_ D].
      destruct (required_are_normal Hv) as [Uv _]. congruence.
    + exfalso. revert D. apply rename_dict_has with (req := req).
      * now left.
      * intros _. now rewrite U.
Qed.

(** X12.  The required columns STORES NAME, SKU and STOCK are found
    whatever their casing and the blanks around them: the check lets the
    run go on exactly when each of them is the trimmed upper-case form of
    some column name, and the names it goes on with then contain the three,
    one name per column of the sheet. *)
Theorem required_columns_in_any_casing (columns : list str) :
  (Columns.validate_columns columns <> None <->
   forall req, In req Columns.required_columns ->
     exists col, In col columns /\ Text.upper (strip col) = req) /\
  (forall columns',
     Columns.validate_columns columns = Some columns' ->
     (forall req, In req Columns.required_columns -> In req columns') /\
     List.length columns' = List.length columns).
Proof.
  rewrite validate_columns_unfold. cbv zeta.
  set (renamed := Columns.rename _ (map strip columns)).
  destruct (Columns.missing_columns columns) as [|m ms] eqn:M.
  - split.
    + split; [|discriminate]. intros _ req Hr. exists req.
      split; [now apply (proj1 (missing_none columns) M)|].
      now apply required_are_normal.
    + intros columns' E. injection E as <-.
      split; [now apply missing_none|reflexivity].
  - destruct (Columns.missing_columns renamed) as [|m' ms'] eqn:M'.
    + split.
      * split; [|discriminate]. intros _ req Hr.
        apply (renamed_has_required columns Hr).
        now apply (proj1 (missing_none renamed) M').
      * intros columns' E. injection E as <-.
        split; [now apply missing_none|].
        unfold renamed, Columns.rename. now rewrite !length_map.
    + split; [|discriminate]. split; [intros H; now elim H|].
      intros H. exfalso.
      assert (N : Columns.missing_columns renamed = []).
      { apply missing_none. intros req Hr.
        apply (renamed_has_required columns Hr). now apply H. }
      congruence.
Qed.

Lemma required_columns_in_any_casing_witness :
  Columns.validate_columns
    [lit "Stores Name "; lit " sku"; lit "Stock"; lit "Posted Price"]
  = Some [lit "STORES NAME"; lit "SKU"; lit "STOCK"; lit "Posted Price"] /\
  ((forall req, In req Columns.required_columns ->
      In req [lit "STORES NAME"; lit "SKU"; lit "STOCK"; lit "Posted Price"]) /\
   List.length [lit "STORES NAME"; lit "SKU"; lit "STOCK"; lit "Posted Price"]
   = List.length
       [lit "Stores Name "; lit " sku"; lit "Stock"; lit "Posted Price"]).
Proof.
  split; [reflexivity|].
  exact (proj2 (required_columns_in_any_casing
                  [lit "Stores Name "; lit " sku"; lit "Stock";
                   lit "Posted Price"]) _ eq_refl).
Defined.

(* ================================================================== *)
(** * The run of the Multi Store Inventory Updater *)
(* ================================================================== *)

Lemma puts_app l l' : puts (l ++ l') = puts l + puts l'.
Proof. unfold puts. now rewrite filter_app, length_app. Qed.

Lemma puts_gets sku k : puts (repeat (IR.GET sku) k) = 0.
Proof. induction k; [reflexivity|exact IHk]. Qed.

Lemma repeat_snoc {A} (x : A) k : repeat x k ++ [x] = x :: repeat x k.
Proof. induction k; simpl; [reflexivity|now rewrite IHk]. Qed.

(** The validation touches the request log only, with one more read of the
    SKU per attempt, up to the first read that shows the expected
    inventory. *)
Lemma validate_attempts_spec sku e reads : forall n attempt st,
  let r := IR.validate_attempts sku e reads attempt n st in
  IR.stats (snd r) = IR.stats st /\
  IR.overall_stats (snd r) = IR.overall_stats st /\
  IR.store_results (snd r) = IR.store_results st /\
  exists k,
    k <= n /\
    IR.requests (snd r) = IR.requests st ++ repeat (IR.GET sku) k /\
    (forall i, S i < k -> confirms reads e (attempt + i) = false) /\
    (fst r = false ->
       k = n /\ forall i, i < n -> confirms reads e (attempt + i) = false) /\
    (fst r = true -> 0 < k /\ confirms reads e (attempt + (k - 1)) = true).
Proof.
  induction n as [|n IH]; intros attempt st; cbv zeta.
  - simpl. repeat split. exists 0. rewrite app_nil_r.
    repeat split; try lia; try discriminate; intros; lia.
  - cbn [IR.validate_attempts].
    assert (Step :
      confirms reads e attempt = false ->
      let r := IR.validate_attempts sku e reads (S attempt) n
                 (IR.send (IR.GET sku) st) in
      IR.stats (snd r) = IR.stats st /\
      IR.overall_stats (snd r) = IR.overall_stats st /\
      IR.store_results (snd r) = IR.store_results st /\
      exists k,
        k <= S n /\
        IR.requests (snd r) = IR.requests st ++ repeat (IR.GET sku) k /\
        (forall i, S i < k -> confirms reads e (attempt + i) = false) /\
        (fst r = false ->
           k = S n /\
           forall i, i < S n -> confirms reads e (attempt + i) = false) /\
        (fst r = true ->
           0 < k /\ confirms reads e (attempt + (k - 1)) = true)).
    { intros C. cbv zeta.
      destruct (IH (S attempt) (IR.send (IR.GET sku) st))
        as (A1 & A2 & A3 & k & K1 & K2 & K3 & K4 & K5).
      repeat split; try assumption. exists (S k).
      assert (Shift : forall i, i < S k ->
                (forall j, S j < S k ->
                   confirms reads e (S attempt + j) = false) ->
                confirms reads e (attempt + i) = false).
      { intros [|i] Hi Hj; [now rewrite Nat.add_0_r|].
        replace (attempt + S i) with (S attempt + i) by lia.
        apply Hj. lia. }
      split; [lia|]. split; [|split; [|split]].
      - rewrite K2. simpl. rewrite <- app_assoc. reflexivity.
      - intros [|i] Hi; [now rewrite Nat.add_0_r|].
        replace (attempt + S i) with (S attempt + i) by lia.
        apply K3. lia.
      - intros F. destruct (K4 F) as [-> K4']. split; [reflexivity|].
        intros [|i] Hi; [now rewrite Nat.add_0_r|].
        replace (attempt + S i) with (S attempt + i) by lia.
        apply K4'. lia.
      - intros T. destruct (K5 T) as [Hk K5']. split; [lia|].
        replace (attempt + (S k - 1)) with (S attempt + (k - 1)) by lia.
        exact K5'. }
    unfold confirms in Step at 1.
    destruct (reads attempt) as [listing|] eqn:R; [|now apply Step].
    destruct (Z.eqb (Reverb.current_inventory listing) e) eqn:Q;
      [|now apply Step].
    simpl. repeat split. exists 1. simpl.
    repeat split; try lia; try discriminate; try (intros; lia).
    rewrite Nat.add_0_r. unfold confirms. now rewrite R.
Qed.

(** X13.  The validation of an update reads the listing again up to
    [max_retries] times: it succeeds exactly when one of these reads shows
    the expected inventory, a read that fails or shows another number
    costing one attempt and no more; it stops at the first read that
    confirms, and gives up after [max_retries] reads. *)
Theorem validation_retries (sku : str) (expected_inventory : Z)
  (reads : nat -> option Reverb.Listing) (max_retries : nat) (st : IR.State) :
  let r := IR.validate_inventory_update sku expected_inventory reads
             max_retries st in
  (fst r = true <->
   exists i, i < max_retries /\ confirms reads expected_inventory i = true) /\
  exists k,
    k <= max_retries /\
    IR.requests (snd r) = IR.requests st ++ repeat (IR.GET sku) k /\
    (forall i, S i < k -> confirms reads expected_inventory i = false) /\
    (fst r = false -> k = max_retries) /\
    (fst r = true -> confirms reads expected_inventory (k - 1) = true).
Proof.
  cbv zeta. unfold IR.validate_inventory_update.
  destruct (validate_attempts_spec sku expected_inventory reads max_retries
              0 st)
    as (_ & _ & _ & k & K1 & K2 & K3 & K4 & K5).
  cbv zeta in *. split.
  - split.
    + intros T. destruct (K5 T) as [Hk C]. exists (k - 1). split; [lia|exact C].
    + intros (i & Hi & C).
      destruct (fst (IR.validate_attempts _ _ _ 0 max_retries st)) eqn:F;
        [reflexivity|].
      destruct (K4 eq_refl) as [_ N]. specialize (N i Hi). simpl in N.
      congruence.
  - exists k. repeat split; try assumption.
    + intros F. now destruct (K4 F).
    + intros T. now destruct (K5 T).
Qed.

Ltac run_keys :=
  cbv beta iota zeta delta
    [store_counted run_counted within_budget nothing_sent
     inventory_accounted IR.bump2 IR.send Reverb.bump
     IR.stats IR.overall_stats IR.requests IR.store_results
     IR.max_retries IR.initial Reverb.no_stats
     String.eqb Ascii.eqb Bool.eqb andb orb negb] in *;
  rewrite ?puts_app, ?length_app, ?puts_gets, ?repeat_length in *;
  cbv beta iota delta [puts List.length filter IR.is_put] in *;
  try lia.

Ltac row_done :=
  let E := fresh in
  intros E; injection E as <-; repeat split; try (intros; run_keys).

(** What one row does to the counters and to the log. *)
Lemma inventory_row row env st st' :
  IR.process_row row env st = Ok st' ->
  (store_counted st -> store_counted st') /\
  (run_counted st -> run_counted st') /\
  (within_budget st -> within_budget st') /\
  IR.store_results st' = IR.store_results st /\
  IR.overall_stats st' "total_rows"%string
  = S (IR.overall_stats st "total_rows"%string).
Proof.
  unfold IR.process_row.
  destruct (option_map strip (IR.r_sku row)) as [[|c sku]|]; try row_done.
  destruct (str_eqb (c :: sku) (lit "nan")); [row_done|].
  destruct (IR.get_listing_by_sku env) as [listing|]; [|row_done].
  destruct (MSI.calculate_inventory (IR.r_stock row)) as [target|e];
    [|discriminate].
  destruct (Z.eqb (Reverb.current_inventory listing) target);
    cbn [negb]; [row_done|].
  destruct (IR.update_listing env); [|row_done].
  match goal with
  | |- context [IR.validate_inventory_update ?s ?t ?r ?n ?x] =>
      pose proof (validate_attempts_spec s t r n 0 x) as V;
      unfold IR.validate_inventory_update;
      destruct (IR.validate_attempts s t r 0 n x) as [valid st2]
  end.
  cbv zeta in V. cbn [fst snd] in V.
  destruct V as (V1 & V2 & V3 & k & K1 & K2 & _).
  destruct st2 as [s2 o2 r2 q2]. cbn [IR.stats IR.overall_stats
    IR.store_results IR.requests] in V1, V2, V3, K2. subst s2 o2 r2 q2.
  unfold IR.max_retries in K1.
  destruct valid; row_done.
Qed.

Lemma inventory_rows : forall rows st st',
  IR.process_rows rows st = Ok st' ->
  (store_counted st -> store_counted st') /\
  (run_counted st -> run_counted st') /\
  (within_budget st -> within_budget st') /\
  IR.store_results st' = IR.store_results st /\
  IR.overall_stats st' "total_rows"%string
  = List.length rows + IR.overall_stats st "total_rows"%string.
Proof.
  induction rows as [|[row env] rest IH]; intros st st' E; simpl in E.
  - injection E as <-. auto.
  - destruct (IR.process_row row env st) as [st1|e] eqn:R; [|discriminate].
    apply inventory_row in R as (A1 & B1 & C1 & D1 & E1).
    apply IH in E as (A2 & B2 & C2 & D2 & E2).
    split; [auto|split; [auto|split; [auto|split]]];
      [exact (eq_trans D2 D1)|]. rewrite E2, E1. simpl. lia.
Qed.

Lemma inventory_store STORES store rows st st' :
  IR.process_store STORES store rows st = Ok st' ->
  (run_counted st -> run_counted st') /\
  (within_budget st -> within_budget st') /\
  (results_counted st -> results_counted st') /\
  IR.overall_stats st' "total_rows"%string
  = rows_with_token STORES [(store, rows)]
    + IR.overall_stats st "total_rows"%string.
Proof.
  unfold IR.process_store, rows_with_token. cbn [map fst snd].
  destruct (Text.dict_get store STORES) as [[|c token]|];
    try (intros E; injection E as <-; auto).
  destruct (IR.process_rows rows _) as [st1|e] eqn:R; [|discriminate].
  intros E. injection E as <-.
  apply inventory_rows in R as (A & B & C & D & T).
  assert (S1 : store_counted st1) by (apply A; run_keys).
  split; [|split; [|split]].
  - exact B.
  - exact C.
  - intros H name d [Q | Q].
    + injection Q as _ <-. exact S1.
    + apply (H name d). cbn [IR.store_results] in Q. rewrite D in Q. exact Q.
  - cbn [IR.overall_stats]. rewrite T. cbn [IR.overall_stats].
    unfold list_sum. cbn [fold_right]. lia.
Qed.

Lemma inventory_stores STORES : forall grouped st st',
  IR.process_stores STORES grouped st = Ok st' ->
  (run_counted st -> run_counted st') /\
  (within_budget st -> within_budget st') /\
  (results_counted st -> results_counted st') /\
  IR.overall_stats st' "total_rows"%string
  = rows_with_token STORES grouped + IR.overall_stats st "total_rows"%string.
Proof.
  induction grouped as [|[store rows] rest IH]; intros st st' E; simpl in E.
  - injection E as <-. auto.
  - destruct (IR.process_store STORES store rows st) as [st1|e] eqn:R;
      [|discriminate].
    apply inventory_store in R as (A1 & B1 & C1 & D1).
    apply IH in E as (A2 & B2 & C2 & D2).
    split; [auto|split; [auto|split; [auto|]]]. rewrite D2, D1.
    unfold rows_with_token, list_sum. cbn [map fold_right fst snd]. lia.
Qed.

(** X14.  The summary of the Multi Store Inventory Updater accounts for
    every row of the stores that have a token, and for no other: each such
    row is an error, not found, updated or skipped, and each update is
    validated or failed its validation; the same holds of the counters kept
    for each store. *)
Theorem inventory_summary_accounts_for_every_row (STORES : Text.dict)
  (grouped : list (str * list (IR.Row * IR.Remote))) (st : IR.State) :
  IR.main STORES grouped = Ok st ->
  let d := IR.overall_stats st in
  d "total_rows"%string = rows_with_token STORES grouped /\
  d "total_rows"%string
  = d "total_errors"%string + d "total_not_found"%string
    + d "total_updated"%string + d "total_skipped"%string /\
  d "total_validated"%string + d "total_validation_failed"%string
  = d "total_updated"%string /\
  forall store_name s, In (store_name, s) (IR.store_results st) ->
    s "total"%string
    = s "errors"%string + s "not_found"%string + s "updated"%string
      + s "skipped"%string /\
    s "validated"%string + s "validation_failed"%string
    = s "updated"%string.
Proof.
  unfold IR.main. intros E.
  apply inventory_stores in E as (A & _ & C & D). cbv zeta.
  assert (A0 : run_counted IR.initial) by run_keys.
  assert (C0 : results_counted IR.initial) by (intros ? ? []).
  destruct (A A0) as [A1 A2]. specialize (C C0).
  repeat split.
  - rewrite D. unfold IR.initial, Reverb.no_stats. cbn [IR.overall_stats]. lia.
  - exact A1.
  - exact A2.
  - now apply (C store_name s).
  - now apply (C store_name s).
Qed.

(** X15.  The run stays within the budget of requests: a row costs one
    read, one PUT when the inventory differs, and at most [max_retries]
    reads for the validation, five requests at most; every counted update
    was sent, and a PUT that is not counted as an update is counted as an
    error. *)
Theorem inventory_run_request_budget (STORES : Text.dict)
  (grouped : list (str * list (IR.Row * IR.Remote))) (st : IR.State) :
  IR.main STORES grouped = Ok st ->
  let d := IR.overall_stats st in
  d "total_updated"%string <= puts (IR.requests st) /\
  puts (IR.requests st) <= d "total_updated"%string + d "total_errors"%string /\
  List.length (IR.requests st) <= 5 * rows_with_token STORES grouped.
Proof.
  unfold IR.main. intros E.
  apply inventory_stores in E as (A & B & _ & D). cbv zeta.
  assert (A0 : run_counted IR.initial) by run_keys.
  assert (B0 : within_budget IR.initial) by run_keys.
  destruct (A A0) as [A1 A2]. destruct (B B0) as (B1 & B2 & B3).
  unfold IR.initial, Reverb.no_stats in D. cbn [IR.overall_stats] in D.
  rewrite Nat.add_0_r in D. rewrite <- D.
  unfold IR.max_retries in B3. repeat split; [exact B1|exact B2|lia].
Qed.

Lemma inventory_summary_accounts_for_every_row_witness :
  exists st,
    IR.main example_tokens example_run = Ok st /\
    IR.overall_stats st "total_rows"%string = 4 /\
    IR.overall_stats st "total_updated"%string = 1 /\
    IR.overall_stats st "total_validated"%string = 1.
Proof.
  eexists. split; [reflexivity|].
  split; [|split; reflexivity].
  exact (proj1 (inventory_summary_accounts_for_every_row
                  example_tokens example_run eq_refl)).
Defined.

Lemma inventory_run_request_budget_witness :
  exists st,
    IR.main example_tokens example_run = Ok st /\
    List.length (IR.requests st) = 6 /\
    List.length (IR.requests st) <= 5 * 4.
Proof.
  eexists. split; [reflexivity|]. split; [reflexivity|].
  exact (proj2 (proj2 (inventory_run_request_budget
                         example_tokens example_run eq_refl))).
Defined.

(** A row in step costs its one read and no more. *)
Lemma row_in_step row env st :
  (forall listing, IR.get_listing_by_sku env = Some listing ->
     MSI.calculate_inventory (IR.r_stock row)
     = Ok (Reverb.current_inventory listing)) ->
  exists st',
    IR.process_row row env st = Ok st' /\
    (nothing_sent st -> nothing_sent st').
Proof.
  intros H. unfold IR.process_row.
  destruct (option_map strip (IR.r_sku row)) as [[|c sku]|];
    try (eexists; split; [reflexivity|intros; run_keys]).
  destruct (str_eqb (c :: sku) (lit "nan"));
    [eexists; split; [reflexivity|intros; run_keys]|].
  destruct (IR.get_listing_by_sku env) as [listing|];
    [|eexists; split; [reflexivity|intros; run_keys]].
  rewrite (H listing eq_refl), Z.eqb_refl. cbn [negb].
  eexists; split; [reflexivity|intros; run_keys].
Qed.

Lemma rows_in_step : forall rows st,
  (forall row env listing, In (row, env) rows ->
     IR.get_listing_by_sku env = Some listing ->
     MSI.calculate_inventory (IR.r_stock row)
     = Ok (Reverb.current_inventory listing)) ->
  exists st',
    IR.process_rows rows st = Ok st' /\
    (nothing_sent st -> nothing_sent st').
Proof.
  induction rows as [|[row env] rest IH]; intros st H; simpl.
  - exists st. auto.
  - destruct (@row_in_step row env st) as (st1 & R & N1).
    { intros listing. apply H. now left. }
    rewrite R.
    destruct (IH st1) as (st' & R' & N').
    { intros r e l Hin. apply H. now right. }
    exists st'. auto.
Qed.

Lemma stores_in_step STORES : forall grouped st,
  in_step grouped ->
  exists st',
    IR.process_stores STORES grouped st = Ok st' /\
    (nothing_sent st -> nothing_sent st').
Proof.
  induction grouped as [|[store rows] rest IH]; intros st H; simpl.
  - exists st. auto.
  - assert (Hrest : in_step rest).
    { intros s r row env listing Hs. apply (H s r). now right. }
    assert (Step : exists st1,
              IR.process_store STORES store rows st = Ok st1 /\
              (nothing_sent st -> nothing_sent st1)).
    { unfold IR.process_store.
      destruct (Text.dict_get store STORES) as [[|c token]|];
        try solve [exists st; auto].
      destruct (rows_in_step rows
                  (IR.MkState Reverb.no_stats (IR.overall_stats st)
                     (IR.store_results st) (IR.requests st)))
        as (st1 & R & N).
      { intros row env listing Hin. apply (H store rows). now left.
        exact Hin. }
      rewrite R. eexists. split; [reflexivity|].
      intros N0. exact (N N0). }
    destruct Step as (st1 & R & N). rewrite R.
    destruct (IH st1 Hrest) as (st' & R' & N').
    exists st'. auto.
Qed.

(** X16.  Running the updater on a sheet that Reverb already agrees with
    changes nothing: when the listing of every row that has one shows the
    inventory computed from the row, the run completes, sends no PUT and
    counts no update; it sends at most the one read per row. *)
Theorem rerun_sends_no_update (STORES : Text.dict)
  (grouped : list (str * list (IR.Row * IR.Remote))) :
  in_step grouped ->
  exists st,
    IR.main STORES grouped = Ok st /\
    puts (IR.requests st) = 0 /\
    IR.overall_stats st "total_updated"%string = 0 /\
    List.length (IR.requests st) <= rows_with_token STORES grouped.
Proof.
  intros H. unfold IR.main.
  destruct (stores_in_step STORES IR.initial H) as (st & R & N).
  exists st. split; [exact R|].
  assert (N0 : nothing_sent IR.initial) by run_keys.
  destruct (N N0) as (N1 & N2 & N3).
  apply inventory_stores in R as (_ & _ & _ & D).
  unfold IR.initial, Reverb.no_stats in D. cbn [IR.overall_stats] in D.
  rewrite Nat.add_0_r in D. rewrite <- D. auto.
Qed.

Lemma rerun_sends_no_update_witness :
  in_step example_rerun /\
  exists st,
    IR.main example_tokens example_rerun = Ok st /\
    puts (IR.requests st) = 0 /\
    IR.overall_stats st "total_skipped"%string = 2.
Proof.
  assert (H : in_step example_rerun).
  { intros s rows row env listing [E | []]. injection E as <- <-.
    intros [E | [E | []]]; injection E as <- <-;
      intros L; injection L as <-; reflexivity. }
  split; [exact H|].
  destruct (rerun_sends_no_update example_tokens H) as (st & E & P & _).
  exists st. split; [exact E|]. split; [exact P|].
  injection E as <-. reflexivity.
Defined.

(* ================================================================== *)
(** * The run of the Reverb Data Scraper *)
(* ================================================================== *)

(** ** Finding and reading a file *)

Lemma startswith_app k s : startswith k (k ++ s) = true.
Proof. apply startswith_spec. now exists s. Qed.

Lemma endswith_app suffix s : Text.endswith suffix (s ++ suffix) = true.
Proof. unfold Text.endswith. rewrite rev_app_distr. apply startswith_app. Qed.

(** A path made for a store ends with its extension. *)
Lemma input_path_ends store ext :
  Text.endswith ext (SR.os_path_join SR.INPUT_DIR (store ++ ext)) = true.
Proof.
  unfold SR.os_path_join. rewrite !app_assoc. apply endswith_app.
Qed.

Lemma not_csv store ext :
  ext = lit ".xlsx" \/ ext = lit ".xls" ->
  Text.endswith (lit ".csv") (SR.os_path_join SR.INPUT_DIR (store ++ ext))
  = false.
Proof.
  unfold SR.os_path_join, Text.endswith.
  intros [-> | ->]; rewrite !app_assoc, rev_app_distr; reflexivity.
Qed.

(** A path found for a store is read. *)
Lemma found_path_reads disk store_name file_path :
  SR.find_input_file disk store_name = Some file_path ->
  exists df, SR.read_input_file disk file_path = Ok df.
Proof.
  unfold SR.find_input_file, SR.extensions. cbn [map find].
  destruct (SR.os_path_exists disk _);
    [|destruct (SR.os_path_exists disk _);
      [|destruct (SR.os_path_exists disk _); [|discriminate]]];
    intros F; injection F as <-; unfold SR.read_input_file.
  - rewrite input_path_ends. eexists; reflexivity.
  - rewrite not_csv by now left. rewrite input_path_ends. eexists; reflexivity.
  - rewrite not_csv by now right. rewrite input_path_ends, orb_true_r.
    eexists; reflexivity.
Qed.

(** X17.  [find_input_file] answers with a path that exists, made of the
    store name and of the first of the extensions .csv, .xlsx and .xls
    that has a file; [read_input_file] reads every path so found, never
    refusing its format: a CSV file as pandas reads it, an Excel file with
    the cells that read nan or NaN emptied. *)
Theorem found_file_is_read (disk : SR.Disk) (store_name file_path : str) :
  SR.find_input_file disk store_name = Some file_path ->
  exists before ext after,
    SR.extensions = before ++ ext :: after /\
    file_path = SR.os_path_join SR.INPUT_DIR (store_name ++ ext) /\
    SR.os_path_exists disk file_path = true /\
    (forall ext', In ext' before ->
       SR.os_path_exists disk
         (SR.os_path_join SR.INPUT_DIR (store_name ++ ext')) = false) /\
    SR.read_input_file disk file_path
    = Ok (if str_eqb ext (lit ".csv")
          then SR.pd_read_csv disk file_path
          else SR.replace (lit "NaN")
                 (SR.replace (lit "nan") (SR.pd_read_excel disk file_path))).
Proof.
  unfold SR.find_input_file, SR.extensions. cbn [map find].
  set (csv := SR.os_path_join SR.INPUT_DIR (store_name ++ lit ".csv")).
  set (xlsx := SR.os_path_join SR.INPUT_DIR (store_name ++ lit ".xlsx")).
  set (xls := SR.os_path_join SR.INPUT_DIR (store_name ++ lit ".xls")).
  destruct (SR.os_path_exists disk csv) eqn:E1;
    [|destruct (SR.os_path_exists disk xlsx) eqn:E2;
      [|destruct (SR.os_path_exists disk xls) eqn:E3; [|discriminate]]];
    intros F; injection F as <-.
  - exists [], (lit ".csv"), [lit ".xlsx"; lit ".xls"].
    split; [reflexivity|]. split; [reflexivity|]. split; [exact E1|].
    split; [intros ext' []|].
    unfold SR.read_input_file, csv. now rewrite input_path_ends.
  - exists [lit ".csv"], (lit ".xlsx"), [lit ".xls"].
    split; [reflexivity|]. split; [reflexivity|]. split; [exact E2|].
    split; [intros ext' [<- | []]; exact E1|].
    unfold SR.read_input_file, xlsx.
    rewrite not_csv by now left. now rewrite input_path_ends.
  - exists [lit ".csv"; lit ".xlsx"], (lit ".xls"), [].
    split; [reflexivity|]. split; [reflexivity|]. split; [exact E3|].
    split; [intros ext' [<- | [<- | []]]; [exact E1|exact E2]|].
    unfold SR.read_input_file, xls.
    rewrite not_csv by now right. rewrite input_path_ends.
    now rewrite orb_true_r.
Qed.

Lemma found_file_is_read_witness :
  exists before ext after,
    SR.extensions = before ++ ext :: after /\
    SR.os_path_join SR.INPUT_DIR (lit "MZM.csv")
    = SR.os_path_join SR.INPUT_DIR (lit "MZM" ++ ext).
Proof.
  destruct (found_file_is_read (one_sheet [lit "sku"] []) (lit "MZM") eq_refl)
    as (before & ext & after & E & P & _).
  exists before, ext, after. split; [exact E|exact P].
Defined.

(** ** The rows of a file *)

(** What the extractor returns is trimmed, and has length 10 with a letter
    or length 12 and only digits. *)
Lemma extracted_profile v id :
  DataScraper.extract_asin_from_sku v = (id, true) ->
  strip id = id /\
  ((len id = 10 /\ any_isalpha id = true) \/
   (len id = 12 /\ str_isdigit id = true)).
Proof.
  intros E.
  assert (exists s, v = PyStr s) as [s ->].
  { destruct v as [| x | z | s]; try discriminate E; [|now exists s].
    rewrite extract_failure in E; [discriminate E|now destruct x]. }
  apply extract_success in E
    as [(code & (pre & suf & _ & _ & [Hl Hc] & Ha & _) & ->)
       |(code & (pre & suf & _ & _ & [Hl Hc] & _) & ->)].
  - split.
    + apply strip_no_space. rewrite swap_halves_forallb.
      revert Hc. apply forallb_impl. intros c Hc.
      now rewrite alnum_not_space.
    + left. split; [now rewrite swap_halves_len|].
      unfold any_isalpha. now rewrite swap_halves_existsb.
  - split.
    + apply strip_no_space. rewrite swap_halves_forallb.
      revert Hc. apply forallb_impl. intros c Hc.
      now rewrite alnum_not_space by now apply digit_is_alnum.
    + right.
      assert (L : len (swap_halves 6 code) = 12)
        by now rewrite swap_halves_len.
      split; [exact L|].
      assert (D : forallb isdigit (swap_halves 6 code) = true).
      { rewrite swap_halves_forallb. revert Hc.
        apply forallb_impl, digit_isdigit. }
      destruct (swap_halves 6 code) as [|c r]; [discriminate L|].
      unfold str_isdigit. now rewrite D.
Qed.

(** The validation after a successful extraction never fails, and the link
    is never empty. *)
Lemma extracted_passes v id :
  DataScraper.extract_asin_from_sku v = (id, true) ->
  fst (DataScraper.is_valid_asin (PyStr id)) = true /\
  ((len id = 10 /\ DataScraper.generate_link (PyStr id) = amazon ++ id) \/
   (len id = 12 /\ DataScraper.generate_link (PyStr id) = ebay ++ id)).
Proof.
  intros E. pose proof (extracted_nonempty _ E) as N.
  apply extracted_profile in E as (S & [[L A] | [L D]]);
    unfold DataScraper.is_valid_asin, DataScraper.generate_link;
    fold amazon ebay; rewrite S, L;
    (destruct id as [|c id]; [now elim N|]);
    change (str_eqb (c :: id) []) with false; cbv iota.
  - rewrite A. cbn [Nat.eqb andb fst]. split; [reflexivity|now left].
  - rewrite D. cbn [Nat.eqb andb fst]. split; [reflexivity|now right].
Qed.

Lemma firstn_firstn_app {A} n (a b : list A) :
  firstn n (firstn n a ++ b) = firstn n (a ++ b).
Proof.
  revert a. induction n as [|n IH]; intros a; [reflexivity|].
  destruct a as [|x a]; [reflexivity|]. simpl. now rewrite IH.
Qed.

Section ScraperFacts.
Variable float_of_str : str -> option float.
Variable int_max_str_digits : nat.

(** A string cell converts, whatever it holds. *)
Lemma text_converts v :
  isinstance_str v = true ->
  exists sku, SR.convert_to_string float_of_str int_max_str_digits v = Ok sku.
Proof.
  destruct v as [| x | z | s]; try discriminate. intros _.
  unfold SR.convert_to_string. cbn [isna].
  destruct (_ || _); [|eauto].
  destruct (float_of_str (strip s)) as [num|]; [|eauto].
  destruct (int_of_float num) as [n|e]; [|eauto].
  destruct (SR.str_of_int int_max_str_digits n); eauto.
Qed.

(** One row: the SKU goes to the Data sheet when it yields an identifier,
    to the Manual Review sheet when it does not. *)
Lemma scraper_row store v sku st :
  SR.convert_cell float_of_str int_max_str_digits v = Ok sku ->
  SR.process_row float_of_str int_max_str_digits store v st
  = Ok (SR.MkState
          (SR.valid_data st ++ data_sheet store [sku])
          (SR.invalid_data st ++ review_sheet store [sku])
          (if yields sku
           then Reverb.bump "extracted_from_sku" (SR.verification_stats st)
           else Reverb.bump "no_asin" (SR.verification_stats st))
          (if yields sku then SR.failed_sku_examples st
           else if Nat.ltb (List.length (SR.failed_sku_examples st)) 20
                then SR.failed_sku_examples st ++ [example_of sku]
                else SR.failed_sku_examples st)).
Proof.
  intros C. unfold SR.process_row, data_sheet, review_sheet, valid_row, yields.
  rewrite C. cbn [filter].
  destruct (DataScraper.extract_asin_from_sku (PyStr sku)) as [id ok] eqn:E.
  destruct ok; cbn [snd fst negb map].
  - destruct (extracted_passes _ E) as [V _]. rewrite V.
    pose proof (extracted_nonempty _ E) as N.
    destruct id as [|c id]; [now elim N|].
    cbn [SR.count SR.valid_data SR.invalid_data SR.verification_stats
           SR.failed_sku_examples].
    rewrite E. cbn [fst]. now rewrite app_nil_r.
  - unfold SR.note_failure, SR.count, example_of.
    cbn [SR.valid_data SR.invalid_data SR.verification_stats
           SR.failed_sku_examples].
    destruct (Nat.ltb _ 20);
      cbn [SR.valid_data SR.invalid_data SR.verification_stats
             SR.failed_sku_examples];
      now rewrite app_nil_r.
Qed.

Lemma text_cells_convert cells :
  (forall c, In c cells ->
     exists v, c = SR.Scalar v /\ isinstance_str v = true) ->
  exists skus, converted float_of_str int_max_str_digits cells skus.
Proof.
  induction cells as [|c cells IH]; intros H; [now exists []|].
  destruct (H c (or_introl eq_refl)) as (v & -> & T).
  destruct (text_converts v T) as [sku C].
  destruct IH as [skus Cs]; [intros w Hw; apply H; now right|].
  exists (sku :: skus). now split.
Qed.

Lemma converted_length : forall cells skus,
  converted float_of_str int_max_str_digits cells skus ->
  List.length skus = List.length cells.
Proof.
  induction cells as [|v cells IH]; intros [|sku skus] H;
    try contradiction; [reflexivity|].
  simpl. f_equal. apply IH, H.
Qed.

Lemma scraper_rows store : forall cells skus st,
  converted float_of_str int_max_str_digits cells skus ->
  List.length (SR.failed_sku_examples st) <= 20 ->
  exists st',
    SR.process_rows float_of_str int_max_str_digits store cells st = Ok st' /\
    SR.valid_data st' = SR.valid_data st ++ data_sheet store skus /\
    SR.invalid_data st' = SR.invalid_data st ++ review_sheet store skus /\
    SR.verification_stats st' "extracted_from_sku"%string
    = SR.verification_stats st "extracted_from_sku"%string
      + List.length (data_sheet store skus) /\
    SR.verification_stats st' "no_asin"%string
    = SR.verification_stats st "no_asin"%string
      + List.length (review_sheet store skus) /\
    SR.failed_sku_examples st'
    = firstn 20
        (SR.failed_sku_examples st
         ++ map example_of (filter (fun sku => negb (yields sku)) skus)).
Proof.
  induction cells as [|v cells IH]; intros [|sku skus] st H L;
    try contradiction.
  - exists st. unfold data_sheet, review_sheet. cbn [filter map List.length].
    rewrite !app_nil_r, !Nat.add_0_r.
    repeat split. symmetry. now apply firstn_all2.
  - destruct H as [C Cs]. cbn [SR.process_rows].
    rewrite (scraper_row store v st C).
    set (st1 := SR.MkState _ _ _ _).
    assert (L1 : List.length (SR.failed_sku_examples st1) <= 20).
    { unfold st1. cbn [SR.failed_sku_examples].
      destruct (yields sku); [exact L|].
      destruct (Nat.ltb _ 20) eqn:Q; [|exact L].
      apply Nat.ltb_lt in Q. rewrite length_app. simpl. lia. }
    destruct (IH skus st1 Cs L1) as (st' & R & V & I & S1 & S2 & F).
    exists st'. split; [exact R|].
    unfold data_sheet, review_sheet in *. cbn [filter] in *.
    unfold st1 in V, I, S1, S2, F.
    cbn [SR.valid_data SR.invalid_data SR.verification_stats
           SR.failed_sku_examples] in V, I, S1, S2, F.
    rewrite V, I, S1, S2, F. clear.
    destruct (yields sku); cbn [negb map app];
      rewrite ?app_nil_r; unfold Reverb.bump; cbn [String.eqb Ascii.eqb Bool.eqb
        andb List.length]; repeat split; try lia.
    + now rewrite <- app_assoc.
    + now rewrite <- app_assoc.
    + destruct (Nat.ltb (List.length (SR.failed_sku_examples st)) 20) eqn:Q.
      * now rewrite <- app_assoc.
      * apply Nat.ltb_ge in Q.
        rewrite !firstn_app.
        replace (20 - List.length (SR.failed_sku_examples st)) with 0 by lia.
        reflexivity.
Qed.

(** The rows of a sheet that went through. *)
Lemma rows_went_through store : forall cells st st',
  SR.process_rows float_of_str int_max_str_digits store cells st = Ok st' ->
  exists skus, converted float_of_str int_max_str_digits cells skus.
Proof.
  induction cells as [|v cells IH]; intros st st' R; [now exists []|].
  cbn [SR.process_rows] in R.
  destruct (SR.convert_cell float_of_str int_max_str_digits v)
    as [sku|e] eqn:C.
  - rewrite (scraper_row store v st C) in R.
    apply IH in R as [skus Cs]. exists (sku :: skus). now split.
  - unfold SR.process_row in R. rewrite C in R. discriminate R.
Qed.

(** A sheet with a SKU column whose cells convert. *)
Lemma scraper_file disk store file_path df skus :
  SR.read_input_file disk file_path = Ok df ->
  has_sku df = true ->
  converted float_of_str int_max_str_digits (sku_cells df) skus ->
  exists stats,
    SR.process_store_file float_of_str int_max_str_digits disk store file_path
    = Ok (SR.Three (SR.nonempty (data_sheet store skus))
            (SR.nonempty (review_sheet store skus)) stats) /\
    stats "extracted_from_sku"%string = List.length (data_sheet store skus) /\
    stats "no_asin"%string = List.length (review_sheet store skus).
Proof.
  intros R H C. unfold SR.process_store_file. rewrite R.
  unfold has_sku in H. rewrite H. cbn [negb].
  fold (sku_cells df).
  destruct (scraper_rows store (sku_cells df) skus
              (SR.MkState [] [] Reverb.no_stats []) C)
    as (st' & P & V & I & S1 & S2 & _); [simpl; lia|].
  rewrite P. cbn [SR.valid_data SR.invalid_data app] in V, I.
  rewrite V, I. eexists. split; [reflexivity|].
  cbn [SR.verification_stats] in S1, S2. now split.
Qed.

Lemma sheets_length store skus :
  List.length (data_sheet store skus) + List.length (review_sheet store skus)
  = List.length skus.
Proof.
  unfold data_sheet, review_sheet. rewrite !length_map.
  induction skus as [|sku skus IH]; [reflexivity|]. simpl.
  destruct (yields sku); simpl; lia.
Qed.

(** The labels that are [label], by position. *)
Lemma positions_length label : forall labels i,
  List.length (SR.positions label labels i)
  = List.length (filter (fun l => str_eqb l label) labels).
Proof.
  induction labels as [|l rest IH]; intros i; simpl; [reflexivity|].
  destruct (str_eqb l label); simpl; now rewrite IH.
Qed.

Lemma has_sku_columns df : has_sku df = true <-> 1 <= sku_columns df.
Proof.
  unfold has_sku, sku_columns. rewrite positions_length, existsb_exists.
  set (labels := map _ (SR.columns df)). split.
  - intros (l & Hl & E). apply str_eqb_eq in E. subst l.
    assert (Hf : In (lit "sku")
                   (filter (fun l => str_eqb l (lit "sku")) labels))
      by (apply filter_In; split; [exact Hl|apply str_eqb_refl]).
    destruct (filter _ labels); [contradiction|simpl; lia].
  - intros H. destruct (filter _ labels) as [|l r] eqn:F; [simpl in H; lia|].
    assert (Hf : In l (l :: r)) by now left.
    rewrite <- F in Hf. apply filter_In in Hf as [Hl E].
    apply str_eqb_eq in E. subst l. exists (lit "sku").
    split; [exact Hl|apply str_eqb_refl].
Qed.

Lemma text_frame_converts df :
  sku_columns df = 1 -> text_frame df ->
  exists skus, converted float_of_str int_max_str_digits (sku_cells df) skus.
Proof.
  intros O T. apply text_cells_convert.
  intros c Hc. unfold sku_cells in Hc.
  apply in_map_iff in Hc as (row & <- & Hrow).
  unfold SR.row_get. unfold sku_columns in O.
  destruct (SR.positions _ _ 0) as [|i [|j more]];
    try discriminate O.
  exists (nth i row (PyStr [])). split; [reflexivity|].
  destruct (nth_in_or_default i row (PyStr [])) as [Hin | ->];
    [exact (T row _ Hrow Hin)|reflexivity].
Qed.

(** Two columns that read sku stop the file at its first row. *)
Lemma two_sku_columns_raise disk store file_path df :
  SR.read_input_file disk file_path = Ok df ->
  2 <= sku_columns df -> SR.rows df <> [] ->
  SR.process_store_file float_of_str int_max_str_digits disk store file_path
  = Raise ValueError.
Proof.
  intros R H N. unfold SR.process_store_file. rewrite R.
  assert (S : has_sku df = true) by (apply has_sku_columns; lia).
  unfold has_sku in S. rewrite S. cbn [negb].
  destruct (SR.rows df) as [|row rest]; [now elim N|].
  cbn [map SR.process_rows]. unfold SR.process_row, SR.row_get.
  unfold sku_columns in H.
  destruct (SR.positions _ _ 0) as [|i [|j more]];
    [simpl in H; lia|simpl in H; lia|reflexivity].
Qed.

(** X18.  A sheet with string cells and one column that reads sku is
    split between the Data sheet and the Manual Review sheet, row by row
    and in the order of the file: a row goes to the Data sheet exactly when
    the extractor yields an identifier for its SKU, and to the review
    otherwise; the two counters count the two sheets, and no row is lost.
    A sheet with rows and two columns or more that read sku is not
    processed: its first row raises [ValueError]. *)
Theorem sheets_partition_the_rows (disk : SR.Disk)
  (store_name file_path : str) (df : SR.Frame) :
  SR.read_input_file disk file_path = Ok df ->
  (sku_columns df = 1 -> text_frame df ->
   exists skus stats,
     converted float_of_str int_max_str_digits (sku_cells df) skus /\
     SR.process_store_file float_of_str int_max_str_digits disk store_name
       file_path
     = Ok (SR.Three (SR.nonempty (data_sheet store_name skus))
             (SR.nonempty (review_sheet store_name skus)) stats) /\
     stats "extracted_from_sku"%string
     = List.length (data_sheet store_name skus) /\
     stats "no_asin"%string = List.length (review_sheet store_name skus) /\
     List.length (data_sheet store_name skus)
     + List.length (review_sheet store_name skus)
     = List.length (SR.rows df)) /\
  (2 <= sku_columns df -> SR.rows df <> [] ->
   SR.process_store_file float_of_str int_max_str_digits disk store_name
     file_path
   = Raise ValueError).
Proof.
  intros R. split; [|now apply two_sku_columns_raise].
  intros O T.
  destruct (text_frame_converts O T) as [skus C].
  assert (H : has_sku df = true) by (apply has_sku_columns; lia).
  destruct (@scraper_file disk store_name file_path df skus R H C)
    as (stats & P & S1 & S2).
  exists skus, stats. repeat split; try assumption.
  rewrite sheets_length, (converted_length _ _ C).
  unfold sku_cells. now rewrite length_map.
Qed.

(** X19.  Whenever [process_store_file] returns its sheets, every row of
    the Data sheet carries the store, the identifier the extractor yields
    for its SKU, the length of the identifier, 10 or 12, and the Amazon
    link for length 10, the eBay link for length 12, never an empty link;
    every row of the review carries a SKU for which the extractor yields
    nothing. *)
Theorem data_rows_are_linked (disk : SR.Disk) (store_name file_path : str)
  (valid_df : option (list SR.ValidRow))
  (invalid_df : option (list SR.InvalidRow)) (stats : Reverb.Stats) :
  SR.process_store_file float_of_str int_max_str_digits disk store_name
    file_path
  = Ok (SR.Three valid_df invalid_df stats) ->
  (forall sheet r, valid_df = Some sheet -> In r sheet ->
     SR.v_STORE_NAME r = store_name /\
     DataScraper.extract_asin_from_sku (PyStr (SR.v_SKU r))
     = (SR.v_ASIN r, true) /\
     SR.v_LEN r = len (SR.v_ASIN r) /\
     ((SR.v_LEN r = 10 /\ SR.v_LINKS r = amazon ++ SR.v_ASIN r) \/
      (SR.v_LEN r = 12 /\ SR.v_LINKS r = ebay ++ SR.v_ASIN r))) /\
  (forall sheet r, invalid_df = Some sheet -> In r sheet ->
     SR.i_STORE_NAME r = store_name /\
     DataScraper.extract_asin_from_sku (PyStr (SR.i_SKU r)) = ([], false)).
Proof.
  unfold SR.process_store_file.
  destruct (SR.read_input_file disk file_path) as [df|e] eqn:R;
    [|discriminate].
  destruct (negb _) eqn:H; [discriminate|].
  fold (sku_cells df).
  destruct (SR.process_rows _ _ _ _) as [st|e] eqn:P; [|discriminate].
  intros Q. injection Q as <- <- _.
  destruct (rows_went_through _ _ _ P) as [skus C].
  destruct (scraper_rows store_name (sku_cells df) skus
              (SR.MkState [] [] Reverb.no_stats []) C)
    as (st' & P' & V & I & _); [simpl; lia|].
  rewrite P in P'. injection P' as <-.
  cbn [SR.valid_data SR.invalid_data app] in V, I. rewrite V, I. split.
  - intros sheet r E Hr.
    assert (Hd : In r (data_sheet store_name skus)).
    { destruct (data_sheet store_name skus); [discriminate E|].
      injection E as <-. exact Hr. }
    unfold data_sheet in Hd. apply in_map_iff in Hd as (sku & <- & Hs).
    apply filter_In in Hs as [_ Y]. unfold yields in Y.
    unfold valid_row. cbv zeta.
    cbn [SR.v_STORE_NAME SR.v_SKU SR.v_ASIN SR.v_LEN SR.v_LINKS].
    destruct (DataScraper.extract_asin_from_sku (PyStr sku)) as [id ok] eqn:X.
    cbn [snd] in Y. subst ok. cbn [fst].
    destruct (extracted_passes _ X) as [_ L].
    repeat split. exact L.
  - intros sheet r E Hr.
    assert (Hd : In r (review_sheet store_name skus)).
    { destruct (review_sheet store_name skus); [discriminate E|].
      injection E as <-. exact Hr. }
    unfold review_sheet in Hd. apply in_map_iff in Hd as (sku & <- & Hs).
    apply filter_In in Hs as [_ Y]. unfold yields in Y.
    apply negb_true_iff in Y. cbn [SR.i_STORE_NAME SR.i_SKU].
    split; [reflexivity|]. now apply extract_failure.
Qed.

(** ** The stores of a run *)

Lemma found_some disk store df :
  found disk store = Some df ->
  exists file_path,
    SR.find_input_file disk store = Some file_path /\
    SR.read_input_file disk file_path = Ok df.
Proof.
  unfold found. destruct (SR.find_input_file disk store) as [p|];
    [|discriminate].
  destruct (SR.read_input_file disk p) as [d|] eqn:R; [|discriminate].
  intros E. injection E as <-. now exists p.
Qed.

Lemma found_none disk store :
  found disk store = None -> SR.find_input_file disk store = None.
Proof.
  unfold found. destruct (SR.find_input_file disk store) as [p|] eqn:F;
    [|reflexivity].
  destruct (found_path_reads _ _ F) as [df R]. rewrite R. discriminate.
Qed.

(** A sheet without SKU column stops the store loop. *)
Lemma store_without_sku disk store df acc :
  found disk store = Some df -> has_sku df = false ->
  SR.process_store float_of_str int_max_str_digits disk store acc
  = Raise ValueError.
Proof.
  intros F H. apply found_some in F as (p & F & R).
  unfold SR.process_store, SR.process_store_file. rewrite F, R.
  unfold has_sku in H. now rewrite H.
Qed.

(** A sheet in order adds its two sheets to the lists. *)
Lemma store_in_order disk store df acc :
  found disk store = Some df -> sku_columns df = 1 -> text_frame df ->
  exists skus,
    List.length skus = List.length (SR.rows df) /\
    SR.process_store float_of_str int_max_str_digits disk store acc
    = Ok (SR.MkCollected
            (SR.all_valid_data acc ++ piece (data_sheet store skus))
            (SR.all_invalid_data acc ++ piece (review_sheet store skus))
            (S (SR.files_processed acc))).
Proof.
  intros F O T. apply found_some in F as (p & F & R).
  destruct (text_frame_converts O T) as [skus C].
  assert (H : has_sku df = true) by (apply has_sku_columns; lia).
  destruct (@scraper_file disk store p df skus R H C) as (stats & P & _).
  exists skus. split.
  - rewrite (converted_length _ _ C). unfold sku_cells. now rewrite length_map.
  - unfold SR.process_store. rewrite F, P.
    destruct (data_sheet store skus), (review_sheet store skus);
      cbn [SR.nonempty piece]; now rewrite ?app_nil_r.
Qed.

Lemma stores_abort disk bad df : forall stores acc,
  In bad stores -> found disk bad = Some df -> has_sku df = false ->
  exists e,
    SR.process_stores float_of_str int_max_str_digits disk stores acc
    = Raise e.
Proof.
  induction stores as [|store stores IH]; intros acc Hin F H;
    [destruct Hin|]. cbn [SR.process_stores]. destruct Hin as [-> | Hin].
  - rewrite (store_without_sku disk bad acc F H). now exists ValueError.
  - destruct (SR.process_store float_of_str int_max_str_digits disk store
                acc) as [acc'|e];
      [now apply IH|now exists e].
Qed.

Lemma concat_piece {A} (l : list (list A)) (sheet : list A) :
  List.length (List.concat (l ++ piece sheet))
  = List.length (List.concat l) + List.length sheet.
Proof.
  rewrite concat_app, length_app. f_equal.
  destruct sheet; simpl; [reflexivity|]. now rewrite app_nil_r.
Qed.

Lemma Forall_piece {A} (l : list (list A)) (sheet : list A) :
  Forall (fun s => s <> []) l -> Forall (fun s => s <> []) (l ++ piece sheet).
Proof.
  intros H. apply Forall_app. split; [exact H|].
  destruct sheet; simpl; [constructor|].
  constructor; [discriminate|constructor].
Qed.

Lemma stores_in_order disk : forall stores acc,
  sheets_in_order disk stores ->
  Forall (fun s => s <> []) (SR.all_valid_data acc) ->
  Forall (fun s => s <> []) (SR.all_invalid_data acc) ->
  exists acc',
    SR.process_stores float_of_str int_max_str_digits disk stores acc
    = Ok acc' /\
    pieces_counted disk stores acc acc' /\
    Forall (fun s => s <> []) (SR.all_valid_data acc') /\
    Forall (fun s => s <> []) (SR.all_invalid_data acc').
Proof.
  induction stores as [|store stores IH]; intros acc O V I.
  - exists acc. unfold pieces_counted, found_rows. simpl.
    repeat split; try assumption. lia.
  - assert (O' : sheets_in_order disk stores)
      by (intros s d Hs; apply O; now right).
    cbn [SR.process_stores].
    destruct (found disk store) as [df|] eqn:F.
    + destruct (O store df (or_introl eq_refl) F) as [H T].
      destruct (store_in_order disk store acc F H T) as (skus & L & P).
      rewrite P.
      destruct (IH (SR.MkCollected
                      (SR.all_valid_data acc ++ piece (data_sheet store skus))
                      (SR.all_invalid_data acc
                       ++ piece (review_sheet store skus))
                      (S (SR.files_processed acc))) O')
        as (acc' & R & C & V' & I');
        [now apply Forall_piece|now apply Forall_piece|].
      exists acc'. repeat split; try assumption.
      unfold pieces_counted in *.
      cbn [SR.all_valid_data SR.all_invalid_data] in C.
      rewrite C, !concat_piece. unfold found_rows. cbn [map]. rewrite F.
      unfold list_sum. cbn [fold_right].
      pose proof (sheets_length store skus). lia.
    + unfold SR.process_store. rewrite (found_none _ _ F).
      destruct (IH acc O' V I) as (acc' & R & C & V' & I').
      exists acc'. repeat split; try assumption.
      unfold pieces_counted in *. rewrite C. unfold found_rows. cbn [map].
      rewrite F. unfold list_sum. cbn [fold_right]. lia.
Qed.

(** X20.  A sheet found for a store that has no SKU column stops the whole
    run: [process_store_file] answers with two values where [main] takes
    three, the run ends with an exception, and no workbook is written, not
    even for the stores read before. *)
Theorem missing_sku_column_aborts_the_run (disk : SR.Disk)
  (store_name : str) (df : SR.Frame) :
  SR.os_path_exists disk SR.INPUT_DIR = true ->
  In store_name SR.STORE_FILES ->
  found disk store_name = Some df ->
  has_sku df = false ->
  (forall acc,
     SR.process_store float_of_str int_max_str_digits disk store_name acc
     = Raise ValueError) /\
  exists e, SR.main float_of_str int_max_str_digits disk = Raise e.
Proof.
  intros D Hin F H. split; [intros acc; now apply store_without_sku with df|].
  unfold SR.main. rewrite D. cbn [negb].
  destruct (stores_abort disk store_name SR.STORE_FILES
              (SR.MkCollected [] [] 0) Hin F H) as [e R].
  rewrite R. now exists e.
Qed.

(** X21.  When every sheet found has string cells and one column that
    reads sku, the run completes, and the workbook holds one row for each
    row read: the rows of the Data sheet and of the Manual Review sheet add
    up to the rows of the sheets found, a sheet is left out exactly when it
    would be empty, and no workbook is written exactly when no row was
    read. *)
Theorem workbook_holds_every_row (disk : SR.Disk) :
  SR.os_path_exists disk SR.INPUT_DIR = true ->
  sheets_in_order disk SR.STORE_FILES ->
  exists out,
    SR.main float_of_str int_max_str_digits disk = Ok out /\
    every_row_written disk out.
Proof.
  intros D O. unfold SR.main. rewrite D. cbn [negb].
  destruct (@stores_in_order disk SR.STORE_FILES (SR.MkCollected [] [] 0) O)
    as (acc & R & C & V & I); [constructor|constructor|].
  rewrite R. unfold pieces_counted in C.
  cbn [SR.all_valid_data SR.all_invalid_data List.concat List.length] in C.
  assert (N : forall A (l : list (list A)),
             Forall (fun s => s <> []) l ->
             (l = [] <-> List.length (List.concat l) = 0)).
  { intros A l Hl. split; [intros ->; reflexivity|].
    destruct l as [|s l]; [reflexivity|].
    inversion Hl as [|? ? Hs _]. destruct s; [now elim Hs|discriminate]. }
  destruct (SR.all_valid_data acc) as [|v vs] eqn:Ev;
    destruct (SR.all_invalid_data acc) as [|i il] eqn:Ei.
  - exists None. split; [reflexivity|]. simpl in C. simpl. lia.
  - eexists. split; [reflexivity|]. unfold every_row_written.
    cbn [SR.valid_count SR.invalid_count SR.Data SR.Manual_Review].
    pose proof (proj2 (N _ _ I)) as Ni.
    repeat split; try (intros; congruence); try (simpl in *; lia).
    + destruct (List.length (List.concat (i :: il))) eqn:Q;
        [discriminate (Ni eq_refl)|simpl in C; lia].
    + intros Z. discriminate (Ni Z).
  - eexists. split; [reflexivity|]. unfold every_row_written.
    cbn [SR.valid_count SR.invalid_count SR.Data SR.Manual_Review].
    pose proof (proj2 (N _ _ V)) as Nv.
    repeat split; try (intros; congruence); try (simpl in *; lia).
    + destruct (List.length (List.concat (v :: vs))) eqn:Q;
        [discriminate (Nv eq_refl)|simpl in C; lia].
    + intros Z. discriminate (Nv Z).
  - eexists. split; [reflexivity|]. unfold every_row_written.
    cbn [SR.valid_count SR.invalid_count SR.Data SR.Manual_Review].
    pose proof (proj2 (N _ _ V)) as Nv. pose proof (proj2 (N _ _ I)) as Ni.
    repeat split; try (intros; congruence); try (simpl in *; lia).
    + destruct (List.length (List.concat (v :: vs))) eqn:Q;
        [discriminate (Nv eq_refl)|simpl in C; lia].
    + intros Z. discriminate (Nv Z).
    + intros Z. discriminate (Ni Z).
Qed.

End ScraperFacts.

Lemma three_rows_are_text :
  text_frame (SR.MkFrame [lit " SKU "; lit "Stock"] three_rows).
Proof.
  intros row v Hrow Hv. cbn [SR.rows] in Hrow. unfold three_rows in Hrow.
  destruct Hrow as [<- | [<- | [<- | []]]];
    destruct Hv as [<- | [<- | []]]; reflexivity.
Qed.

Lemma sheets_partition_the_rows_witness :
  (exists skus stats,
     SR.process_store_file no_float default_limit example_disk (lit "MZM")
       example_path
     = Ok (SR.Three (SR.nonempty (data_sheet (lit "MZM") skus))
             (SR.nonempty (review_sheet (lit "MZM") skus)) stats) /\
     List.length (data_sheet (lit "MZM") skus)
     + List.length (review_sheet (lit "MZM") skus) = 3) /\
  SR.process_store_file no_float default_limit
    (one_sheet [lit "SKU"; lit " sku"] three_rows) (lit "MZM") example_path
  = Raise ValueError.
Proof.
  split.
  - destruct (proj1 (@sheets_partition_the_rows no_float default_limit
                       example_disk (lit "MZM") example_path _ eq_refl)
                eq_refl three_rows_are_text)
      as (skus & stats & _ & P & _ & _ & L).
    exists skus, stats. split; [exact P|exact L].
  - apply (proj2 (@sheets_partition_the_rows no_float default_limit
                    (one_sheet [lit "SKU"; lit " sku"] three_rows)
                    (lit "MZM") example_path _ eq_refl)).
    + vm_compute. lia.
    + discriminate.
Defined.

Lemma data_rows_are_linked_witness :
  let r := valid_row (lit "MZM") (lit "MZM-4KTCXB0CYZ-New") in
  (SR.v_LEN r = 10 /\ SR.v_LINKS r = amazon ++ SR.v_ASIN r) \/
  (SR.v_LEN r = 12 /\ SR.v_LINKS r = ebay ++ SR.v_ASIN r).
Proof.
  intros r.
  exact (proj2 (proj2 (proj2
           (proj1 (@data_rows_are_linked no_float default_limit example_disk
                     (lit "MZM") example_path _ _ _ eq_refl)
              _ r eq_refl (or_introl eq_refl))))).
Defined.

Lemma missing_sku_column_aborts_the_run_witness :
  SR.process_store no_float default_limit
    (one_sheet [lit "ASIN"] three_rows) (lit "MZM") (SR.MkCollected [] [] 0)
  = Raise ValueError.
Proof.
  apply (@missing_sku_column_aborts_the_run no_float default_limit
           (one_sheet [lit "ASIN"] three_rows) (lit "MZM")
           (SR.MkFrame [lit "ASIN"] three_rows)).
  - reflexivity.
  - right; left; reflexivity.
  - reflexivity.
  - reflexivity.
Defined.

Lemma example_in_order : sheets_in_order example_disk SR.STORE_FILES.
Proof.
  intros store df Hin F. unfold SR.STORE_FILES in Hin.
  destruct Hin as [<- | [<- | [<- | [<- | [<- | [<- | []]]]]]];
    vm_compute in F; try discriminate F.
  injection F as <-. split; [reflexivity|].
  exact three_rows_are_text.
Qed.

Lemma workbook_holds_every_row_witness :
  exists out,
    SR.main no_float default_limit example_disk = Ok out /\
    every_row_written example_disk out.
Proof.
  exact (@workbook_holds_every_row no_float default_limit example_disk
           eq_refl example_in_order).
Defined.

(* ================================================================== *)
(** * The choice of a store *)
(* ================================================================== *)

Section StoreChoiceFacts.
Variable int_of_str : str -> option Z.

Lemma nth_store (n : Z) :
  (1 <= n <= 6)%Z ->
  nth_error PVU.STORES (Z.to_nat (n - 1))
  = Some (nth (Z.to_nat (n - 1)) PVU.STORES []).
Proof.
  intros H. apply nth_error_nth'. unfold PVU.STORES. simpl. lia.
Qed.

(** A digit is its own upper-case form. *)
Lemma digit_upper c :
  isdigit c = true ->
  (if N.eqb (code c) 223 then lit "SS" else [MSP.upper_char c]) = [c].
Proof. by_char c. Qed.

(** A name of a store is no numeral. *)
Lemma store_name_is_no_numeral s :
  In (Text.upper (strip s)) PVU.STORES -> str_isdigit (strip s) = false.
Proof.
  intros Hk. destruct (strip s) as [|c t]; [reflexivity|].
  destruct (str_isdigit (c :: t)) eqn:Dg; [|reflexivity].
  exfalso. unfold str_isdigit in Dg. cbn [forallb] in Dg.
  apply andb_true_iff in Dg as [Dc _].
  unfold Text.upper in Hk. cbn [flat_map] in Hk.
  match type of Hk with
  | In (?x ++ _) _ =>
      assert (X : x = [c]) by exact (digit_upper c Dc); rewrite X in Hk
  end.
  cbn [app] in Hk. unfold PVU.STORES in Hk. simpl in Hk.
  destruct Hk as [E | [E | [E | [E | [E | [E | []]]]]]];
    injection E as <- _; discriminate Dc.
Qed.

(** What one line does to the choice. *)
Lemma select_store_line s rest :
  (forall k, names_store int_of_str s k ->
     StoreChoice.select_store int_of_str (StoreChoice.Line s :: rest)
     = StoreChoice.Selected k) /\
  (passed_over int_of_str s ->
     StoreChoice.select_store int_of_str (StoreChoice.Line s :: rest)
     = StoreChoice.select_store int_of_str rest) /\
  (forall k,
     StoreChoice.select_store int_of_str (StoreChoice.Line s :: rest)
     = StoreChoice.Selected k ->
     names_store int_of_str s k \/
     (passed_over int_of_str s /\
      StoreChoice.select_store int_of_str rest = StoreChoice.Selected k)).
Proof.
  cbn [StoreChoice.select_store].
  assert (Six : Z.of_nat (List.length PVU.STORES) = 6%Z) by reflexivity.
  rewrite Six.
  split; [|split].
  - intros k [(Dg & n & I & R & Hn) | [Hk U]].
    + rewrite Dg, I.
      assert (B : Z.leb 1 n && Z.leb n 6 = true)
        by (apply andb_true_iff; split; apply Z.leb_le; lia).
      rewrite B. f_equal. rewrite (nth_store R) in Hn. now injection Hn.
    + subst k. rewrite (store_name_is_no_numeral s Hk).
      apply is_store_in in Hk. unfold PVU.is_store in Hk. now rewrite Hk.
  - intros [Nk Nd].
    assert (E : existsb (str_eqb (Text.upper (strip s))) PVU.STORES = false).
    { destruct (existsb _ PVU.STORES) eqn:D; [|reflexivity].
      elim Nk. now apply is_store_in. }
    rewrite E. destruct Nd as [-> | (n & I & R)]; [reflexivity|].
    rewrite I. destruct (str_isdigit (strip s)); [|reflexivity].
    assert (B : Z.leb 1 n && Z.leb n 6 = false).
    { apply andb_false_iff.
      destruct (Z.leb_spec 1 n); [|now left].
      destruct (Z.leb_spec n 6); [elim R; lia|now right]. }
    now rewrite B.
  - intros k.
    assert (ByName :
      (if existsb (str_eqb (Text.upper (strip s))) PVU.STORES
       then StoreChoice.Selected (Text.upper (strip s))
       else StoreChoice.select_store int_of_str rest)
      = StoreChoice.Selected k ->
      (In k PVU.STORES /\ Text.upper (strip s) = k) \/
      (~ In (Text.upper (strip s)) PVU.STORES /\
       StoreChoice.select_store int_of_str rest = StoreChoice.Selected k)).
    { destruct (existsb _ PVU.STORES) eqn:D.
      - intros E. injection E as <-. left.
        split; [now apply is_store_in|reflexivity].
      - intros E. right. split; [|exact E].
        intros H. apply is_store_in in H. unfold PVU.is_store in H.
        now rewrite D in H. }
    destruct (str_isdigit (strip s)) eqn:Dg.
    + destruct (int_of_str (strip s)) as [n|] eqn:I; [|discriminate].
      destruct (Z.leb 1 n && Z.leb n 6) eqn:B.
      * apply andb_true_iff in B as [B1 B2]. apply Z.leb_le in B1, B2.
        clear ByName. intros E. injection E as E. left. left.
        split; [exact Dg|]. exists n. split; [exact I|].
        split; [lia|]. rewrite <- E. exact (nth_store (conj B1 B2)).
      * intros E. destruct (ByName E) as [N | [Nk R]]; [left; now right|].
        right. split; [|exact R]. split; [exact Nk|]. right.
        exists n. split; [exact I|]. intros [R1 R2].
        apply andb_false_iff in B as [B | B]; apply Z.leb_gt in B; lia.
    + intros E. destruct (ByName E) as [N | [Nk R]]; [left; now right|].
      right. split; [|exact R]. split; [exact Nk|now left].
Qed.

(** X22.  [select_store] gives back a key of [STORES] only, so the lookup
    of its token cannot fail, and the store it gives back is the one named
    by the first line that names a store: it selects [k] exactly when the
    lines typed are lines that are passed over, each of them no name of a
    store and no number from 1 to 6, followed by a line that names [k] by
    its number or by its name in any casing. *)
Theorem selected_store_is_a_key (typed : list StoreChoice.Typed) (k : str) :
  (StoreChoice.select_store int_of_str typed = StoreChoice.Selected k <->
   exists before s after,
     typed = map StoreChoice.Line before ++ StoreChoice.Line s :: after /\
     (forall b, In b before -> passed_over int_of_str b) /\
     names_store int_of_str s k) /\
  (StoreChoice.select_store int_of_str typed = StoreChoice.Selected k ->
   In k PVU.STORES).
Proof.
  assert (Iff :
    StoreChoice.select_store int_of_str typed = StoreChoice.Selected k <->
    exists before s after,
      typed = map StoreChoice.Line before ++ StoreChoice.Line s :: after /\
      (forall b, In b before -> passed_over int_of_str b) /\
      names_store int_of_str s k).
  { induction typed as [|[s|] rest IH].
    - split; [discriminate|]. intros (before & s & after & E & _).
      now destruct before.
    - destruct (select_store_line s rest) as (Names & Passes & Inv). split.
      + intros E. destruct (Inv k E) as [N | [P R]].
        * exists [], s, rest. split; [reflexivity|].
          split; [intros b []|exact N].
        * apply IH in R as (before & s' & after & -> & Pb & N).
          exists (s :: before), s', after. split; [reflexivity|].
          split; [|exact N]. intros b [<- | Hb]; [exact P|now apply Pb].
      + intros (before & s' & after & E & Pb & N).
        destruct before as [|b before].
        * injection E as -> ->. now apply Names.
        * injection E as -> ->.
          rewrite (Passes (Pb b (or_introl eq_refl))). apply IH.
          exists before, s', after. split; [reflexivity|].
          split; [|exact N]. intros c Hc. apply Pb. now right.
    - split; [discriminate|]. intros (before & s & after & E & _).
      now destruct before. }
  split; [exact Iff|].
  intros E. apply Iff in E as (before & s & after & _ & _ & N).
  destruct N as [(_ & n & _ & _ & Hn) | [Hk _]]; [|exact Hk].
  now apply nth_error_In in Hn.
Qed.

(** X23.  A line that is the name of a store, in any casing and with
    blanks around it, selects that store at once, whatever follows; a line
    of digits that [int] refuses ends the script. *)
Theorem store_name_selects_at_once (s k : str)
  (rest : list StoreChoice.Typed) :
  (In k PVU.STORES -> Text.upper (strip s) = k ->
   StoreChoice.select_store int_of_str (StoreChoice.Line s :: rest)
   = StoreChoice.Selected k) /\
  (str_isdigit (strip s) = true -> int_of_str (strip s) = None ->
   StoreChoice.select_store int_of_str (StoreChoice.Line s :: rest)
   = StoreChoice.Exit).
Proof.
  split.
  - intros Hk U. cbn [StoreChoice.select_store].
    assert (D : str_isdigit (strip s) = false).
    { revert U. destruct (strip s) as [|c t] eqn:T; intros U; [reflexivity|].
      destruct (str_isdigit (c :: t)) eqn:Dg; [|reflexivity].
      exfalso. unfold str_isdigit in Dg. cbn [forallb] in Dg.
      apply andb_true_iff in Dg as [Dc _].
      unfold Text.upper in U. cbn [flat_map] in U.
      match type of U with
      | ?x ++ _ = _ =>
          assert (X : x = [c]) by exact (digit_upper c Dc); rewrite X in U
      end. cbn [app] in U.
      unfold PVU.STORES in Hk. simpl in Hk.
      destruct Hk as [<- | [<- | [<- | [<- | [<- | [<- | []]]]]]];
        injection U as -> _; discriminate Dc. }
    rewrite D. subst k.
    apply is_store_in in Hk. unfold PVU.is_store in Hk. now rewrite Hk.
  - intros D I. cbn [StoreChoice.select_store]. now rewrite D, I.
Qed.

End StoreChoiceFacts.

Lemma selected_store_is_a_key_witness :
  In (lit "GGL") PVU.STORES /\ In (lit "MZM") PVU.STORES.
Proof.
  split.
  - exact (proj2 (@selected_store_is_a_key reads_two
                    [StoreChoice.Line (lit "zzz"); StoreChoice.Line (lit " 2 ")]
                    (lit "GGL")) eq_refl).
  - exact (proj2 (@selected_store_is_a_key reads_two
                    [StoreChoice.Line (lit "");
                     StoreChoice.Line (lit " mzm ");
                     StoreChoice.KeyboardInterrupt]
                    (lit "MZM")) eq_refl).
Defined.

(** The first line that names a store decides: after the number 2, the
    name mzm is not looked at. *)
Example first_named_store_wins :
  StoreChoice.select_store reads_two
    [StoreChoice.Line (lit "2"); StoreChoice.Line (lit "mzm")]
  = StoreChoice.Selected (lit "GGL").
Proof. reflexivity. Qed.

Lemma store_name_selects_at_once_witness :
  StoreChoice.select_store reads_two
    [StoreChoice.Line (lit " amh"); StoreChoice.KeyboardInterrupt]
  = StoreChoice.Selected (lit "AMH").
Proof.
  apply (proj1 (@store_name_selects_at_once reads_two (lit " amh") (lit "AMH")
                  [StoreChoice.KeyboardInterrupt])); [|reflexivity].
  simpl. tauto.
Defined.

(* ================================================================== *)
(** * The conversion of a cell *)
(* ================================================================== *)

Lemma uint_chars d :
  forallb numeral_char (lit (NilEmpty.string_of_uint d)) = true.
Proof. induction d; simpl; try reflexivity; exact IHd. Qed.

Lemma str_of_Z_chars z : forallb numeral_char (Text.str_of_Z z) = true.
Proof.
  unfold Text.str_of_Z. destruct (Z.to_int z) as [d|d]; simpl.
  - apply uint_chars.
  - apply uint_chars.
Qed.

Lemma numeral_not_space c : numeral_char c = true -> negb (isspace c) = true.
Proof. by_char c. Qed.

Lemma numeral_lower c : numeral_char c = true -> Text.lower_char c = c.
Proof. by_char c. Qed.

Lemma numeral_not_e c : numeral_char c = true -> Ascii.eqb c "e" = false.
Proof. by_char c. Qed.

Lemma contains_head c k s : contains (c :: k) s = true -> In c s.
Proof.
  intros H. apply contains_spec in H as (pre & post & ->).
  apply in_or_app. right. now left.
Qed.

(** A numeral has no exponent, and no blanks to trim. *)
Lemma numeral_is_plain t :
  forallb numeral_char t = true ->
  strip t = t /\
  contains (lit "e+") (Text.lower t) = false /\
  contains (lit "e-") (Text.lower t) = false.
Proof.
  intros H.
  assert (L : Text.lower t = t).
  { unfold Text.lower. induction t as [|c t IH]; [reflexivity|].
    simpl in H. apply andb_true_iff in H as [Hc Ht].
    simpl. now rewrite (numeral_lower c Hc), IH. }
  assert (E : ~ In "e"%char t).
  { intros Hin. rewrite forallb_forall in H.
    pose proof (numeral_not_e _ (H _ Hin)) as Q. discriminate Q. }
  rewrite L. split; [|split].
  - apply strip_no_space. revert H. apply forallb_impl, numeral_not_space.
  - destruct (contains (lit "e+") t) eqn:C; [|reflexivity].
    elim E. exact (contains_head _ _ _ C).
  - destruct (contains (lit "e-") t) eqn:C; [|reflexivity].
    elim E. exact (contains_head _ _ _ C).
Qed.

Section ConversionFacts.
Variable float_of_str : str -> option float.
Variable int_max_str_digits : nat.

Lemma str_of_int_cases n :
  SR.str_of_int int_max_str_digits n
  = if too_long int_max_str_digits n then Raise ValueError
    else Ok (Text.str_of_Z n).
Proof. reflexivity. Qed.

(** A numeral is left as it is. *)
Lemma numeral_converts t :
  forallb numeral_char t = true ->
  SR.convert_to_string float_of_str int_max_str_digits (PyStr t) = Ok t.
Proof.
  intros H. destruct (numeral_is_plain t H) as (S & C1 & C2).
  unfold SR.convert_to_string. cbn [isna]. now rewrite S, C1, C2.
Qed.

(** A text converts to its trimmed form or to a numeral, and the text it
    converts to converts to itself. *)
Lemma text_settles s t :
  SR.convert_to_string float_of_str int_max_str_digits (PyStr s) = Ok t ->
  SR.convert_to_string float_of_str int_max_str_digits (PyStr t) = Ok t.
Proof.
  unfold SR.convert_to_string at 1. cbn [isna].
  destruct (_ || _) eqn:X.
  - destruct (float_of_str (strip s)) as [num|] eqn:F.
    + destruct (int_of_float num) as [n|e] eqn:I.
      * rewrite str_of_int_cases. destruct (too_long _ n) eqn:L.
        -- intros E. injection E as <-.
           unfold SR.convert_to_string. cbn [isna].
           rewrite strip_idempotent, X, F, I, str_of_int_cases, L.
           reflexivity.
        -- intros E. injection E as <-.
           apply numeral_converts, str_of_Z_chars.
      * intros E. injection E as <-.
        unfold SR.convert_to_string. cbn [isna].
        rewrite strip_idempotent, X, F, I. reflexivity.
    + intros E. injection E as <-.
      unfold SR.convert_to_string. cbn [isna].
      rewrite strip_idempotent, X, F. reflexivity.
  - intros E. injection E as <-.
    unfold SR.convert_to_string. cbn [isna].
    rewrite strip_idempotent, X. reflexivity.
Qed.

(** X24.  [convert_to_string] fails on two kinds of cells only: on an
    infinite float, with the [OverflowError] of [int], and on an integer,
    or a float with an integer part, whose numeral is longer than the limit
    of the interpreter on the digits of an integer, with a [ValueError];
    a text never fails.  And the conversion settles at once: the text it
    makes of a cell is left as it is when it is converted again. *)
Theorem conversion_settles (v : value) :
  (SR.convert_to_string float_of_str int_max_str_digits v
   = Raise OverflowError <->
   exists s, v = PyFloat (S754_infinity s)) /\
  (SR.convert_to_string float_of_str int_max_str_digits v
   = Raise ValueError <->
   exists n, integer_of v = Some n /\ too_long int_max_str_digits n = true) /\
  (forall t,
     SR.convert_to_string float_of_str int_max_str_digits v = Ok t ->
     SR.convert_to_string float_of_str int_max_str_digits (PyStr t) = Ok t).
Proof.
  assert (Empty : SR.convert_to_string float_of_str int_max_str_digits
                    (PyStr []) = Ok []) by reflexivity.
  assert (Int : forall n,
    (SR.str_of_int int_max_str_digits n = Raise OverflowError <-> False) /\
    (SR.str_of_int int_max_str_digits n = Raise ValueError <->
     too_long int_max_str_digits n = true) /\
    (forall t, SR.str_of_int int_max_str_digits n = Ok t ->
       SR.convert_to_string float_of_str int_max_str_digits (PyStr t)
       = Ok t)).
  { intros n. rewrite str_of_int_cases.
    destruct (too_long int_max_str_digits n).
    - split; [split; [discriminate|contradiction]|].
      split; [split; reflexivity|discriminate].
    - split; [split; [discriminate|contradiction]|].
      split; [split; discriminate|].
      intros t E. injection E as <-.
      apply numeral_converts, str_of_Z_chars. }
  destruct v as [| x | z | s].
  - split; [split; [discriminate|intros [s E]; discriminate E]|].
    split; [split; [discriminate|intros (n & E & _); discriminate E]|].
    intros t E. injection E as <-. exact Empty.
  - unfold SR.convert_to_string, integer_of. cbn [isna].
    destruct x as [sg | sg | | sg m ex]; cbn [is_nan int_of_float].
    + destruct (Int 0%Z) as (I1 & I2 & I3).
      split; [rewrite I1; split; [contradiction|intros [s E]; discriminate E]|].
      split; [|exact I3]. rewrite I2. split.
      * intros L. now exists 0%Z.
      * intros (n & E & L). now injection E as <-.
    + split; [split; [intros _; now exists sg|reflexivity]|].
      split; [split; [discriminate|intros (n & E & _); discriminate E]|].
      discriminate.
    + split; [split; [discriminate|intros [s E]; discriminate E]|].
      split; [split; [discriminate|intros (n & E & _); discriminate E]|].
      intros t E. injection E as <-. exact Empty.
    + match goal with
      | |- context [SR.str_of_int _ ?n] => destruct (Int n) as (I1 & I2 & I3)
      end.
      split; [rewrite I1; split; [contradiction|intros [s E]; discriminate E]|].
      split; [|exact I3]. rewrite I2. split.
      * intros L. eexists. split; [reflexivity|exact L].
      * intros (n & E & L). now injection E as <-.
  - unfold SR.convert_to_string, integer_of. cbn [isna].
    destruct (Int z) as (I1 & I2 & I3).
    split; [rewrite I1; split; [contradiction|intros [s E]; discriminate E]|].
    split; [|exact I3]. rewrite I2. split.
    + intros L. now exists z.
    + intros (n & E & L). now injection E as <-.
  - assert (Ok_ : exists t,
              SR.convert_to_string float_of_str int_max_str_digits (PyStr s)
              = Ok t) by now apply text_converts.
    destruct Ok_ as [t0 E0].
    split; [rewrite E0; split; [discriminate|intros [sg E]; discriminate E]|].
    split; [rewrite E0; split;
            [discriminate|intros (n & E & _); discriminate E]|].
    intros t. apply text_settles.
Qed.

End ConversionFacts.

(** With the limit of 4300 digits, the integer written with a one and 4300
    zeros is refused, as [str(10**4300)] is. *)
Example long_integer_is_refused :
  SR.convert_to_string no_float default_limit (PyInt (10 ^ 4300))
  = Raise ValueError.
Proof. vm_compute. reflexivity. Qed.
